(** * MiniContainer / KernelSight runtime: a shallow embedding and its properties

    The C sources under [runtime/src] are translated function by function.
    System and library calls are the effects of the program: every function
    of the runtime becomes a value of the free monad [prog] over the calls it
    issues, and an oracle answers each call.  The answers are arbitrary, so
    the theorems hold whatever the kernel replies; where the code goes on
    with a NULL pointer that an allocation gave it, or that its caller left
    in the configuration, the program ends in [Faulted]. *)

From Stdlib Require Import ZArith List String Ascii Bool Lia.
From stdpp Require Import base tactics option list gmap strings.

Local Open Scope Z_scope.

(** ** Machine integers

    [int] is 32 bits and [long] is 64 bits (LP64 Linux, the only platform
    the runtime targets).  Signed overflow is undefined in C; the model takes
    the two's complement wrap-around that the usual compilers produce. *)

Definition wrap (w : Z) (x : Z) : Z := (x + 2 ^ (w - 1)) mod 2 ^ w - 2 ^ (w - 1).

Definition INT_MIN : Z := -2147483648.
Definition INT_MAX : Z := 2147483647.
Definition LONG_MIN : Z := -9223372036854775808.
Definition LONG_MAX : Z := 9223372036854775807.

Definition int_mul (a b : Z) : Z := wrap 32 (a * b).
Definition long_mul (a b : Z) : Z := wrap 64 (a * b).
(** C division and remainder truncate toward zero. *)
Definition int_div (a b : Z) : Z := wrap 32 (Z.quot a b).
Definition int_rem (a b : Z) : Z := Z.rem a b.

Definition in_int (x : Z) : Prop := INT_MIN <= x <= INT_MAX.
Definition in_long (x : Z) : Prop := LONG_MIN <= x <= LONG_MAX.

(** ** Text: [printf] conversions and [snprintf] truncation *)

Definition digit_char (d : Z) : ascii :=
  ascii_of_nat (Z.to_nat (if d <? 10 then 48 + d else 87 + d)).

(** The digits of [n] in [base], most significant first; [fuel] bounds the
    number of digits (20 suffice for 64 bits in base 10). *)
Fixpoint digits (base : Z) (fuel : nat) (n : Z) (acc : string) : string :=
  match fuel with
  | O => acc
  | S f =>
      let acc' := String (digit_char (n mod base)) acc in
      if n <? base then acc' else digits base f (n / base) acc'
  end.

(** ["%u"] and ["%lu"] *)
Definition fmt_u (n : Z) : string := digits 10 20 n "".
(** ["%d"] and ["%ld"] *)
Definition fmt_d (n : Z) : string :=
  if n <? 0 then String "-" (fmt_u (- n)) else fmt_u n.
(** ["%x"] of an [int] argument: the value is converted to [unsigned]. *)
Definition fmt_x (n : Z) : string := digits 16 8 (n mod 2 ^ 32) "".

Definition PATH_MAX : nat := 4096.

(** [snprintf buf size ...] keeps at most [size - 1] characters of the
    formatted text. *)
Definition snprintf (size : nat) (formatted : string) : string :=
  substring 0 (size - 1) formatted.

(** [strlen] as a C [int]/[size_t] value *)
Definition strlen (s : string) : Z := Z.of_nat (String.length s).

(** ** Calls and answers *)

(** Arguments of a log line, kept unformatted. *)
Inductive logarg :=
| A_str (s : string)
| A_int (n : Z)
| A_errno (e : Z).

Inductive call :=
(* file descriptors *)
| Open (path : string) (flags : Z)
| Write (fd : Z) (data : string)
| Read (fd : Z) (count : Z)
| Close (fd : Z)
| Pipe
(* stdio streams and directories: the answer to a read-mode [Fopen] carries
   the contents of the file, the answer to [Opendir] the entries *)
| Fopen (path : string) (mode : string)
| Fputs (fp : Z) (data : string)
| Fclose (fp : Z)
| Opendir (path : string)
| Closedir (dir : Z)
| Stderr (level : string) (fmt : string) (args : list logarg)
(* file system *)
| Stat (path : string)
| Access (path : string) (mode : Z)
| Mkdir (path : string) (mode : Z)
| Rmdir (path : string)
| Mknod (path : string) (mode : Z) (dev : Z)
| Symlink (target : string) (linkpath : string)
| Mount (source : option string) (target : string) (fstype : option string)
        (flags : Z) (data : option string)
| Umount2 (target : string) (flags : Z)
| PivotRoot (new_root : string) (put_old : string)
| Chdir (path : string)
(* processes; [Clone] stands for [clone(container_child, stack, flags, &args)]
   and carries the pipe of [args] *)
| Clone (flags : Z) (sync_pipe : Z * Z)
| Fork
| Execvp (file : string) (argv : list string)
| Kill (pid : Z) (sig : Z)
| Waitpid (pid : Z) (options : Z)
| Getpid
| Setns (fd : Z) (nstype : Z)
| Sethostname (name : string) (len : Z)
| Clearenv
| Setenv (key : string) (value : string) (overwrite : Z)
| System (command : string)
(* memory, time, randomness *)
| Calloc (nmemb : Z) (size : Z)
| Malloc (size : Z)
| Realloc (size : Z)
| Free
| Time
| Usleep (usec : Z)
| Srand (seed : Z)
| Rand.

(** What a call gives back: the return value, [errno] as it stands after the
    call, up to two integer out-parameters (the wait status, [st_mode], the
    two descriptors of a pipe), and text or names for reads. *)
Record answer := Ans {
  ret : Z;
  errno : Z;
  out1 : Z;
  out2 : Z;
  text : string;
  names : list string
}.

Definition event : Type := call * answer.

(** How a process ends without returning to its caller: [exit], a
    successful [execvp], or a load or store through a NULL pointer (undefined
    in C; on Linux the process is killed by SIGSEGV). *)
Inductive halt :=
| Exited (code : Z)
| Replaced (file : string) (argv : list string)
| Faulted.

(** ** Programs *)

Inductive prog (A : Type) : Type :=
| Ret (a : A)
| Stop (h : halt)
| Call (c : call) (k : answer -> prog A).

Arguments Ret {A} a.
Arguments Stop {A} h.
Arguments Call {A} c k.

Fixpoint bind {A B} (p : prog A) (f : A -> prog B) : prog B :=
  match p with
  | Ret a => f a
  | Stop h => Stop h
  | Call c k => Call c (fun a => bind (k a) f)
  end.

Declare Scope prog_scope.
Delimit Scope prog_scope with prog.
Notation "x <- p ;; q" := (bind p (fun x => q))
  (at level 100, p at next level, right associativity) : prog_scope.
Notation "p ;; q" := (bind p (fun _ => q))
  (at level 100, right associativity) : prog_scope.
Local Open Scope prog_scope.

Definition sys (c : call) : prog answer := Call c Ret.
Definition exit {A} (code : Z) : prog A := Stop (Exited code).
Definition fault {A} : prog A := Stop Faulted.
Definition when (b : bool) (p : prog unit) : prog unit := if b then p else Ret tt.

(** [execvp] comes back only when it failed. *)
Definition execvp (file : string) (argv : list string) : prog answer :=
  a <- sys (Execvp file argv) ;;
  if ret a =? -1 then Ret a else Stop (Replaced file argv).

(** ** Running a program against an oracle *)

Definition oracle : Type := list event -> call -> answer.

Inductive outcome (A : Type) : Type :=
| Returned (a : A)
| Stopped (h : halt).

Arguments Returned {A} a.
Arguments Stopped {A} h.

Fixpoint run {A} (o : oracle) (p : prog A) (h : list event) : outcome A * list event :=
  match p with
  | Ret a => (Returned a, h)
  | Stop s => (Stopped s, h)
  | Call c k => run o (k (o h c)) (h ++ [(c, o h c)])
  end.

(** ** Data model ([include/container.h]) *)

Inductive container_state_t :=
| CONTAINER_CREATED
| CONTAINER_RUNNING
| CONTAINER_STOPPED
| CONTAINER_PAUSED
| CONTAINER_DELETED.

Definition state_index (s : container_state_t) : nat :=
  match s with
  | CONTAINER_CREATED => 0
  | CONTAINER_RUNNING => 1
  | CONTAINER_STOPPED => 2
  | CONTAINER_PAUSED => 3
  | CONTAINER_DELETED => 4
  end.

Definition state_eqb (a b : container_state_t) : bool :=
  Nat.eqb (state_index a) (state_index b).

(** [mc_error_t]: the functions return [int], so the codes are integers. *)
Definition MC_OK : Z := 0.
Definition MC_ERR_MEMORY : Z := -1.
Definition MC_ERR_NAMESPACE : Z := -2.
Definition MC_ERR_CGROUP : Z := -3.
Definition MC_ERR_FILESYSTEM : Z := -4.
Definition MC_ERR_PROCESS : Z := -5.
Definition MC_ERR_PERMISSION : Z := -6.
Definition MC_ERR_NOT_FOUND : Z := -7.
Definition MC_ERR_INVALID : Z := -8.
Definition MC_ERR_EXISTS : Z := -9.
Definition MC_ERR_IO : Z := -10.

Record resource_limits_t := {
  memory_limit_bytes : Z;
  memory_swap_bytes : Z;
  cpu_shares : Z;
  cpu_quota_us : Z;
  cpu_period_us : Z;
  pids_max : Z
}.

(** [cmd] and [env] are [char **]: [None] is the NULL pointer, [Some l] an
    array that holds the strings of [l] and then a NULL entry. *)
Record container_config_t := {
  id : string;
  name : string;
  hostname : string;
  rootfs : string;
  cmd : option (list string);
  cmd_count : Z;
  env : option (list string);
  env_count : Z;
  limits : resource_limits_t;
  enable_network : Z;
  enable_user_ns : Z;
  uid_map_host : Z;
  uid_map_container : Z;
  gid_map_host : Z;
  gid_map_container : Z
}.

Record container_metrics_t := {
  memory_usage_bytes : Z;
  memory_max_usage_bytes : Z;
  metrics_memory_limit_bytes : Z;
  cpu_usage_ns : Z;
  pids_current : Z;
  pids_limit : Z
}.

Record container_t := {
  config : container_config_t;
  state : container_state_t;
  pid : Z;
  exit_code : Z;
  cgroup_path : string;
  state_dir : string;
  created_at : Z;
  started_at : Z;
  stopped_at : Z
}.

Definition with_config (c : container_t) (v : container_config_t) : container_t :=
  {| config := v; state := state c; pid := pid c; exit_code := exit_code c;
     cgroup_path := cgroup_path c; state_dir := state_dir c;
     created_at := created_at c; started_at := started_at c; stopped_at := stopped_at c |}.
Definition with_state (c : container_t) (v : container_state_t) : container_t :=
  {| config := config c; state := v; pid := pid c; exit_code := exit_code c;
     cgroup_path := cgroup_path c; state_dir := state_dir c;
     created_at := created_at c; started_at := started_at c; stopped_at := stopped_at c |}.
Definition with_pid (c : container_t) (v : Z) : container_t :=
  {| config := config c; state := state c; pid := v; exit_code := exit_code c;
     cgroup_path := cgroup_path c; state_dir := state_dir c;
     created_at := created_at c; started_at := started_at c; stopped_at := stopped_at c |}.
Definition with_exit_code (c : container_t) (v : Z) : container_t :=
  {| config := config c; state := state c; pid := pid c; exit_code := v;
     cgroup_path := cgroup_path c; state_dir := state_dir c;
     created_at := created_at c; started_at := started_at c; stopped_at := stopped_at c |}.
Definition with_cgroup_path (c : container_t) (v : string) : container_t :=
  {| config := config c; state := state c; pid := pid c; exit_code := exit_code c;
     cgroup_path := v; state_dir := state_dir c;
     created_at := created_at c; started_at := started_at c; stopped_at := stopped_at c |}.
Definition with_state_dir (c : container_t) (v : string) : container_t :=
  {| config := config c; state := state c; pid := pid c; exit_code := exit_code c;
     cgroup_path := cgroup_path c; state_dir := v;
     created_at := created_at c; started_at := started_at c; stopped_at := stopped_at c |}.
Definition with_created_at (c : container_t) (v : Z) : container_t :=
  {| config := config c; state := state c; pid := pid c; exit_code := exit_code c;
     cgroup_path := cgroup_path c; state_dir := state_dir c;
     created_at := v; started_at := started_at c; stopped_at := stopped_at c |}.
Definition with_started_at (c : container_t) (v : Z) : container_t :=
  {| config := config c; state := state c; pid := pid c; exit_code := exit_code c;
     cgroup_path := cgroup_path c; state_dir := state_dir c;
     created_at := created_at c; started_at := v; stopped_at := stopped_at c |}.
Definition with_stopped_at (c : container_t) (v : Z) : container_t :=
  {| config := config c; state := state c; pid := pid c; exit_code := exit_code c;
     cgroup_path := cgroup_path c; state_dir := state_dir c;
     created_at := created_at c; started_at := started_at c; stopped_at := v |}.

(** ** Logging ([mc_log] in [container.c]) *)

Definition log_level : Z := 1.
Definition levels : list string := ["DEBUG"; "INFO"; "WARN"; "ERROR"].

Definition mc_log (level : Z) (fmt : string) (args : list logarg) : prog unit :=
  if level <? log_level then Ret tt
  else (_ <- sys (Stderr (nth (Z.to_nat level) levels "") fmt args) ;; Ret tt).

(** ** Reading text: [fgets], [sscanf], [atol] *)

Definition newline : ascii := ascii_of_nat 10.

(** [isspace] in the C locale *)
Definition isspace (c : ascii) : bool :=
  let n := nat_of_ascii c in
  Nat.eqb n 32 || (Nat.leb 9 n && Nat.leb n 13).

Definition isdigit (c : ascii) : bool :=
  let n := nat_of_ascii c in Nat.leb 48 n && Nat.leb n 57.

Definition digit_val (c : ascii) : Z := Z.of_nat (nat_of_ascii c) - 48.

Fixpoint skip_ws (s : string) : string :=
  match s with
  | String c r => if isspace c then skip_ws r else s
  | EmptyString => s
  end.

(** A literal of the format must be matched character by character. *)
Fixpoint scan_lit (lit s : string) : option string :=
  match lit, s with
  | EmptyString, _ => Some s
  | String a l, String b r => if Ascii.eqb a b then scan_lit l r else None
  | String _ _, EmptyString => None
  end.

Fixpoint scan_digits (s : string) (acc : Z) : Z * string :=
  match s with
  | String c r => if isdigit c then scan_digits r (acc * 10 + digit_val c) else (acc, s)
  | EmptyString => (acc, s)
  end.

Definition clamp_long (x : Z) : Z := Z.max LONG_MIN (Z.min LONG_MAX x).

(** The integer at the head of [s] the way [strtol] reads it in base 10:
    leading white space, an optional sign, at least one digit; out-of-range
    values saturate. *)
Definition scan_long (s : string) : option (Z * string) :=
  let s1 := skip_ws s in
  let '(neg, s2) :=
    match s1 with
    | String c r =>
        if Ascii.eqb c "-" then (true, r)
        else if Ascii.eqb c "+" then (false, r) else (false, s1)
    | EmptyString => (false, s1)
    end in
  match s2 with
  | String c _ =>
      if isdigit c then
        let '(v, rest) := scan_digits s2 0 in
        Some (clamp_long (if neg then - v else v), rest)
      else None
  | EmptyString => None
  end.

(** ["%ld"]; ["%d"] stores the same value converted to [int]. *)
Definition scan_ld (s : string) : option Z := fst <$> scan_long s.
Definition scan_d (s : string) : option Z := (fun p => wrap 32 (fst p)) <$> scan_long s.

Definition atol (s : string) : Z := default 0 (scan_ld s).
Definition atoi (s : string) : Z := wrap 32 (atol s).

Fixpoint take_word (width : nat) (s : string) : string :=
  match width, s with
  | S w, String c r => if isspace c then EmptyString else String c (take_word w r)
  | _, _ => EmptyString
  end.

(** ["%<width>s"]: skips white space, then takes up to [width] characters that
    are not white space; fails when there is none. *)
Definition scan_s (width : nat) (s : string) : option string :=
  match take_word width (skip_ws s) with
  | EmptyString => None
  | w => Some w
  end.

(** A [char] buffer read as a C string ends at its first NUL byte:
    [strlen], [strcmp], [atol] and [sscanf] see nothing of what follows. *)
Fixpoint c_str (s : string) : string :=
  match s with
  | EmptyString => EmptyString
  | String c r => if Ascii.eqb c zero then EmptyString else String c (c_str r)
  end.

(** [fgets buf size fp] on the unread part of a stream takes at most
    [size - 1] characters, stopping after a newline: [fgets_go] gives the
    characters taken and what is left unread. *)
Fixpoint fgets_go (n : nat) (s : string) : string * string :=
  match n, s with
  | S m, String c r =>
      if Ascii.eqb c newline then (String c EmptyString, r)
      else let '(l, rest) := fgets_go m r in (String c l, rest)
  | _, _ => (EmptyString, s)
  end.

(** The result is the C string the call leaves in [buf] (a NUL byte of the
    file ends it early) and what is left unread, or [None] at the end of the
    file. *)
Definition fgets (size : nat) (s : string) : option (string * string) :=
  match s with
  | EmptyString => None
  | _ => let '(l, rest) := fgets_go (size - 1) s in Some (c_str l, rest)
  end.

(** All the lines a loop [while (fgets (buf, size, fp))] sees, each as the
    C string in [buf]. *)
Fixpoint fgets_all (fuel : nat) (size : nat) (s : string) : list string :=
  match fuel with
  | O => []
  | S f =>
      match fgets size s with
      | None => []
      | Some (l, rest) => l :: fgets_all f size rest
      end
  end.

Definition lines_of (size : nat) (s : string) : list string :=
  fgets_all (String.length s) size s.

(** Drop one trailing newline ([read_cgroup_string]). *)
Fixpoint chomp (s : string) : string :=
  match s with
  | EmptyString => EmptyString
  | String c EmptyString => if Ascii.eqb c newline then EmptyString else s
  | String c r => String c (chomp r)
  end.

(** ** [cgroup.c] *)

Definition CGROUP_ROOT : string := "/sys/fs/cgroup".
Definition MINICONTAINER_CGROUP : string := "kernelsight".

(** Constants of the Linux headers. *)
Definition O_RDONLY : Z := 0.
Definition O_WRONLY : Z := 1.
Definition EEXIST : Z := 17.
Definition ENOENT : Z := 2.

Definition cgroup_v2_available : prog bool :=
  let path := snprintf PATH_MAX (CGROUP_ROOT ++ "/cgroup.controllers")%string in
  st <- sys (Stat path) ;;
  Ret (ret st =? 0).

Definition read_cgroup_value (path : string) : prog Z :=
  fp <- sys (Fopen path "r") ;;
  if ret fp =? 0 then Ret (-1)
  else
    match scan_ld (text fp) with
    | None => (_ <- sys (Fclose (ret fp)) ;; Ret (-1))
    | Some value => (_ <- sys (Fclose (ret fp)) ;; Ret value)
    end.

(** The result is the status and the C string left in [buf]. *)
Definition read_cgroup_string (path : string) (size : nat) : prog (Z * string) :=
  fp <- sys (Fopen path "r") ;;
  if ret fp =? 0 then Ret (MC_ERR_IO, "")
  else
    match fgets size (text fp) with
    | None => (_ <- sys (Fclose (ret fp)) ;; Ret (MC_ERR_IO, ""))
    | Some (buf, _) => (_ <- sys (Fclose (ret fp)) ;; Ret (MC_OK, chomp buf))
    end.

Definition write_cgroup_value (path value : string) : prog Z :=
  fd <- sys (Open path O_WRONLY) ;;
  if ret fd <? 0 then
    (mc_log 3 "Failed to open %s: %s" [A_str path; A_errno (errno fd)] ;;
     Ret MC_ERR_IO)
  else
    let len := strlen value in
    w <- sys (Write (ret fd) value) ;;
    if negb (ret w =? len) then
      (mc_log 3 "Failed to write to %s: %s" [A_str path; A_errno (errno w)] ;;
       _ <- sys (Close (ret fd)) ;;
       Ret MC_ERR_IO)
    else
      (_ <- sys (Close (ret fd)) ;;
       Ret MC_OK).

Definition controllers : list string := ["+cpu"; "+memory"; "+pids"; "+io"].

(** One of the two [for] loops of [cgroup_create_hierarchy]. *)
Fixpoint enable_controllers (path msg : string) (cs : list string) : prog unit :=
  match cs with
  | [] => Ret tt
  | c :: rest =>
      r <- write_cgroup_value path c ;;
      when (negb (r =? MC_OK)) (mc_log 2 msg [A_str c]) ;;
      enable_controllers path msg rest
  end.

Definition cgroup_create_hierarchy : prog Z :=
  let path := snprintf PATH_MAX (CGROUP_ROOT ++ "/" ++ MINICONTAINER_CGROUP)%string in
  m <- sys (Mkdir path 493 (* 0755 *)) ;;
  if negb (ret m =? 0) && negb (errno m =? EEXIST) then
    (mc_log 3 "Failed to create cgroup directory %s: %s" [A_str path; A_errno (errno m)] ;;
     Ret MC_ERR_CGROUP)
  else
    (let path := snprintf PATH_MAX (CGROUP_ROOT ++ "/cgroup.subtree_control")%string in
     enable_controllers path "Could not enable controller %s (may already be enabled)"
       controllers ;;
     let path := snprintf PATH_MAX
       (CGROUP_ROOT ++ "/" ++ MINICONTAINER_CGROUP ++ "/cgroup.subtree_control")%string in
     enable_controllers path "Could not enable controller %s in kernelsight cgroup"
       controllers ;;
     Ret MC_OK).

Definition cgroup_init (container : container_t) : prog (Z * container_t) :=
  avail <- cgroup_v2_available ;;
  if negb avail then
    (mc_log 3 "Cgroup v2 is not available" [] ;;
     Ret (MC_ERR_CGROUP, container))
  else
    r <- cgroup_create_hierarchy ;;
    if negb (r =? MC_OK) then Ret (r, container)
    else
      let container := with_cgroup_path container
        (snprintf PATH_MAX
           (CGROUP_ROOT ++ "/" ++ MINICONTAINER_CGROUP ++ "/" ++ id (config container))%string) in
      m <- sys (Mkdir (cgroup_path container) 493) ;;
      if negb (ret m =? 0) && negb (errno m =? EEXIST) then
        (mc_log 3 "Failed to create container cgroup: %s" [A_errno (errno m)] ;;
         Ret (MC_ERR_CGROUP, container))
      else
        (mc_log 1 "Created cgroup: %s" [A_str (cgroup_path container)] ;;
         Ret (MC_OK, container)).

(** The path of an interface file of the container's cgroup:
    [snprintf(path, sizeof(path), "%s/<file>", container->cgroup_path)]. *)
Definition cgroup_file (container : container_t) (file : string) : string :=
  snprintf PATH_MAX (cgroup_path container ++ "/" ++ file)%string.

(** [cgroup_apply_limits] is four [if] blocks in a row, one per limit. *)

Definition apply_memory_limit (container : container_t) : prog unit :=
  let limits := limits (config container) in
  when (0 <? memory_limit_bytes limits)
    (let path := cgroup_file container "memory.max" in
     let value := snprintf 128 (fmt_d (memory_limit_bytes limits)) in
     r <- write_cgroup_value path value ;;
     (if negb (r =? MC_OK) then mc_log 2 "Could not set memory limit" []
      else mc_log 1 "Set memory limit: %ld bytes" [A_int (memory_limit_bytes limits)]) ;;
     when (0 <=? memory_swap_bytes limits)
       (let path := cgroup_file container "memory.swap.max" in
        let value := snprintf 128 (fmt_d (memory_swap_bytes limits)) in
        r <- write_cgroup_value path value ;;
        when (negb (r =? MC_OK)) (mc_log 2 "Could not set swap limit" []))).

Definition apply_cpu_limit (container : container_t) : prog unit :=
  let limits := limits (config container) in
  when (0 <? cpu_quota_us limits)
    (let period := if 0 <? cpu_period_us limits then cpu_period_us limits else 100000 in
     let path := cgroup_file container "cpu.max" in
     let value := snprintf 128
       (fmt_d (cpu_quota_us limits) ++ " " ++ fmt_d period)%string in
     r <- write_cgroup_value path value ;;
     if negb (r =? MC_OK) then mc_log 2 "Could not set CPU limit" []
     else mc_log 1 "Set CPU limit: %d/%d us" [A_int (cpu_quota_us limits); A_int period]).

(** [int weight = (limits->cpu_shares * 100) / 1024;] and the two clamps *)
Definition cpu_weight (shares : Z) : Z :=
  let weight := int_div (int_mul shares 100) 1024 in
  let weight := if weight <? 1 then 1 else weight in
  let weight := if 10000 <? weight then 10000 else weight in
  weight.

Definition apply_cpu_weight (container : container_t) : prog unit :=
  let limits := limits (config container) in
  when (0 <? cpu_shares limits)
    (let weight := cpu_weight (cpu_shares limits) in
     let path := cgroup_file container "cpu.weight" in
     let value := snprintf 128 (fmt_d weight) in
     r <- write_cgroup_value path value ;;
     when (negb (r =? MC_OK)) (mc_log 2 "Could not set CPU weight" [])).

Definition apply_pids_limit (container : container_t) : prog unit :=
  let limits := limits (config container) in
  when (0 <? pids_max limits)
    (let path := cgroup_file container "pids.max" in
     let value := snprintf 128 (fmt_d (pids_max limits)) in
     r <- write_cgroup_value path value ;;
     if negb (r =? MC_OK) then mc_log 2 "Could not set PID limit" []
     else mc_log 1 "Set PID limit: %d" [A_int (pids_max limits)]).

Definition cgroup_apply_limits (container : container_t) : prog Z :=
  apply_memory_limit container ;;
  apply_cpu_limit container ;;
  apply_cpu_weight container ;;
  apply_pids_limit container ;;
  Ret MC_OK.

Definition cgroup_add_pid (container : container_t) (pid : Z) : prog Z :=
  let path := cgroup_file container "cgroup.procs" in
  let value := snprintf 32 (fmt_d pid) in
  r <- write_cgroup_value path value ;;
  if negb (r =? MC_OK) then
    (mc_log 3 "Failed to add PID %d to cgroup" [A_int pid] ;; Ret r)
  else
    (mc_log 1 "Added PID %d to cgroup" [A_int pid] ;; Ret MC_OK).

(** [sscanf(buf, "usage_usec %ld", &value) == 1], on the C string in [buf] *)
Definition scan_usage_usec (buf : string) : option Z :=
  rest ← scan_lit "usage_usec" (c_str buf); scan_ld (skip_ws rest).

(** The [while (fgets ...)] loop over [cpu.stat]: every matching line
    overwrites [cpu_usage_ns]. *)
Fixpoint cpu_stat_loop (bufs : list string) (cpu_usage_ns : Z) : Z :=
  match bufs with
  | [] => cpu_usage_ns
  | buf :: rest =>
      match scan_usage_usec buf with
      | Some value => cpu_stat_loop rest (long_mul value 1000)
      | None => cpu_stat_loop rest cpu_usage_ns
      end
  end.

Definition cgroup_get_metrics (container : container_t) : prog (Z * container_metrics_t) :=
  (* the metrics start zeroed by memset *)
  usage <- read_cgroup_value (cgroup_file container "memory.current") ;;
  peak <- read_cgroup_value (cgroup_file container "memory.peak") ;;
  mmax <- read_cgroup_string (cgroup_file container "memory.max") 1024 ;;
  let memory_limit :=
    if fst mmax =? MC_OK then
      if String.eqb (snd mmax) "max" then -1 else atol (snd mmax)
    else 0 in
  fp <- sys (Fopen (cgroup_file container "cpu.stat") "r") ;;
  cpu <- (if ret fp =? 0 then Ret 0
          else (_ <- sys (Fclose (ret fp)) ;;
                Ret (cpu_stat_loop (lines_of 1024 (text fp)) 0))) ;;
  pcur <- read_cgroup_value (cgroup_file container "pids.current") ;;
  pmax <- read_cgroup_string (cgroup_file container "pids.max") 1024 ;;
  let pids_limit :=
    if fst pmax =? MC_OK then
      if String.eqb (snd pmax) "max" then -1 else atoi (snd pmax)
    else 0 in
  Ret (MC_OK,
       {| memory_usage_bytes := usage;
          memory_max_usage_bytes := peak;
          metrics_memory_limit_bytes := memory_limit;
          cpu_usage_ns := cpu;
          pids_current := wrap 32 pcur;
          pids_limit := pids_limit |}).

(** ** [filesystem.c] *)

(** Constants of the Linux headers. *)
Definition S_IFMT : Z := 61440.   (* 0170000 *)
Definition S_IFDIR : Z := 16384.  (* 0040000 *)
Definition S_IFCHR : Z := 8192.   (* 0020000 *)
Definition MS_RDONLY : Z := 1.
Definition MS_NOSUID : Z := 2.
Definition MS_NODEV : Z := 4.
Definition MS_NOEXEC : Z := 8.
Definition MS_BIND : Z := 4096.
Definition MS_REC : Z := 16384.
Definition MS_PRIVATE : Z := 262144.
Definition MNT_DETACH : Z := 2.

Definition S_ISDIR (mode : Z) : bool := Z.land mode S_IFMT =? S_IFDIR.

(** glibc's [makedev] *)
Definition makedev (major minor : Z) : Z :=
  Z.lor (Z.lor (Z.shiftl (Z.land major 4095) 8)
               (Z.shiftl (Z.land major 4294963200) 32))
        (Z.lor (Z.land minor 255) (Z.shiftl (Z.land minor 4294967040) 12)).

(** The prefixes of [tmp] that end just before a slash, the slash at
    index 0 left out: the directories [mkdir_p] creates on its way. *)
Fixpoint slash_prefixes (seen rest : string) : list string :=
  match rest with
  | EmptyString => []
  | String c r =>
      (if Ascii.eqb c "/" then [seen] else []) ++
      slash_prefixes (seen ++ String c EmptyString)%string r
  end.

Definition mkdir_p_prefixes (tmp : string) : list string :=
  match tmp with
  | EmptyString => []
  | String c r => slash_prefixes (String c EmptyString) r
  end.

Fixpoint mkdir_each (paths : list string) (mode : Z) : prog unit :=
  match paths with
  | [] => Ret tt
  | p :: rest => (_ <- sys (Mkdir p mode) ;; mkdir_each rest mode)
  end.

Definition mkdir_p (path : string) (mode : Z) : prog Z :=
  let tmp := snprintf PATH_MAX path in
  mkdir_each (mkdir_p_prefixes tmp) mode ;;
  m <- sys (Mkdir tmp mode) ;;
  Ret (if (ret m =? 0) || (errno m =? EEXIST) then MC_OK else MC_ERR_IO).

Definition dir_exists (path : string) : prog bool :=
  st <- sys (Stat path) ;;
  Ret ((ret st =? 0) && S_ISDIR (out1 st)).

(** [snprintf(put_old, sizeof(put_old), "%s/.old_root", rootfs)] *)
Definition put_old_of (rootfs : string) : string :=
  snprintf PATH_MAX (rootfs ++ "/.old_root")%string.

(** [rootfs] is a C pointer: [None] is [NULL]. *)
Definition fs_pivot_root (rootfs : option string) : prog Z :=
  ok <- match rootfs with
        | None => Ret false
        | Some r => dir_exists r
        end ;;
  match rootfs, ok with
  | Some rootfs, true =>
      m1 <- sys (Mount None "/" None (Z.lor MS_REC MS_PRIVATE) None) ;;
      if negb (ret m1 =? 0) then
        (mc_log 3 "Failed to make mounts private: %s" [A_errno (errno m1)] ;;
         Ret MC_ERR_FILESYSTEM)
      else
        m2 <- sys (Mount (Some rootfs) rootfs None (Z.lor MS_BIND MS_REC) None) ;;
        if negb (ret m2 =? 0) then
          (mc_log 3 "Failed to bind mount rootfs: %s" [A_errno (errno m2)] ;;
           Ret MC_ERR_FILESYSTEM)
        else
          let put_old := put_old_of rootfs in
          _ <- mkdir_p put_old 448 (* 0700 *) ;;
          pv <- sys (PivotRoot rootfs put_old) ;;
          if negb (ret pv =? 0) then
            (mc_log 3 "pivot_root failed: %s" [A_errno (errno pv)] ;;
             _ <- sys (Rmdir put_old) ;;
             Ret MC_ERR_FILESYSTEM)
          else
            (cd <- sys (Chdir "/") ;;
             when (negb (ret cd =? 0))
               (mc_log 3 "chdir to / failed: %s" [A_errno (errno cd)]) ;;
             um <- sys (Umount2 "/.old_root" MNT_DETACH) ;;
             when (negb (ret um =? 0))
               (mc_log 2 "umount old_root failed: %s" [A_errno (errno um)]) ;;
             _ <- sys (Rmdir "/.old_root") ;;
             mc_log 1 "pivot_root completed successfully" [] ;;
             Ret MC_OK)
  | _, _ =>
      mc_log 3 "Rootfs does not exist: %s" [A_str (default "(null)" rootfs)] ;;
      Ret MC_ERR_FILESYSTEM
  end.

Definition devs : list (string * Z * Z) :=
  [("/dev/null", Z.lor S_IFCHR 438, makedev 1 3);
   ("/dev/zero", Z.lor S_IFCHR 438, makedev 1 5);
   ("/dev/random", Z.lor S_IFCHR 438, makedev 1 8);
   ("/dev/urandom", Z.lor S_IFCHR 438, makedev 1 9);
   ("/dev/tty", Z.lor S_IFCHR 438, makedev 5 0);
   ("/dev/console", Z.lor S_IFCHR 384, makedev 5 1)].

Fixpoint mknod_each (ds : list (string * Z * Z)) : prog unit :=
  match ds with
  | [] => Ret tt
  | (name, mode, dev) :: rest => (_ <- sys (Mknod name mode dev) ;; mknod_each rest)
  end.

Definition lor3 (a b c : Z) : Z := Z.lor (Z.lor a b) c.

Definition fs_mount_essentials : prog Z :=
  _ <- mkdir_p "/proc" 365 ;; _ <- mkdir_p "/sys" 365 ;;
  _ <- mkdir_p "/dev" 493 ;; _ <- mkdir_p "/dev/pts" 493 ;;
  _ <- mkdir_p "/dev/shm" 1777 ;; _ <- mkdir_p "/tmp" 1023 ;;
  _ <- sys (Mount (Some "proc") "/proc" (Some "proc")
              (lor3 MS_NOSUID MS_NOEXEC MS_NODEV) None) ;;
  _ <- sys (Mount (Some "sysfs") "/sys" (Some "sysfs")
              (Z.lor (lor3 MS_NOSUID MS_NOEXEC MS_NODEV) MS_RDONLY) None) ;;
  d <- sys (Mount (Some "devtmpfs") "/dev" (Some "devtmpfs")
              (Z.lor MS_NOSUID MS_NOEXEC) None) ;;
  (if negb (ret d =? 0) then
     (_ <- sys (Mount (Some "tmpfs") "/dev" (Some "tmpfs")
                  (Z.lor MS_NOSUID MS_NOEXEC) (Some "mode=755")) ;; Ret tt)
   else Ret tt) ;;
  _ <- sys (Mount (Some "devpts") "/dev/pts" (Some "devpts")
              (Z.lor MS_NOSUID MS_NOEXEC) (Some "newinstance,ptmxmode=0666")) ;;
  _ <- sys (Mount (Some "shm") "/dev/shm" (Some "tmpfs")
              (lor3 MS_NOSUID MS_NOEXEC MS_NODEV) (Some "mode=1777")) ;;
  _ <- sys (Mount (Some "tmpfs") "/tmp" (Some "tmpfs")
              (Z.lor MS_NOSUID MS_NODEV) (Some "mode=1777")) ;;
  mknod_each devs ;;
  _ <- sys (Symlink "/proc/self/fd" "/dev/fd") ;;
  _ <- sys (Symlink "/proc/self/fd/0" "/dev/stdin") ;;
  _ <- sys (Symlink "/proc/self/fd/1" "/dev/stdout") ;;
  _ <- sys (Symlink "/proc/self/fd/2" "/dev/stderr") ;;
  Ret MC_OK.

(** ** [namespace.c] *)

(** Constants of the Linux headers. *)
Definition CLONE_NEWNS : Z := 131072.        (* 0x00020000 *)
Definition CLONE_NEWCGROUP : Z := 33554432.  (* 0x02000000 *)
Definition CLONE_NEWUTS : Z := 67108864.     (* 0x04000000 *)
Definition CLONE_NEWIPC : Z := 134217728.    (* 0x08000000 *)
Definition CLONE_NEWUSER : Z := 268435456.   (* 0x10000000 *)
Definition CLONE_NEWPID : Z := 536870912.    (* 0x20000000 *)
Definition CLONE_NEWNET : Z := 1073741824.   (* 0x40000000 *)
Definition SIGKILL : Z := 9.
Definition SIGTERM : Z := 15.
Definition SIGCHLD : Z := 17.
Definition WNOHANG : Z := 1.

Definition STACK_SIZE : Z := 1024 * 1024.

Definition DEFAULT_NS_FLAGS : Z :=
  Z.lor (Z.lor (Z.lor (Z.lor CLONE_NEWPID CLONE_NEWNS) CLONE_NEWUTS) CLONE_NEWIPC)
        CLONE_NEWCGROUP.

Definition get_ns_flags (config : container_config_t) : Z :=
  let flags := DEFAULT_NS_FLAGS in
  let flags := if negb (enable_network config =? 0) then Z.lor flags CLONE_NEWNET else flags in
  let flags := if negb (enable_user_ns config =? 0) then Z.lor flags CLONE_NEWUSER else flags in
  flags.

Definition write_file (path content : string) : prog Z :=
  fd <- sys (Open path O_WRONLY) ;;
  if ret fd <? 0 then
    (mc_log 3 "Failed to open %s: %s" [A_str path; A_errno (errno fd)] ;;
     Ret MC_ERR_IO)
  else
    let len := strlen content in
    w <- sys (Write (ret fd) content) ;;
    if negb (ret w =? len) then
      (mc_log 3 "Failed to write to %s: %s" [A_str path; A_errno (errno w)] ;;
       _ <- sys (Close (ret fd)) ;;
       Ret MC_ERR_IO)
    else
      (_ <- sys (Close (ret fd)) ;;
       Ret MC_OK).

(** [hostname] is a C pointer: [None] is [NULL]. *)
Definition ns_setup_uts (hostname : option string) : prog Z :=
  match hostname with
  | None => Ret MC_OK
  | Some hostname =>
      if strlen hostname =? 0 then Ret MC_OK
      else
        sh <- sys (Sethostname hostname (strlen hostname)) ;;
        if negb (ret sh =? 0) then
          (mc_log 3 "Failed to set hostname: %s" [A_errno (errno sh)] ;;
           Ret MC_ERR_NAMESPACE)
        else
          (mc_log 1 "Set hostname to: %s" [A_str hostname] ;;
           Ret MC_OK)
  end.

Definition nl : string := String newline EmptyString.

Definition proc_file (pid : Z) (file : string) : string :=
  snprintf PATH_MAX ("/proc/" ++ fmt_d pid ++ "/" ++ file)%string.

(** ["%u %u 1\n"] *)
Definition map_row (inside outside : Z) : string :=
  snprintf 256 (fmt_u inside ++ " " ++ fmt_u outside ++ " 1" ++ nl)%string.

Definition ns_setup_user (pid uid_host uid_container gid_host gid_container : Z)
  : prog Z :=
  r <- write_file (proc_file pid "setgroups") "deny" ;;
  when (negb (r =? MC_OK))
    (mc_log 2 "Could not write setgroups deny (may be already denied)" []) ;;
  r <- write_file (proc_file pid "uid_map") (map_row uid_container uid_host) ;;
  if negb (r =? MC_OK) then
    (mc_log 3 "Failed to write uid_map" [] ;; Ret r)
  else
    (mc_log 1 "Set UID mapping: %u -> %u" [A_int uid_container; A_int uid_host] ;;
     r <- write_file (proc_file pid "gid_map") (map_row gid_container gid_host) ;;
     if negb (r =? MC_OK) then
       (mc_log 3 "Failed to write gid_map" [] ;; Ret r)
     else
       (mc_log 1 "Set GID mapping: %u -> %u" [A_int gid_container; A_int gid_host] ;;
        Ret MC_OK)).

(** [strchr(entry, '=')]: the text before and after the first ['='] *)
Fixpoint split_eq (s : string) : option (string * string) :=
  match s with
  | EmptyString => None
  | String c r =>
      if Ascii.eqb c "=" then Some (EmptyString, r)
      else '(k, v) ← split_eq r; Some (String c k, v)
  end.

(** The body of the loop over [env]: an entry without ['='] is skipped, the
    others are cut at the ['='] in place, set, and restored. *)
Fixpoint setenv_each (entries : list string) : prog unit :=
  match entries with
  | [] => Ret tt
  | e :: rest =>
      match split_eq e with
      | Some (k, v) => (_ <- sys (Setenv k v 1) ;; setenv_each rest)
      | None => setenv_each rest
      end
  end.

(** [for (int i = 0; i < config->env_count && config->env[i]; i++)]: with
    a positive count the first test reads [env[0]], through NULL if [env] is. *)
Definition child_env (config : container_config_t) : prog unit :=
  if 0 <? env_count config then
    match env config with
    | None => fault
    | Some entries => setenv_each (firstn (Z.to_nat (env_count config)) entries)
    end
  else Ret tt.

(** The end of [container_child]: the command if
    [config->cmd_count > 0 && config->cmd[0]], the shell otherwise.  The
    second test reads [cmd[0]], through NULL if [cmd] is. *)
Definition child_exec (config : container_config_t) : prog Z :=
  let shell :=
    (x <- execvp "/bin/sh" ["/bin/sh"] ;;
     mc_log 3 "Failed to exec default shell: %s" [A_errno (errno x)] ;;
     exit 127) in
  if 0 <? cmd_count config then
    match cmd config with
    | None => fault
    | Some [] => shell
    | Some (cmd0 :: rest) =>
        mc_log 1 "Executing: %s" [A_str cmd0] ;;
        x <- execvp cmd0 (cmd0 :: rest) ;;
        mc_log 3 "Failed to exec: %s" [A_errno (errno x)] ;;
        exit 127
    end
  else shell.

(** The entry point of the cloned child.  [sync_pipe] is the pair
    (read end, write end) of [child_args_t].  The function does not return:
    it ends in [exit] or in the image of the command. *)
Definition container_child (config : container_config_t) (sync_pipe : Z * Z)
  : prog Z :=
  _ <- sys (Close (snd sync_pipe)) ;;
  rd <- sys (Read (fst sync_pipe) 1) ;;
  if negb (ret rd =? 1) then
    (mc_log 3 "Failed to read from sync pipe" [] ;; exit 1)
  else
    _ <- sys (Close (fst sync_pipe)) ;;
    r <- ns_setup_uts (Some (hostname config)) ;;
    if negb (r =? MC_OK) then exit 1
    else
      (if 0 <? strlen (rootfs config) then
         r <- fs_pivot_root (Some (rootfs config)) ;;
         if negb (r =? MC_OK) then exit 1
         else
           r <- fs_mount_essentials ;;
           if negb (r =? MC_OK) then exit 1 else Ret tt
       else Ret tt) ;;
      _ <- sys Clearenv ;;
      _ <- sys (Setenv "PATH" "/usr/local/sbin:/usr/local/bin:/usr/sbin:/usr/bin:/sbin:/bin" 1) ;;
      _ <- sys (Setenv "TERM" "xterm-256color" 1) ;;
      _ <- sys (Setenv "HOME" "/root" 1) ;;
      child_env config ;;
      child_exec config.

(** The result is the PID of the child, or a negative error code. *)
Definition ns_create (config : container_config_t) : prog Z :=
  p <- sys Pipe ;;
  if negb (ret p =? 0) then
    (mc_log 3 "Failed to create sync pipe: %s" [A_errno (errno p)] ;;
     Ret MC_ERR_IO)
  else
    let sync_pipe := (out1 p, out2 p) in
    stack <- sys (Malloc STACK_SIZE) ;;
    if ret stack =? 0 then
      (mc_log 3 "Failed to allocate stack" [] ;;
       _ <- sys (Close (fst sync_pipe)) ;;
       _ <- sys (Close (snd sync_pipe)) ;;
       Ret MC_ERR_MEMORY)
    else
      let flags := Z.lor (get_ns_flags config) SIGCHLD in
      cl <- sys (Clone flags sync_pipe) ;;
      let pid := ret cl in
      if pid <? 0 then
        (mc_log 3 "clone() failed: %s" [A_errno (errno cl)] ;;
         _ <- sys Free ;;
         _ <- sys (Close (fst sync_pipe)) ;;
         _ <- sys (Close (snd sync_pipe)) ;;
         Ret MC_ERR_NAMESPACE)
      else
        (mc_log 1 "Created container process with PID: %d" [A_int pid] ;;
         r <- (if negb (enable_user_ns config =? 0) then
                 ns_setup_user pid (uid_map_host config) (uid_map_container config)
                   (gid_map_host config) (gid_map_container config)
               else Ret MC_OK) ;;
         if negb (r =? MC_OK) then
           (_ <- sys (Kill pid SIGKILL) ;;
            _ <- sys (Waitpid pid 0) ;;
            _ <- sys Free ;;
            _ <- sys (Close (fst sync_pipe)) ;;
            _ <- sys (Close (snd sync_pipe)) ;;
            Ret r)
         else
           (_ <- sys (Close (fst sync_pipe)) ;;
            _ <- sys (Write (snd sync_pipe) "x") ;;
            _ <- sys (Close (snd sync_pipe)) ;;
            Ret pid)).

Definition ns_name (ns_type : Z) : option string :=
  if ns_type =? CLONE_NEWPID then Some "pid"
  else if ns_type =? CLONE_NEWNS then Some "mnt"
  else if ns_type =? CLONE_NEWUTS then Some "uts"
  else if ns_type =? CLONE_NEWIPC then Some "ipc"
  else if ns_type =? CLONE_NEWNET then Some "net"
  else if ns_type =? CLONE_NEWUSER then Some "user"
  else if ns_type =? CLONE_NEWCGROUP then Some "cgroup"
  else None.

Definition ns_enter (pid ns_type : Z) : prog Z :=
  match ns_name ns_type with
  | None => Ret MC_ERR_INVALID
  | Some ns_name =>
      let ns_path := proc_file pid ("ns/" ++ ns_name)%string in
      fd <- sys (Open ns_path O_RDONLY) ;;
      if ret fd <? 0 then
        (mc_log 3 "Failed to open %s: %s" [A_str ns_path; A_errno (errno fd)] ;;
         Ret MC_ERR_NOT_FOUND)
      else
        sn <- sys (Setns (ret fd) ns_type) ;;
        if negb (ret sn =? 0) then
          (mc_log 3 "setns() failed: %s" [A_errno (errno sn)] ;;
           _ <- sys (Close (ret fd)) ;;
           Ret MC_ERR_NAMESPACE)
        else
          (_ <- sys (Close (ret fd)) ;;
           Ret MC_OK)
  end.

(** ** [container.c] *)

Definition STATE_DIR : string := "/var/lib/minicontainer".

(** *** Character buffers

    [generate_container_id] fills a [char] array in place; the array is a
    list of characters and the C string it holds ends at the first NUL. *)

Definition NUL : ascii := zero.

(** [sprintf(buf + off, "%s", s)]: the characters of [s], then a NUL. *)
Fixpoint poke (buf : list ascii) (off : nat) (s : string) : list ascii :=
  match s with
  | EmptyString => <[off := NUL]> buf
  | String c r => poke (<[off := c]> buf) (S off) r
  end.

Fixpoint cstring (buf : list ascii) : string :=
  match buf with
  | [] => EmptyString
  | c :: r => if Ascii.eqb c NUL then EmptyString else String c (cstring r)
  end.

(** The body of [for (int i = 0; i < 12; i++)], [n] iterations from [i]. *)
Fixpoint generate_id_loop (n i : nat) (buf : list ascii) : prog (list ascii) :=
  match n with
  | O => Ret buf
  | S m =>
      r <- sys Rand ;;
      generate_id_loop m (S i) (poke buf i (fmt_x (int_rem (ret r) 16)))
  end.

Definition generate_container_id (buf : list ascii) : prog (list ascii) :=
  t <- sys Time ;;
  p <- sys Getpid ;;
  _ <- sys (Srand (Z.lxor (ret t) (ret p))) ;;
  buf <- generate_id_loop 12 0 buf ;;
  Ret (<[12%nat := NUL]> buf).

Definition states : list string := ["created"; "running"; "stopped"; "paused"; "deleted"].

Definition state_text (c : container_t) : string :=
  ("id=" ++ id (config c) ++ nl ++ "name=" ++ name (config c) ++ nl ++
   "state=" ++ nth (state_index (state c)) states "" ++ nl ++
   "pid=" ++ fmt_d (pid c) ++ nl)%string.

Definition save_container_state (c : container_t) : prog Z :=
  let path := snprintf PATH_MAX (state_dir c ++ "/state.txt")%string in
  fp <- sys (Fopen path "w") ;;
  if ret fp =? 0 then Ret MC_ERR_IO
  else
    (_ <- sys (Fputs (ret fp) (state_text c)) ;;
     _ <- sys (Fclose (ret fp)) ;;
     Ret MC_OK).

(** [strncpy(dst, src, n)] into a buffer whose later bytes are zero *)
Definition strncpy (src : string) (n : nat) : string := substring 0 n src.

(** [sizeof(container_t)] on LP64 *)
Definition sizeof_container_t : Z := 13000.

(** What [calloc] hands out: every byte zero. *)
Definition zeroed_config : container_config_t :=
  {| id := ""; name := ""; hostname := ""; rootfs := ""; cmd := None; cmd_count := 0;
     env := None; env_count := 0;
     limits := {| memory_limit_bytes := 0; memory_swap_bytes := 0; cpu_shares := 0;
                  cpu_quota_us := 0; cpu_period_us := 0; pids_max := 0 |};
     enable_network := 0; enable_user_ns := 0;
     uid_map_host := 0; uid_map_container := 0; gid_map_host := 0; gid_map_container := 0 |}.

Definition zeroed_container : container_t :=
  {| config := zeroed_config; state := CONTAINER_CREATED; pid := 0; exit_code := 0;
     cgroup_path := ""; state_dir := ""; created_at := 0; started_at := 0; stopped_at := 0 |}.

Definition with_id (g : container_config_t) (v : string) : container_config_t :=
  {| id := v; name := name g; hostname := hostname g; rootfs := rootfs g; cmd := cmd g;
     cmd_count := cmd_count g; env := env g; env_count := env_count g; limits := limits g;
     enable_network := enable_network g; enable_user_ns := enable_user_ns g;
     uid_map_host := uid_map_host g; uid_map_container := uid_map_container g;
     gid_map_host := gid_map_host g; gid_map_container := gid_map_container g |}.
Definition with_name (g : container_config_t) (v : string) : container_config_t :=
  {| id := id g; name := v; hostname := hostname g; rootfs := rootfs g; cmd := cmd g;
     cmd_count := cmd_count g; env := env g; env_count := env_count g; limits := limits g;
     enable_network := enable_network g; enable_user_ns := enable_user_ns g;
     uid_map_host := uid_map_host g; uid_map_container := uid_map_container g;
     gid_map_host := gid_map_host g; gid_map_container := gid_map_container g |}.
Definition with_hostname (g : container_config_t) (v : string) : container_config_t :=
  {| id := id g; name := name g; hostname := v; rootfs := rootfs g; cmd := cmd g;
     cmd_count := cmd_count g; env := env g; env_count := env_count g; limits := limits g;
     enable_network := enable_network g; enable_user_ns := enable_user_ns g;
     uid_map_host := uid_map_host g; uid_map_container := uid_map_container g;
     gid_map_host := gid_map_host g; gid_map_container := gid_map_container g |}.

(** The three defaulting lines of [container_create], on the copied config. *)
Definition fill_defaults (g : container_config_t) : prog container_config_t :=
  g <- (if strlen (id g) =? 0 then
          buf <- generate_container_id (repeat NUL 65) ;;
          Ret (with_id g (cstring buf))
        else Ret g) ;;
  let g := if strlen (name g) =? 0 then with_name g (strncpy (id g) 255) else g in
  let g := if strlen (hostname g) =? 0 then with_hostname g (strncpy (name g) 255) else g in
  Ret g.

(** The result is the status and [*out]; [None] when [*out] is not set. *)
Definition container_create (conf : container_config_t)
  : prog (Z * option container_t) :=
  m <- sys (Calloc 1 sizeof_container_t) ;;
  if ret m =? 0 then Ret (MC_ERR_MEMORY, None)
  else
    let c := with_config zeroed_container conf in
    g <- fill_defaults (config c) ;;
    let c := with_config c g in
    let c := with_state_dir c
      (snprintf PATH_MAX (STATE_DIR ++ "/containers/" ++ id (config c))%string) in
    let command := snprintf PATH_MAX ("mkdir -p " ++ state_dir c)%string in
    _ <- sys (System command) ;;
    let c := with_state c CONTAINER_CREATED in
    t <- sys Time ;;
    let c := with_created_at c (ret t) in
    ci <- cgroup_init c ;;
    let c := snd ci in
    when (negb (fst ci =? MC_OK)) (mc_log 2 "Could not initialize cgroup" []) ;;
    r <- cgroup_apply_limits c ;;
    when (negb (r =? MC_OK)) (mc_log 2 "Could not apply limits" []) ;;
    _ <- save_container_state c ;;
    mc_log 1 "Created container: %s (%s)" [A_str (name (config c)); A_str (id (config c))] ;;
    Ret (MC_OK, Some c).

Definition container_start (c : container_t) : prog (Z * container_t) :=
  if state_eqb (state c) CONTAINER_RUNNING then Ret (MC_ERR_INVALID, c)
  else
    pid <- ns_create (config c) ;;
    if pid <? 0 then Ret (pid, c)
    else
      let c := with_pid c pid in
      let c := with_state c CONTAINER_RUNNING in
      t <- sys Time ;;
      let c := with_started_at c (ret t) in
      _ <- cgroup_add_pid c pid ;;
      _ <- save_container_state c ;;
      mc_log 1 "Started container: %s (PID %d)" [A_str (name (config c)); A_int pid] ;;
      Ret (MC_OK, c).

(** [waitpid(pid, &c->exit_code, options)] stores a status only when it
    reports a child. *)
Definition store_status (c : container_t) (w : answer) : container_t :=
  if 0 <? ret w then with_exit_code c (out1 w) else c.

(** The lines that end both exits of [container_stop]. *)
Definition mark_stopped (c : container_t) : prog container_t :=
  let c := with_state c CONTAINER_STOPPED in
  t <- sys Time ;;
  let c := with_stopped_at c (ret t) in
  _ <- save_container_state c ;;
  Ret c.

(** The polling loop with [n] iterations left; [Some] is the [return]
    inside the loop. *)
Fixpoint stop_poll (n : nat) (c : container_t) : prog (option container_t) :=
  match n with
  | O => Ret None
  | S m =>
      w <- sys (Waitpid (pid c) WNOHANG) ;;
      let c := store_status c w in
      if 0 <? ret w then
        (c <- mark_stopped c ;; Ret (Some c))
      else
        (_ <- sys (Usleep 100000) ;; stop_poll m c)
  end.

Definition container_stop (c : container_t) (timeout : Z) : prog (Z * container_t) :=
  if negb (state_eqb (state c) CONTAINER_RUNNING) then Ret (MC_OK, c)
  else
    _ <- sys (Kill (pid c) SIGTERM) ;;
    polled <- stop_poll (Z.to_nat (int_mul timeout 10)) c ;;
    match polled with
    | Some c => Ret (MC_OK, c)
    | None =>
        _ <- sys (Kill (pid c) SIGKILL) ;;
        w <- sys (Waitpid (pid c) 0) ;;
        let c := store_status c w in
        c <- mark_stopped c ;;
        Ret (MC_OK, c)
    end.

(** The field a line of [state.txt] sets, if any: the chain of [sscanf]
    tests of [container_list], on the C string in [line]. *)
Inductive state_field :=
| F_id (v : string)
| F_name (v : string)
| F_pid (v : Z)
| F_state (v : string).

Definition scan_state_line (line : string) : option state_field :=
  let line := c_str line in
  match scan_lit "id=" line ≫= scan_s 64 with
  | Some v => Some (F_id v)
  | None =>
  match scan_lit "name=" line ≫= scan_s 255 with
  | Some v => Some (F_name v)
  | None =>
  match scan_lit "pid=" line ≫= scan_d with
  | Some v => Some (F_pid v)
  | None => F_state <$> (scan_lit "state=" line ≫= scan_s 31)
  end end end.

(** What a line of [state.txt] makes of the record. *)
Definition parse_state_line (line : string) (c : container_t) : container_t :=
  match scan_state_line line with
  | Some (F_id v) => with_config c (with_id (config c) v)
  | Some (F_name v) => with_config c (with_name (config c) v)
  | Some (F_pid v) => with_pid c v
  | Some (F_state st) =>
      if String.eqb st "running" then with_state c CONTAINER_RUNNING
      else if String.eqb st "stopped" then with_state c CONTAINER_STOPPED
      else with_state c CONTAINER_CREATED
  | None => c
  end.

Definition starts_with_dot (d_name : string) : bool :=
  match d_name with
  | String c _ => Ascii.eqb c "."
  | EmptyString => false
  end.

Definition sets_field (line : string) : bool :=
  match scan_state_line line with
  | Some _ => true
  | None => false
  end.

(** The [while ((ent = readdir(dir)))] loop over the entries still unread.
    [arr] is the pointer [list] to the array (0 is NULL), [found] the records
    stored in it so far and [cap] its capacity.  The results of [calloc],
    [malloc] and [realloc] are used unchecked: with a NULL record the first
    store into it faults (at the first line that sets a field, or else at
    the [snprintf] into [state_dir] after the [fclose]), with a NULL array
    the store [list[n++] = c] does. *)
Fixpoint list_loop (entries : list string) (path : string)
    (arr : Z) (found : list container_t) (cap : Z) : prog (Z * list container_t) :=
  match entries with
  | [] => Ret (arr, found)
  | d_name :: rest =>
      if starts_with_dot d_name then list_loop rest path arr found cap
      else
        let state_path :=
          snprintf PATH_MAX (path ++ "/" ++ d_name ++ "/state.txt")%string in
        fp <- sys (Fopen state_path "r") ;;
        if ret fp =? 0 then list_loop rest path arr found cap
        else
          m <- sys (Calloc 1 sizeof_container_t) ;;
          let lines := lines_of 256 (text fp) in
          if ret m =? 0 then
            (if existsb sets_field lines then fault
             else (_ <- sys (Fclose (ret fp)) ;; fault))
          else
            let c := fold_left (fun c line => parse_state_line line c)
                       lines zeroed_container in
            _ <- sys (Fclose (ret fp)) ;;
            let c := with_state_dir c (snprintf PATH_MAX (path ++ "/" ++ d_name)%string) in
            let c := with_cgroup_path c
              (snprintf PATH_MAX ("/sys/fs/cgroup/minicontainer/" ++ id (config c))%string) in
            let n := Z.of_nat (length found) in
            if cap <=? n then
              (let cap := int_mul cap 2 in
               r <- sys (Realloc (8 * cap)) ;;
               if ret r =? 0 then fault
               else list_loop rest path (ret r) (found ++ [c]) cap)
            else if arr =? 0 then fault
            else list_loop rest path arr (found ++ [c]) cap
  end.

(** The result is the status, [*containers] ([None] is [NULL]) and [*count]. *)
Definition container_list : prog (Z * option (list container_t) * Z) :=
  let path := snprintf PATH_MAX (STATE_DIR ++ "/containers")%string in
  dir <- sys (Opendir path) ;;
  if ret dir =? 0 then Ret (MC_OK, None, 0)
  else
    m <- sys (Malloc (8 * 16)) ;;
    res <- list_loop (names dir) path (ret m) [] 16 ;;
    _ <- sys (Closedir (ret dir)) ;;
    let '(arr, found) := res in
    Ret (MC_OK, (if arr =? 0 then None else Some found), Z.of_nat (length found)).

(** Wait status macros of glibc. *)
Definition WTERMSIG (status : Z) : Z := Z.land status 127.
Definition WEXITSTATUS (status : Z) : Z := Z.shiftr (Z.land status 65280) 8.
Definition WIFEXITED (status : Z) : bool := WTERMSIG status =? 0.
Definition WIFSIGNALED (status : Z) : bool :=
  0 <? Z.shiftr (wrap 8 (Z.land status 127 + 1)) 1.

(** What the forked helper of [container_exec] does; it never returns. *)
Definition exec_helper (c : container_t) (cmd : list string) : prog Z :=
  r <- ns_enter (pid c) CLONE_NEWNS ;;
  when (negb (r =? MC_OK)) (mc_log 3 "Failed to enter mount namespace" []) ;;
  r <- ns_enter (pid c) CLONE_NEWUTS ;;
  when (negb (r =? MC_OK)) (mc_log 3 "Failed to enter UTS namespace" []) ;;
  r <- ns_enter (pid c) CLONE_NEWIPC ;;
  when (negb (r =? MC_OK)) (mc_log 3 "Failed to enter IPC namespace" []) ;;
  r <- ns_enter (pid c) CLONE_NEWCGROUP ;;
  when (negb (r =? MC_OK)) (mc_log 3 "Failed to enter cgroup namespace" []) ;;
  me <- sys Getpid ;;
  _ <- cgroup_add_pid c (ret me) ;;
  cd <- sys (Chdir "/") ;;
  when (negb (ret cd =? 0)) (mc_log 2 "Failed to chdir to /" []) ;;
  mc_log 1 "Executing command in container %s: %s"
    [A_str (name (config c)); A_str (hd "" cmd)] ;;
  x <- execvp (hd "" cmd) cmd ;;
  mc_log 3 "execvp failed: %s" [A_errno (errno x)] ;;
  exit 127.

(** [c] and [cmd] are C pointers: [None] is [NULL]. *)
Definition container_exec (c : option container_t) (cmd : option (list string))
    (cmd_count : Z) : prog Z :=
  match c, cmd with
  | Some c, Some cmd =>
      if cmd_count <=? 0 then Ret MC_ERR_INVALID
      else if negb (state_eqb (state c) CONTAINER_RUNNING) || (pid c <=? 0) then
        (mc_log 3 "Container is not running" [] ;; Ret MC_ERR_PROCESS)
      else
        probe <- sys (Kill (pid c) 0) ;;
        if negb (ret probe =? 0) then
          (mc_log 3 "Container process %d not found" [A_int (pid c)] ;;
           Ret MC_ERR_NOT_FOUND)
        else
          f <- sys Fork ;;
          let exec_pid := ret f in
          if exec_pid <? 0 then
            (mc_log 3 "fork() failed: %s" [A_errno (errno f)] ;; Ret MC_ERR_PROCESS)
          else if exec_pid =? 0 then exec_helper c cmd
          else
            w <- sys (Waitpid exec_pid 0) ;;
            let status := out1 w in
            if ret w <? 0 then
              (mc_log 3 "waitpid failed: %s" [A_errno (errno w)] ;; Ret MC_ERR_PROCESS)
            else if WIFEXITED status then
              (let exit_code := WEXITSTATUS status in
               mc_log 1 "Command exited with code %d" [A_int exit_code] ;;
               Ret (if exit_code =? 0 then MC_OK else MC_ERR_PROCESS))
            else Ret MC_OK
  | _, _ => Ret MC_ERR_INVALID
  end.

(** ** Observations on traces *)

Definition calls (t : list event) : list call := map fst t.

(** The events of one [save_container_state c]: the stream is opened for
    writing and, if that worked, receives [state_text c] and is closed. *)
Inductive saves (c : container_t) : list event -> Prop :=
| saves_failed a :
    ret a = 0 ->
    saves c [(Fopen (snprintf PATH_MAX (state_dir c ++ "/state.txt")%string) "w", a)]
| saves_written a b d :
    ret a <> 0 ->
    saves c [(Fopen (snprintf PATH_MAX (state_dir c ++ "/state.txt")%string) "w", a);
             (Fputs (ret a) (state_text c), b);
             (Fclose (ret a), d)].

(** [k] polls in a row that found the child still running (or failed), each
    followed by a sleep of a tenth of a second. *)
Inductive missed_polls (pid : Z) : nat -> list event -> Prop :=
| missed_nil : missed_polls pid 0 []
| missed_cons k w u t :
    ret w <= 0 ->
    missed_polls pid k t ->
    missed_polls pid (S k) ((Waitpid pid WNOHANG, w) :: (Usleep 100000, u) :: t).

(** The record [container_stop] leaves behind: the status of wait answer [w]
    stored if it reported the child, the state, and the time of answer [tm]. *)
Definition stopped_record (c : container_t) (w tm : answer) : container_t :=
  with_stopped_at (with_state (store_status c w) CONTAINER_STOPPED) (ret tm).

(** Oracles for concrete runs: the same answer to every call, or an answer
    chosen by the call alone. *)
Definition answer_of (r : Z) : answer :=
  {| ret := r; errno := 0; out1 := 0; out2 := 0; text := ""; names := [] |}.
Definition oracle_of (f : call -> answer) : oracle := fun _ c => f c.

(** Sample records and oracles used to run the program on concrete inputs. *)
Definition sample_config : container_config_t :=
  with_hostname (with_name (with_id zeroed_config "c0ffee") "demo") "demo".

Definition sample_container (s : container_state_t) : container_t :=
  with_state (with_pid (with_config zeroed_container sample_config) 42) s.

(** Every call succeeds: descriptors 3 and 4 for the pipe, 5 for files, a
    write takes all its data, every path is a directory of mode 0755, the
    clone yields PID 4242, a wait reports the child it was asked about with
    status 0. *)
Definition friendly (c : call) : answer :=
  match c with
  | Pipe => {| ret := 0; errno := 0; out1 := 3; out2 := 4; text := ""; names := [] |}
  | Open _ _ => answer_of 5
  | Stat _ => {| ret := 0; errno := 0; out1 := 16877; out2 := 0; text := ""; names := [] |}
  | Write _ d => answer_of (strlen d)
  | Read _ n => answer_of n
  | Fopen _ _ => answer_of 6
  | Opendir _ => answer_of 7
  | Malloc _ | Calloc _ _ | Realloc _ => answer_of 4096
  | Clone _ _ | Fork => answer_of 4242
  | Waitpid p _ => answer_of p
  | Time => answer_of 1700000000
  | Getpid => answer_of 4242
  | Execvp _ _ => answer_of (-1)
  | _ => answer_of 0
  end.

(** The process asked about is not a child of the caller: [waitpid] fails
    with ECHILD and stores no status; everything else as in [friendly]. *)
Definition ECHILD : Z := 10.
Definition not_our_child (c : call) : answer :=
  match c with
  | Waitpid _ _ => {| ret := -1; errno := ECHILD; out1 := 0; out2 := 0; text := ""; names := [] |}
  | _ => friendly c
  end.

(** The child has ended and [waitpid] reports it with the given wait
    status; everything else as in [friendly]. *)
Definition ended_with (status : Z) (c : call) : answer :=
  match c with
  | Waitpid p _ => {| ret := p; errno := 0; out1 := status; out2 := 0; text := ""; names := [] |}
  | _ => friendly c
  end.

(** A program that comes back to its caller on every path: no [exit], no
    successful [execvp]. *)
Inductive returns {A} : prog A -> Prop :=
| returns_ret a : returns (Ret a)
| returns_call c k : (forall a, returns (k a)) -> returns (Call c k).

(** The trace without the log lines. *)
Definition is_log (c : call) : bool :=
  match c with
  | Stderr _ _ _ => true
  | _ => false
  end.

Definition sysevents (t : list event) : list event :=
  List.filter (fun e => negb (is_log (fst e))) t.

(** The [mkdir] calls of one [mkdir_p path mode], in order. *)
Definition mkdir_p_calls (path : string) (mode : Z) : list call :=
  map (fun p => Mkdir p mode)
      (mkdir_p_prefixes (snprintf PATH_MAX path) ++ [snprintf PATH_MAX path]).

Definition is_dir (st : answer) : Prop := ret st = 0 /\ S_ISDIR (out1 st) = true.

(** The paths the program tried to open, in order. *)
Fixpoint opened (t : list event) : list string :=
  match t with
  | [] => []
  | (Open p _, _) :: t' => p :: opened t'
  | _ :: t' => opened t'
  end.

(** The table of open descriptors a trace builds: [open] enters the path
    under the descriptor it returned, [close] removes it. *)
Definition fd_step (fds : gmap Z string) (e : event) : gmap Z string :=
  match e with
  | (Open p _, a) => if 0 <=? ret a then <[ret a := p]> fds else fds
  | (Close fd, _) => delete fd fds
  | _ => fds
  end.

Definition fd_table (fds : gmap Z string) (t : list event) : gmap Z string :=
  fold_left fd_step t fds.

(** The writes of a trace, each with the path its descriptor was opened on. *)
Fixpoint file_writes (fds : gmap Z string) (t : list event) : list (string * string) :=
  match t with
  | [] => []
  | e :: t' =>
      match e with
      | (Write fd d, _) =>
          match fds !! fd with
          | Some p => (p, d) :: file_writes fds t'
          | None => file_writes fds t'
          end
      | _ => file_writes (fd_step fds e) t'
      end
  end.

(** The rows of the limit table, one list per axis: the interface file and
    the text written to it. *)
Definition memory_rows (c : container_t) : list (string * string) :=
  let l := limits (config c) in
  if 0 <? memory_limit_bytes l then
    (cgroup_file c "memory.max", fmt_d (memory_limit_bytes l)) ::
    (if 0 <=? memory_swap_bytes l
     then [(cgroup_file c "memory.swap.max", fmt_d (memory_swap_bytes l))] else [])
  else [].

Definition cpu_max_rows (c : container_t) : list (string * string) :=
  let l := limits (config c) in
  if 0 <? cpu_quota_us l then
    [(cgroup_file c "cpu.max",
      snprintf 128 (fmt_d (cpu_quota_us l) +:+ " " +:+
                    fmt_d (if 0 <? cpu_period_us l then cpu_period_us l else 100000)))]
  else [].

Definition cpu_weight_rows (c : container_t) : list (string * string) :=
  let l := limits (config c) in
  if 0 <? cpu_shares l then [(cgroup_file c "cpu.weight", fmt_d (cpu_weight (cpu_shares l)))]
  else [].

Definition pids_rows (c : container_t) : list (string * string) :=
  let l := limits (config c) in
  if 0 <? pids_max l then [(cgroup_file c "pids.max", fmt_d (pids_max l))] else [].

Definition limit_rows (c : container_t) : list (string * string) :=
  memory_rows c ++ cpu_max_rows c ++ cpu_weight_rows c ++ pids_rows c.

(** The cgroup path leaves room in a [PATH_MAX] buffer for the longest
    interface file name. *)
Definition cgroup_path_fits (c : container_t) : Prop :=
  (String.length (cgroup_path c) + 16 < PATH_MAX)%nat.

(** [clamp(x, lo, hi)] of the spec *)
Definition clamp (x lo hi : Z) : Z := Z.max lo (Z.min hi x).

(** [p] returns a value satisfying [post] after trying to open exactly the
    files of [rows], in order, writing to each one that opened the text the
    row gives, and leaving no descriptor open. *)
Definition attempts {A} (p : prog A) (rows : list (string * string)) (post : A -> Prop)
  : Prop :=
  forall (o : oracle) (h : list event),
  exists r t,
    run o p h = (Returned r, h ++ t) /\ post r /\
    opened t = map fst rows /\
    fd_table ∅ t = ∅ /\
    sublist (file_writes ∅ t) rows.

Definition with_limits (g : container_config_t) (v : resource_limits_t) : container_config_t :=
  {| id := id g; name := name g; hostname := hostname g; rootfs := rootfs g; cmd := cmd g;
     cmd_count := cmd_count g; env := env g; env_count := env_count g; limits := v;
     enable_network := enable_network g; enable_user_ns := enable_user_ns g;
     uid_map_host := uid_map_host g; uid_map_container := uid_map_container g;
     gid_map_host := gid_map_host g; gid_map_container := gid_map_container g |}.

(** A created container in its cgroup, with the given limits. *)
Definition limited_container (l : resource_limits_t) : container_t :=
  with_cgroup_path
    (with_config (sample_container CONTAINER_CREATED) (with_limits sample_config l))
    "/sys/fs/cgroup/kernelsight/c0ffee".

Definition only_cpu_shares (s : Z) : resource_limits_t :=
  {| memory_limit_bytes := 0; memory_swap_bytes := 0; cpu_shares := s;
     cpu_quota_us := 0; cpu_period_us := 100000; pids_max := 0 |}.

Definition memory_and_pids (m p : Z) : resource_limits_t :=
  {| memory_limit_bytes := m; memory_swap_bytes := -1; cpu_shares := 0;
     cpu_quota_us := 0; cpu_period_us := 100000; pids_max := p |}.

(** The streams the program tried to open, with the answers, in order. *)
Fixpoint fopens (t : list event) : list (string * answer) :=
  match t with
  | [] => []
  | (Fopen p _, a) :: t' => (p, a) :: fopens t'
  | _ :: t' => fopens t'
  end.

(** The first line of a file without its newline, as [read_cgroup_string]
    delivers it in a 1024-byte buffer: the C string that [fgets] left there,
    which ends at a NUL byte if the line holds one. *)
Definition first_line (content : string) : option string :=
  (fun p => chomp (fst p)) <$> fgets 1024 content.

(** The [usage_usec] field of a [cpu.stat] file: the number of the last line
    that reads as ["usage_usec %ld"]. *)
Definition usage_usec_field (content : string) : option Z :=
  last (omap scan_usage_usec (lines_of 1024 content)).

(** What [read_cgroup_string] makes of the answer to its [fopen]. *)
Definition string_read (size : nat) (a : answer) : Z * string :=
  if ret a =? 0 then (MC_ERR_IO, "")
  else match fgets size (text a) with
       | None => (MC_ERR_IO, "")
       | Some (buf, _) => (MC_OK, chomp buf)
       end.

(** A cgroup with no memory or pids limit that has used 4711 microseconds
    of cpu; everything else as in [friendly]. *)
Definition idle_cgroup (c : call) : answer :=
  match c with
  | Fopen path "r" =>
      {| ret := 6; errno := 0; out1 := 0; out2 := 0; names := [];
         text := if String.eqb path "/sys/fs/cgroup/kernelsight/c0ffee/cpu.stat"
                 then "usage_usec 4711" +:+ nl +:+ "user_usec 4000" +:+ nl +:+
                      "system_usec 711" +:+ nl
                 else if String.eqb path "/sys/fs/cgroup/kernelsight/c0ffee/memory.current"
                 then "1048576" +:+ nl
                 else "max" +:+ nl |}
  | _ => friendly c
  end.

(** The same cgroup with limits: 50 MiB of memory and 64 PIDs. *)
Definition limited_cgroup (c : call) : answer :=
  match c with
  | Fopen path "r" =>
      {| ret := 6; errno := 0; out1 := 0; out2 := 0; names := [];
         text := if String.eqb path "/sys/fs/cgroup/kernelsight/c0ffee/memory.max"
                 then "52428800" +:+ nl
                 else if String.eqb path "/sys/fs/cgroup/kernelsight/c0ffee/pids.max"
                 then "64" +:+ nl
                 else text (idle_cgroup c) |}
  | _ => friendly c
  end.

(** A [memory.max] that holds a NUL byte after [max]: the C string that
    [fgets] leaves in the buffer ends there. *)
Definition nul_cgroup (c : call) : answer :=
  match c with
  | Fopen path "r" =>
      {| ret := 6; errno := 0; out1 := 0; out2 := 0; names := [];
         text := if String.eqb path "/sys/fs/cgroup/kernelsight/c0ffee/memory.max"
                 then "max" +:+ String zero "junk" +:+ nl
                 else text (idle_cgroup c) |}
  | _ => friendly c
  end.

(** A program that returns on every path, with a result satisfying [post]. *)
Inductive results {A} (post : A -> Prop) : prog A -> Prop :=
| results_ret a : post a -> results post (Ret a)
| results_call c k : (forall a, results post (k a)) -> results post (Call c k).

(** Lower-case hexadecimal digits, as ["%x"] prints them. *)
Definition is_hex_char (c : ascii) : bool :=
  let n := nat_of_ascii c in
  (Nat.leb 48 n && Nat.leb n 57) || (Nat.leb 97 n && Nat.leb n 102).

(** The sizes of the [char] arrays of [container_config_t] bound the strings
    they hold. *)
Definition config_fits (g : container_config_t) : Prop :=
  (String.length (id g) <= 64)%nat /\
  (String.length (name g) <= 255)%nat /\
  (String.length (hostname g) <= 255)%nat.

(** No cgroup v2 on this machine: [/sys/fs/cgroup/cgroup.controllers] is
    missing and so is every cgroup file; everything else as in [friendly]. *)
Definition no_cgroup_v2 (c : call) : answer :=
  match c with
  | Stat _ => {| ret := -1; errno := ENOENT; out1 := 0; out2 := 0; text := ""; names := [] |}
  | Open _ _ => {| ret := -1; errno := ENOENT; out1 := 0; out2 := 0; text := ""; names := [] |}
  | Rand => answer_of 1804289383
  | _ => friendly c
  end.

(** The identity a created container ends up with, for the config [g] it
    was asked for. *)
Definition defaults_filled (g g' : container_config_t) : Prop :=
  (id g = "" ->
     String.length (id g') = 12%nat /\
     Forall (fun c => is_hex_char c = true) (list_ascii_of_string (id g'))) /\
  (id g <> "" -> id g' = id g) /\
  (name g = "" -> name g' = id g') /\
  (name g <> "" -> name g' = name g) /\
  (hostname g = "" -> hostname g' = name g') /\
  (hostname g <> "" -> hostname g' = hostname g) /\
  limits g' = limits g /\ rootfs g' = rootfs g.

Definition hex_chars (chs : list ascii) : Prop :=
  Forall (fun c => is_hex_char c = true /\ Ascii.eqb c NUL = false) chs.

(** ** The parent and the cloned child as two processes

    [ns_create] and [container_child] run side by side once [clone] has
    succeeded.  The model keeps what is left of each program, a descriptor
    table per process (the child starts with a copy of the parent's), the
    number of bytes sitting in the pipe, and a chronological log.  The kernel
    is free in its answers except for what descriptors, pipes and [clone]
    guarantee: a new descriptor is not one already open in the process, a
    write on a descriptor that is not open fails, a read delivers bytes from
    the pipe only if they are there (otherwise the reader waits, or the read
    fails or reports end of file), and [clone] with an entry function gives
    its caller the PID of the child or an error, never 0. *)

Inductive who := Parent | Child.

Inductive fdkind :=
| PipeRead
| PipeWrite
| File (path : string).

(** One entry of the log: who called what, what the descriptor argument
    referred to in the caller's table, and the answer. *)
Record entry := {
  actor : who;
  what : call;
  target : option fdkind;
  reply : answer
}.


Definition fd_target (fds : gmap Z fdkind) (c : call) : option fdkind :=
  match c with
  | Write fd _ | Read fd _ | Close fd => fds !! fd
  | _ => None
  end.

(** The answers the kernel can give to call [c] of a process whose table is
    [fds], with [bytes] bytes in the pipe. *)
Definition admissible (fds : gmap Z fdkind) (bytes : Z) (c : call) (a : answer) : Prop :=
  match c with
  | Pipe =>
      ret a = 0 -> fds !! out1 a = None /\ fds !! out2 a = None /\ out1 a <> out2 a
  | Open _ _ => 0 <= ret a -> fds !! ret a = None
  | Write fd _ => fds !! fd = None -> ret a < 0
  | Clone _ _ => ret a <> 0
  | Read fd _ =>
      match fds !! fd with
      | Some PipeRead => 0 < ret a -> ret a <= bytes
      | Some PipeWrite | None => ret a < 0
      | Some (File _) => True
      end
  | _ => True
  end.

Definition fds_after (fds : gmap Z fdkind) (c : call) (a : answer) : gmap Z fdkind :=
  match c with
  | Pipe => if ret a =? 0 then <[out2 a := PipeWrite]> (<[out1 a := PipeRead]> fds) else fds
  | Open p _ => if 0 <=? ret a then <[ret a := File p]> fds else fds
  | Close fd => delete fd fds
  | _ => fds
  end.


Definition entry_of (p : who) (fds : gmap Z fdkind) (c : call) (a : answer) : entry :=
  {| actor := p; what := c; target := fd_target fds c; reply := a |}.

Section Spawn.

Variable config : container_config_t.






(** *** What the log has to show *)

(** Calls that act on the UTS or the mount namespace of the caller. *)
Definition touches_namespace (c : call) : bool :=
  match c with
  | Sethostname _ _ | Mount _ _ _ _ _ | Umount2 _ _ | PivotRoot _ _ | Chdir _
  | Mkdir _ _ | Rmdir _ | Mknod _ _ _ | Symlink _ _ | Stat _ | Access _ _
  | Execvp _ _ | System _ => true
  | _ => false
  end.

Definition spawned_as (pid : Z) (e : entry) : Prop :=
  actor e = Parent /\ (exists flags sync_pipe, what e = Clone flags sync_pipe) /\
  ret (reply e) = pid /\ 0 < pid.

(** The deny is settled: written to the setgroups file of the child, on a
    descriptor the parent opened on that file (the result of this write is
    ignored by [ns_setup_user]), or the file did not open for writing. *)
Definition setgroups_denied (pid : Z) (e : entry) : Prop :=
  actor e = Parent /\
  (((exists fd, what e = Write fd "deny") /\
    target e = Some (File (proc_file pid "setgroups"))) \/
   (what e = Open (proc_file pid "setgroups") O_WRONLY /\ ret (reply e) < 0)).

Definition map_written (pid : Z) (file row : string) (e : entry) : Prop :=
  actor e = Parent /\ (exists fd, what e = Write fd row) /\
  target e = Some (File (proc_file pid file)) /\ ret (reply e) = strlen row.

Definition released (e : entry) : Prop :=
  actor e = Parent /\ (exists fd data, what e = Write fd data) /\
  target e = Some PipeWrite /\ 0 < ret (reply e).

Definition byte_read (e : entry) : Prop :=
  actor e = Child /\ (exists fd count, what e = Read fd count) /\
  target e = Some PipeRead /\ ret (reply e) = 1.

(** What has to happen, in this order, before the child of PID [pid] may
    act on its namespaces: the clone, with a user namespace the deny written
    to the setgroups file (if it opened) and the two maps written whole, the
    release byte written by the parent, and the byte read by the child. *)
Definition protocol (pid : Z) : list (entry -> Prop) :=
  [spawned_as pid] ++
  (if enable_user_ns config =? 0 then []
   else [setgroups_denied pid;
         map_written pid "uid_map" (map_row (uid_map_container config) (uid_map_host config));
         map_written pid "gid_map" (map_row (gid_map_container config) (gid_map_host config))]) ++
  [released; byte_read].


(** *** The monitor

    How far the parent has come, read off the log. *)
Inductive phase :=
| NoChild
| Spawned (pid : Z)
| DenyOpened (pid : Z)
| Denied (pid : Z)
| UidMapped (pid : Z)
| GidMapped (pid : Z)
| Released (pid : Z)
| Running (pid : Z).

Definition user_ns : bool := negb (enable_user_ns config =? 0).

Definition is_file (t : option fdkind) (path : string) : bool :=
  match t with
  | Some (File p) => String.eqb p path
  | _ => false
  end.

Definition is_pipe_write (e : entry) : bool :=
  match what e, target e with
  | Write _ _, Some PipeWrite => 0 <? ret (reply e)
  | _, _ => false
  end.

Definition next (ph : phase) (e : entry) : phase :=
  match actor e with
  | Child =>
      match ph, what e, target e with
      | Released pid, Read _ _, Some PipeRead =>
          if ret (reply e) =? 1 then Running pid else ph
      | _, _, _ => ph
      end
  | Parent =>
      match ph, what e with
      | NoChild, Clone _ _ =>
          if 0 <? ret (reply e) then Spawned (ret (reply e)) else ph
      | Spawned pid, Open p fl =>
          if user_ns && String.eqb p (proc_file pid "setgroups") && (fl =? O_WRONLY)
          then (if ret (reply e) <? 0 then Denied pid else DenyOpened pid) else ph
      | DenyOpened pid, Write _ d =>
          if is_file (target e) (proc_file pid "setgroups") && String.eqb d "deny"
          then Denied pid else ph
      | Spawned pid, Write _ _ =>
          if negb user_ns && is_pipe_write e then Released pid else ph
      | Denied pid, Write _ d =>
          if is_file (target e) (proc_file pid "uid_map") &&
             String.eqb d (map_row (uid_map_container config) (uid_map_host config)) &&
             (ret (reply e) =? strlen d)
          then UidMapped pid else ph
      | UidMapped pid, Write _ d =>
          if is_file (target e) (proc_file pid "gid_map") &&
             String.eqb d (map_row (gid_map_container config) (gid_map_host config)) &&
             (ret (reply e) =? strlen d)
          then GidMapped pid else ph
      | GidMapped pid, Write _ _ =>
          if is_pipe_write e then Released pid else ph
      | _, _ => ph
      end
  end.


Definition is_running (ph : phase) : bool :=
  match ph with
  | Running _ => true
  | _ => false
  end.

(** The parent may release the child once the maps are written, or right
    after the clone when there is no user namespace. *)
Definition may_release (ph : phase) : bool :=
  match ph with
  | Spawned _ => negb user_ns
  | GidMapped _ | Released _ | Running _ => true
  | _ => false
  end.

(** An entry that breaks the order: the child acting on its namespaces
    before it has read the byte, or the release before its time. *)
Definition bad (ph : phase) (e : entry) : bool :=
  match actor e with
  | Child => touches_namespace (what e) && negb (is_running ph)
  | Parent => is_pipe_write e && negb (may_release ph)
  end.


(** *** Invariants of the two programs *)

(** The table the parent clones with has both ends of the pipe. *)
Definition clone_ready (fds : gmap Z fdkind) (c : call) : Prop :=
  match c with
  | Clone _ sync_pipe =>
      fds !! fst sync_pipe = Some PipeRead /\ fds !! snd sync_pipe = Some PipeWrite /\
      fst sync_pipe <> snd sync_pipe
  | _ => True
  end.

(** From phase [ph] and table [fds] on, whatever the kernel answers, the
    program never makes a bad entry, and if it returns, [post] holds of the
    phase and table reached and of the value returned. *)
Inductive parent_ok {A} (post : phase -> gmap Z fdkind -> A -> Prop)
  : phase -> gmap Z fdkind -> prog A -> Prop :=
| parent_ok_ret ph fds v : post ph fds v -> parent_ok post ph fds (Ret v)
| parent_ok_stop ph fds s : parent_ok post ph fds (Stop s)
| parent_ok_call ph fds c k :
    clone_ready fds c ->
    (forall a bytes, admissible fds bytes c a ->
       bad ph (entry_of Parent fds c a) = false) ->
    (forall a bytes, admissible fds bytes c a ->
       parent_ok post (next ph (entry_of Parent fds c a)) (fds_after fds c a) (k a)) ->
    parent_ok post ph fds (Call c k).





(** What the log must contain, in order, for the monitor to be in [ph]. *)
Definition seen (ph : phase) : list (entry -> Prop) :=
  let uid_row := map_row (uid_map_container config) (uid_map_host config) in
  let gid_row := map_row (gid_map_container config) (gid_map_host config) in
  match ph with
  | NoChild => []
  | Spawned pid | DenyOpened pid => [spawned_as pid]
  | Denied pid => [spawned_as pid; setgroups_denied pid]
  | UidMapped pid =>
      [spawned_as pid; setgroups_denied pid; map_written pid "uid_map" uid_row]
  | GidMapped pid =>
      [spawned_as pid; setgroups_denied pid; map_written pid "uid_map" uid_row;
       map_written pid "gid_map" gid_row]
  | Released pid =>
      [spawned_as pid] ++
      (if enable_user_ns config =? 0 then []
       else [setgroups_denied pid; map_written pid "uid_map" uid_row;
             map_written pid "gid_map" gid_row]) ++
      [released]
  | Running pid => protocol pid
  end.



End Spawn.



(** *** A concrete run of the two processes *)







(** ** The rest of the runtime

    The functions of the four source files that the lifecycle operations
    above call or are called with. *)

Definition W_OK : Z := 2.

(** *** [cgroup.c]: freezing, killing, cleaning up *)

Definition cgroup_freeze (container : container_t) : prog Z :=
  write_cgroup_value (cgroup_file container "cgroup.freeze") "1".

Definition cgroup_unfreeze (container : container_t) : prog Z :=
  write_cgroup_value (cgroup_file container "cgroup.freeze") "0".

(** The numbers a loop [while (fscanf(fp, "%d", &pid) == 1)] reads from the
    unread part of a stream; every round consumes at least one character. *)
Fixpoint scan_ints (fuel : nat) (s : string) : list Z :=
  match fuel with
  | O => []
  | S f =>
      match scan_long s with
      | Some (v, rest) => wrap 32 v :: scan_ints f rest
      | None => []
      end
  end.

Fixpoint kill_each (pids : list Z) (sig : Z) : prog unit :=
  match pids with
  | [] => Ret tt
  | p :: rest => (_ <- sys (Kill p sig) ;; kill_each rest sig)
  end.

Definition cgroup_kill_all (container : container_t) : prog Z :=
  let path := cgroup_file container "cgroup.kill" in
  ac <- sys (Access path W_OK) ;;
  if ret ac =? 0 then write_cgroup_value path "1"
  else
    let path := cgroup_file container "cgroup.procs" in
    fp <- sys (Fopen path "r") ;;
    if ret fp =? 0 then Ret MC_ERR_IO
    else
      (kill_each (scan_ints (String.length (text fp)) (text fp)) SIGKILL ;;
       _ <- sys (Fclose (ret fp)) ;;
       Ret MC_OK).

Definition cgroup_cleanup (container : container_t) : prog Z :=
  if strlen (cgroup_path container) =? 0 then Ret MC_OK
  else
    _ <- cgroup_kill_all container ;;
    _ <- sys (Usleep 100000) ;;
    rd <- sys (Rmdir (cgroup_path container)) ;;
    if negb (ret rd =? 0) && negb (errno rd =? ENOENT) then
      (mc_log 2 "Could not remove cgroup %s: %s"
         [A_str (cgroup_path container); A_errno (errno rd)] ;;
       Ret MC_ERR_CGROUP)
    else
      (mc_log 1 "Removed cgroup: %s" [A_str (cgroup_path container)] ;;
       Ret MC_OK).

(** *** [filesystem.c]: set-up and clean-up *)

Definition fs_setup (container : container_t) : prog Z :=
  let rootfs := rootfs (config container) in
  if strlen rootfs =? 0 then
    (mc_log 3 "ERROR: No rootfs specified - refusing to run without filesystem isolation!" [] ;;
     Ret MC_ERR_FILESYSTEM)
  else
    ok <- dir_exists rootfs ;;
    if negb ok then
      (mc_log 3 "ERROR: Rootfs does not exist: %s" [A_str rootfs] ;;
       Ret MC_ERR_FILESYSTEM)
    else
      r <- fs_pivot_root (Some rootfs) ;;
      if negb (r =? MC_OK) then
        (mc_log 3 "ERROR: pivot_root failed - cannot ensure filesystem isolation!" [] ;;
         Ret r)
      else
        (r <- fs_mount_essentials ;;
         when (negb (r =? MC_OK))
           (mc_log 2 "Warning: Some essential mounts may have failed" []) ;;
         mc_log 1 "Filesystem isolation complete with rootfs: %s" [A_str rootfs] ;;
         Ret MC_OK).

Definition fs_cleanup (container : container_t) : prog Z :=
  if negb (strlen (state_dir container) =? 0) then
    (let merged := snprintf PATH_MAX (state_dir container +:+ "/merged") in
     _ <- sys (Umount2 merged MNT_DETACH) ;;
     Ret MC_OK)
  else Ret MC_OK.

(** *** [namespace.c]: entering all the namespaces of a process *)

Definition ns_types : list Z :=
  [CLONE_NEWUSER; CLONE_NEWPID; CLONE_NEWNS; CLONE_NEWUTS; CLONE_NEWIPC; CLONE_NEWNET;
   CLONE_NEWCGROUP].

(** The [for] loop of [ns_enter_all] over the types still to do. *)
Fixpoint ns_enter_each (pid flags : Z) (types : list Z) : prog Z :=
  match types with
  | [] => Ret MC_OK
  | ty :: rest =>
      if negb (Z.land flags ty =? 0) then
        r <- ns_enter pid ty ;;
        if negb (r =? MC_OK) && negb (r =? MC_ERR_NOT_FOUND) then Ret r
        else ns_enter_each pid flags rest
      else ns_enter_each pid flags rest
  end.

Definition ns_enter_all (pid flags : Z) : prog Z := ns_enter_each pid flags ns_types.

(** *** [container.c]: messages, deletion, metrics *)

Definition mc_strerror (err : Z) : string :=
  if err =? MC_OK then "Success"
  else if err =? MC_ERR_MEMORY then "Memory allocation failed"
  else if err =? MC_ERR_NAMESPACE then "Namespace operation failed"
  else if err =? MC_ERR_CGROUP then "Cgroup operation failed"
  else if err =? MC_ERR_FILESYSTEM then "Filesystem operation failed"
  else if err =? MC_ERR_PROCESS then "Process operation failed"
  else if err =? MC_ERR_PERMISSION then "Permission denied"
  else if err =? MC_ERR_NOT_FOUND then "Not found"
  else if err =? MC_ERR_INVALID then "Invalid argument"
  else if err =? MC_ERR_EXISTS then "Already exists"
  else if err =? MC_ERR_IO then "I/O error"
  else "Unknown error".

Definition container_delete (c : container_t) : prog (Z * container_t) :=
  c <- (if state_eqb (state c) CONTAINER_RUNNING then
          (rc <- container_stop c 10 ;; Ret (snd rc))
        else Ret c) ;;
  _ <- cgroup_cleanup c ;;
  _ <- fs_cleanup c ;;
  let command := snprintf PATH_MAX ("rm -rf " +:+ state_dir c) in
  _ <- sys (System command) ;;
  let c := with_state c CONTAINER_DELETED in
  mc_log 1 "Deleted container: %s" [A_str (name (config c))] ;;
  Ret (MC_OK, c).

Definition container_metrics (c : container_t) : prog (Z * container_metrics_t) :=
  cgroup_get_metrics c.

(** ** Specifications that hold whatever the calls are answered *)

(** [always p post]: however the calls of [p] are answered, [p] ends with an
    outcome [r] after a trace [t] of its own such that [post r t]. *)
Fixpoint always {A} (p : prog A) (post : outcome A -> list event -> Prop) : Prop :=
  match p with
  | Ret a => post (Returned a) []
  | Stop s => post (Stopped s) []
  | Call c k => forall a, always (k a) (fun r t => post r ((c, a) :: t))
  end.

(** [p] always returns, with a value and a trace related by [Q]. *)
Definition yields {A} (p : prog A) (Q : A -> list event -> Prop) : Prop :=
  always p (fun r t => match r with Returned a => Q a t | Stopped _ => False end).

(** [p] never returns: it always ends in [exit] or in another image. *)
Definition halts {A} (p : prog A) (Q : halt -> list event -> Prop) : Prop :=
  always p (fun r t => match r with Returned _ => False | Stopped s => Q s t end).

(** What one [write_cgroup_value path value] or [write_file path value]
    leaves in the trace (log lines apart), with its result: the file did not
    open; it opened and the write fell short; the write took the whole text.
    The descriptor is closed in both of the latter cases. *)
Inductive written (path value : string) : Z -> list event -> Prop :=
| written_not_opened a :
    ret a < 0 ->
    written path value MC_ERR_IO [(Open path O_WRONLY, a)]
| written_short a b d :
    0 <= ret a -> ret b <> strlen value ->
    written path value MC_ERR_IO
      [(Open path O_WRONLY, a); (Write (ret a) value, b); (Close (ret a), d)]
| written_whole a b d :
    0 <= ret a -> ret b = strlen value ->
    written path value MC_OK
      [(Open path O_WRONLY, a); (Write (ret a) value, b); (Close (ret a), d)].

(** The same for one [ns_enter]: the namespace file did not open; [setns]
    refused; the namespace was entered. *)
Inductive entered (path : string) (ns_type : Z) : Z -> list event -> Prop :=
| entered_not_opened a :
    ret a < 0 ->
    entered path ns_type MC_ERR_NOT_FOUND [(Open path O_RDONLY, a)]
| entered_refused a b d :
    0 <= ret a -> ret b <> 0 ->
    entered path ns_type MC_ERR_NAMESPACE
      [(Open path O_RDONLY, a); (Setns (ret a) ns_type, b); (Close (ret a), d)]
| entered_joined a b d :
    0 <= ret a -> ret b = 0 ->
    entered path ns_type MC_OK
      [(Open path O_RDONLY, a); (Setns (ret a) ns_type, b); (Close (ret a), d)].

(** The namespace file of type [ns_type] of process [pid]. *)
Definition ns_file (pid ns_type : Z) : string :=
  proc_file pid ("ns/" +:+ default "" (ns_name ns_type)).

(** The namespace types [ns_enter_all] is asked for by [flags], in the order
    of its table. *)
Definition wanted (flags : Z) : list Z :=
  List.filter (fun ty => negb (Z.land flags ty =? 0)) ns_types.

(** The [setns] calls of a trace that failed. *)
Definition setns_failed (e : event) : bool :=
  match e with
  | (Setns _ _, a) => negb (ret a =? 0)
  | _ => false
  end.

(** [ns_enter] over the wanted types in a row, as [ns_enter_all] does it: a
    refused [setns] ends the loop, a namespace file that does not open is
    passed over. *)
Inductive entered_each (pid : Z) : list Z -> Z -> list event -> Prop :=
| entered_each_nil : entered_each pid [] MC_OK []
| entered_each_stop ty rest t :
    entered (ns_file pid ty) ty MC_ERR_NAMESPACE t ->
    entered_each pid (ty :: rest) MC_ERR_NAMESPACE t
| entered_each_cons ty rest r0 t r t' :
    entered (ns_file pid ty) ty r0 t -> r0 <> MC_ERR_NAMESPACE ->
    entered_each pid rest r t' ->
    entered_each pid (ty :: rest) r (t ++ t').

(** The events of one [ns_setup_user] (log lines apart) with its result:
    the three files in order, the group map only after the user map was
    written whole. *)
Inductive user_mapped (pid uid_host uid_container gid_host gid_container : Z)
  : Z -> list event -> Prop :=
| user_mapped_no_uid r0 t0 t1 :
    written (proc_file pid "setgroups") "deny" r0 t0 ->
    written (proc_file pid "uid_map") (map_row uid_container uid_host) MC_ERR_IO t1 ->
    user_mapped pid uid_host uid_container gid_host gid_container MC_ERR_IO (t0 ++ t1)
| user_mapped_gid r0 t0 t1 r t2 :
    written (proc_file pid "setgroups") "deny" r0 t0 ->
    written (proc_file pid "uid_map") (map_row uid_container uid_host) MC_OK t1 ->
    written (proc_file pid "gid_map") (map_row gid_container gid_host) r t2 ->
    user_mapped pid uid_host uid_container gid_host gid_container r (t0 ++ t1 ++ t2).

(** The five ways [ns_create] can go, as the events it leaves (log lines
    apart) and its result: no pipe; no stack; no clone; the maps of the user
    namespace not written, and the child killed and reaped; the child
    released with one byte on the pipe. *)
Inductive created_ns (config : container_config_t) : Z -> list event -> Prop :=
| created_no_pipe p :
    ret p <> 0 ->
    created_ns config MC_ERR_IO [(Pipe, p)]
| created_no_stack p m c1 c2 :
    ret p = 0 -> ret m = 0 ->
    created_ns config MC_ERR_MEMORY
      [(Pipe, p); (Malloc STACK_SIZE, m); (Close (out1 p), c1); (Close (out2 p), c2)]
| created_no_clone p m cl f c1 c2 :
    ret p = 0 -> ret m <> 0 -> ret cl < 0 ->
    created_ns config MC_ERR_NAMESPACE
      [(Pipe, p); (Malloc STACK_SIZE, m);
       (Clone (Z.lor (get_ns_flags config) SIGCHLD) (out1 p, out2 p), cl);
       (Free, f); (Close (out1 p), c1); (Close (out2 p), c2)]
| created_unmapped p m cl tu k w f c1 c2 :
    ret p = 0 -> ret m <> 0 -> 0 <= ret cl -> enable_user_ns config <> 0 ->
    user_mapped (ret cl) (uid_map_host config) (uid_map_container config)
      (gid_map_host config) (gid_map_container config) MC_ERR_IO tu ->
    created_ns config MC_ERR_IO
      ([(Pipe, p); (Malloc STACK_SIZE, m);
        (Clone (Z.lor (get_ns_flags config) SIGCHLD) (out1 p, out2 p), cl)] ++ tu ++
       [(Kill (ret cl) SIGKILL, k); (Waitpid (ret cl) 0, w); (Free, f);
        (Close (out1 p), c1); (Close (out2 p), c2)])
| created_released p m cl tu c1 x c2 :
    ret p = 0 -> ret m <> 0 -> 0 <= ret cl ->
    (enable_user_ns config = 0 /\ tu = [] \/
     enable_user_ns config <> 0 /\
     user_mapped (ret cl) (uid_map_host config) (uid_map_container config)
       (gid_map_host config) (gid_map_container config) MC_OK tu) ->
    created_ns config (ret cl)
      ([(Pipe, p); (Malloc STACK_SIZE, m);
        (Clone (Z.lor (get_ns_flags config) SIGCHLD) (out1 p, out2 p), cl)] ++ tu ++
       [(Close (out1 p), c1); (Write (out2 p) "x", x); (Close (out2 p), c2)]).

(** The release byte on whatever descriptor. *)
Definition is_release (c : call) : bool :=
  match c with
  | Write _ d => String.eqb d "x"
  | _ => false
  end.

(** The calls [ns_setup_user] is made of: opening, writing something other
    than the release byte, closing. *)
Definition map_call (c : call) : bool :=
  match c with
  | Open _ _ | Close _ => true
  | Write _ d => negb (String.eqb d "x")
  | _ => false
  end.

(** [only K p]: every call [p] can make is one of [K]. *)
Fixpoint only {A} (K : call -> bool) (p : prog A) : Prop :=
  match p with
  | Call c k => K c = true /\ forall a, only K (k a)
  | _ => True
  end.

(** The calls of [fs_pivot_root]: no file system is mounted by type, no
    device node or link is made, nothing is executed. *)
Definition pivot_call (c : call) : bool :=
  match c with
  | Stat _ | Mkdir _ _ | Rmdir _ | PivotRoot _ _ | Chdir _ | Umount2 _ _
  | Stderr _ _ _ => true
  | Mount _ _ fstype _ _ => match fstype with None => true | Some _ => false end
  | _ => false
  end.

(** The calls of the set-up of the child before it executes its command. *)
Definition setup_call (c : call) : bool :=
  match c with
  | Execvp _ _ | Clearenv | Read _ _ | Fork | Clone _ _ => false
  | _ => true
  end.

Definition is_exec (e : event) : bool :=
  match e with
  | (Execvp _ _, _) => true
  | _ => false
  end.

(** What the child executes: the configured command if there is one, the
    shell otherwise. *)
Definition child_image (config : container_config_t) : string * list string :=
  match cmd config with
  | Some (cmd0 :: rest) =>
      if 0 <? cmd_count config then (cmd0, cmd0 :: rest) else ("/bin/sh", ["/bin/sh"])
  | _ => ("/bin/sh", ["/bin/sh"])
  end.

(** The configuration gives the child a pointer where it announces
    entries: [env] is not NULL when [env_count] is positive, and neither is
    [cmd] when [cmd_count] is. *)
Definition arrays_given (config : container_config_t) : Prop :=
  (0 < env_count config -> env config <> None) /\
  (0 < cmd_count config -> cmd config <> None).

(** A configuration that announces one command word and gives no array, as
    a zeroed configuration with only [cmd_count] set. *)
Definition null_cmd_config : container_config_t :=
  {| id := ""; name := ""; hostname := ""; rootfs := ""; cmd := None; cmd_count := 1;
     env := None; env_count := 0;
     limits := {| memory_limit_bytes := 0; memory_swap_bytes := 0; cpu_shares := 0;
                  cpu_quota_us := 0; cpu_period_us := 0; pids_max := 0 |};
     enable_network := 0; enable_user_ns := 0;
     uid_map_host := 0; uid_map_container := 0; gid_map_host := 0; gid_map_container := 0 |}.

(** The two ways the child can come to a NULL array. *)
Definition null_array (config : container_config_t) : Prop :=
  (0 < env_count config /\ env config = None) \/
  (0 < cmd_count config /\ cmd config = None).

(** Where an attempted [execvp] ends. *)
Definition exec_end (file : string) (argv : list string) (x : answer) : halt :=
  if ret x =? -1 then Exited 127 else Replaced file argv.

(** The calls of [fs_mount_essentials], in order: the directories, the
    mounts ([fallback] says whether [/dev] falls back to a [tmpfs]), the
    device nodes and the links. *)
Definition essential_dirs : list call :=
  mkdir_p_calls "/proc" 365 ++ mkdir_p_calls "/sys" 365 ++
  mkdir_p_calls "/dev" 493 ++ mkdir_p_calls "/dev/pts" 493 ++
  mkdir_p_calls "/dev/shm" 1777 ++ mkdir_p_calls "/tmp" 1023.

Definition mount_devtmpfs : call :=
  Mount (Some "devtmpfs") "/dev" (Some "devtmpfs") (Z.lor MS_NOSUID MS_NOEXEC) None.

Definition essential_mounts (fallback : bool) : list call :=
  [Mount (Some "proc") "/proc" (Some "proc") (lor3 MS_NOSUID MS_NOEXEC MS_NODEV) None;
   Mount (Some "sysfs") "/sys" (Some "sysfs")
     (Z.lor (lor3 MS_NOSUID MS_NOEXEC MS_NODEV) MS_RDONLY) None;
   mount_devtmpfs] ++
  (if fallback
   then [Mount (Some "tmpfs") "/dev" (Some "tmpfs") (Z.lor MS_NOSUID MS_NOEXEC)
           (Some "mode=755")]
   else []) ++
  [Mount (Some "devpts") "/dev/pts" (Some "devpts") (Z.lor MS_NOSUID MS_NOEXEC)
     (Some "newinstance,ptmxmode=0666");
   Mount (Some "shm") "/dev/shm" (Some "tmpfs") (lor3 MS_NOSUID MS_NOEXEC MS_NODEV)
     (Some "mode=1777");
   Mount (Some "tmpfs") "/tmp" (Some "tmpfs") (Z.lor MS_NOSUID MS_NODEV) (Some "mode=1777")].

Definition essential_nodes : list call :=
  map (fun d => Mknod (fst (fst d)) (snd (fst d)) (snd d)) devs ++
  [Symlink "/proc/self/fd" "/dev/fd"; Symlink "/proc/self/fd/0" "/dev/stdin";
   Symlink "/proc/self/fd/1" "/dev/stdout"; Symlink "/proc/self/fd/2" "/dev/stderr"].

(** The namespace types of the [setns] calls of a trace, in order. *)
Fixpoint setns_types (t : list event) : list Z :=
  match t with
  | [] => []
  | (Setns _ ty, _) :: t' => ty :: setns_types t'
  | _ :: t' => setns_types t'
  end.

(** The three ways [cgroup_kill_all] can go (log lines apart): the kernel
    has [cgroup.kill] and it is written; it has not and [cgroup.procs] does
    not open; the PIDs read from [cgroup.procs] are killed one by one. *)
Inductive killed_all (c : container_t) : Z -> list event -> Prop :=
| killed_by_file ac r t :
    ret ac = 0 ->
    written (cgroup_file c "cgroup.kill") "1" r t ->
    killed_all c r ((Access (cgroup_file c "cgroup.kill") W_OK, ac) :: t)
| killed_nothing ac fp :
    ret ac <> 0 -> ret fp = 0 ->
    killed_all c MC_ERR_IO
      [(Access (cgroup_file c "cgroup.kill") W_OK, ac);
       (Fopen (cgroup_file c "cgroup.procs") "r", fp)]
| killed_each ac fp kills cl :
    ret ac <> 0 -> ret fp <> 0 ->
    calls kills =
      map (fun p => Kill p SIGKILL) (scan_ints (String.length (text fp)) (text fp)) ->
    killed_all c MC_OK
      ([(Access (cgroup_file c "cgroup.kill") W_OK, ac);
        (Fopen (cgroup_file c "cgroup.procs") "r", fp)] ++ kills ++
       [(Fclose (ret fp), cl)]).

(** [cgroup.procs] as the kernel prints it: one PID per line. *)
Fixpoint procs_text (pids : list Z) : string :=
  match pids with
  | [] => ""
  | p :: rest => fmt_d p +:+ nl +:+ procs_text rest
  end.

(** The signals of a trace: who was sent what, in order. *)
Fixpoint kills (t : list event) : list (Z * Z) :=
  match t with
  | [] => []
  | (Kill p sig, _) :: t' => (p, sig) :: kills t'
  | _ :: t' => kills t'
  end.

(** A text that does not go on with a digit. *)
Definition not_digit_first (s : string) : Prop :=
  match s with
  | String c _ => isdigit c = false
  | EmptyString => True
  end.

(** A PID as the kernel lists it. *)
Definition is_pid (p : Z) : Prop := 0 < p <= INT_MAX.

(** [cgroup.kill] is missing, [cgroup.procs] lists [pids]; everything else
    as in [friendly]. *)
Definition old_kernel (pids : list Z) (c : call) : answer :=
  match c with
  | Access _ _ => {| ret := -1; errno := ENOENT; out1 := 0; out2 := 0; text := ""; names := [] |}
  | Fopen _ _ =>
      {| ret := 6; errno := 0; out1 := 0; out2 := 0; text := procs_text pids; names := [] |}
  | _ => friendly c
  end.



Definition container_cgroup (id : string) : string :=
  snprintf PATH_MAX (CGROUP_ROOT +:+ "/" +:+ MINICONTAINER_CGROUP +:+ "/" +:+ id).

(** ** The state file *)

Fixpoint no_space (s : string) : bool :=
  match s with
  | EmptyString => true
  | String c r => negb (isspace c) && no_space r
  end.

Fixpoint no_nul (s : string) : bool :=
  match s with
  | EmptyString => true
  | String c r => negb (Ascii.eqb c zero) && no_nul r
  end.

(** A C string without white space, as ["%s"] reads it back whole. *)
Definition is_word (s : string) : bool := no_space s && no_nul s.

Fixpoint no_newline (s : string) : bool :=
  match s with
  | EmptyString => true
  | String c r => negb (Ascii.eqb c newline) && no_newline r
  end.

(** The state [container_list] makes of the state [save_container_state]
    wrote: only ["running"] and ["stopped"] are told apart. *)
Definition reload_state (s : container_state_t) : container_state_t :=
  match s with
  | CONTAINER_RUNNING => CONTAINER_RUNNING
  | CONTAINER_STOPPED => CONTAINER_STOPPED
  | _ => CONTAINER_CREATED
  end.

(** The directory of the state files and the state file of entry [d_name]. *)
Definition containers_dir : string := snprintf PATH_MAX (STATE_DIR +:+ "/containers").
Definition state_file (d_name : string) : string :=
  snprintf PATH_MAX (containers_dir +:+ "/" +:+ d_name +:+ "/state.txt").

(** The cgroup path [container_list] gives a record. *)
Definition listed_cgroup (id : string) : string :=
  snprintf PATH_MAX ("/sys/fs/cgroup/minicontainer/" +:+ id).

(** The record [container_list] builds from the state file that
    [save_container_state] wrote for [c], found under entry [d_name]. *)
Definition reloaded (c : container_t) (d_name : string) : container_t :=
  {| config := with_name (with_id zeroed_config (id (config c))) (name (config c));
     state := reload_state (state c);
     pid := pid c;
     exit_code := 0;
     cgroup_path := listed_cgroup (id (config c));
     state_dir := snprintf PATH_MAX (containers_dir +:+ "/" +:+ d_name);
     created_at := 0; started_at := 0; stopped_at := 0 |}.

(** A state directory holding what was saved for [c]; everything else as in
    [friendly]. *)
Definition saved_state (c : container_t) (call : call) : answer :=
  match call with
  | Fopen _ _ =>
      {| ret := 6; errno := 0; out1 := 0; out2 := 0; text := state_text c; names := [] |}
  | Opendir _ =>
      {| ret := 7; errno := 0; out1 := 0; out2 := 0; text := "";
         names := ["."; ".."; id (config c)] |}
  | _ => friendly call
  end.

(** The same state directory when [calloc], or [malloc], gives NULL. *)
Definition no_record (c : container_t) (call : call) : answer :=
  match call with
  | Calloc _ _ => answer_of 0
  | _ => saved_state c call
  end.

Definition no_array (c : container_t) (call : call) : answer :=
  match call with
  | Malloc _ => answer_of 0
  | _ => saved_state c call
  end.

(** The record [container_list] builds for entry [d_name] of directory
    [path] from the contents of its state file. *)
Definition list_record (path d_name content : string) : container_t :=
  let c := fold_left (fun c line => parse_state_line line c)
             (lines_of 256 content) zeroed_container in
  let c := with_state_dir c (snprintf PATH_MAX (path +:+ "/" +:+ d_name)) in
  with_cgroup_path c
    (snprintf PATH_MAX ("/sys/fs/cgroup/minicontainer/" +:+ id (config c))).

(** The entries [container_list] looks at. *)
Definition shown (entries : list string) : list string :=
  List.filter (fun d => negb (starts_with_dot d)) entries.

(** The records for the entries whose state file opened. *)
Definition listed (path : string) (found : list (string * answer)) : list container_t :=
  omap (fun da => if ret (snd da) =? 0 then None
                  else Some (list_record path (fst da) (text (snd da)))) found.

(** A trace whose streams are all opened for reading. *)
Definition read_only (t : list event) : Prop :=
  Forall (fun e => match fst e with Fopen _ m => m = "r" | _ => True end) t.

(** An allocation that gave NULL. *)
Definition alloc_failed (e : event) : bool :=
  match fst e with
  | Malloc _ | Calloc _ _ | Realloc _ => ret (snd e) =? 0
  | _ => false
  end.

(** What one run of [list_loop] leaves: either it returns, having tried the
    state file of every shown entry, with a record for each one that opened
    and no allocation failed on the way; or it faults, on a NULL record or
    on a NULL array. *)
Definition list_loop_spec (path : string) (entries : list string) (arr : Z)
    (found : list container_t) (cap : Z)
    (out : outcome (Z * list container_t)) (t : list event) : Prop :=
  read_only t /\
  match out with
  | Returned (arr', res) =>
      map fst (fopens t) =
        map (fun d => snprintf PATH_MAX (path +:+ "/" +:+ d +:+ "/state.txt")) (shown entries) /\
      res = found ++ listed path (zip (shown entries) (map snd (fopens t))) /\
      List.filter alloc_failed t = [] /\
      ((res = found /\ arr' = arr) \/
       (arr' <> 0 /\ (Z.of_nat (length found) < cap -> arr <> 0)))
  | Stopped s =>
      s = Faulted /\ (List.filter alloc_failed t <> [] \/ arr = 0)
  end.

(** The oracle never answers an allocation with NULL. *)
Definition allocates (o : oracle) : Prop :=
  forall h c,
    match c with
    | Malloc _ | Calloc _ _ | Realloc _ => ret (o h c) <> 0
    | _ => True
    end.

(** Every answer of the trace [t], made after the history [h], is the
    oracle's. *)
Fixpoint answered (o : oracle) (h : list event) (t : list event) : Prop :=
  match t with
  | [] => True
  | e :: t' => snd e = o h (fst e) /\ answered o (h ++ [e]) t'
  end.

(** * Properties *)

(** ** The monad *)

Lemma run_bind {A B} (o : oracle) (p : prog A) (f : A -> prog B) (h : list event) :
  run o (bind p f) h =
  match run o p h with
  | (Returned a, h') => run o (f a) h'
  | (Stopped s, h') => (Stopped s, h')
  end.
Proof.
  revert h. induction p as [a | s | c k IH]; intros h; simpl; auto.
Qed.

Lemma run_extends {A} (o : oracle) (p : prog A) (h : list event) :
  exists t, snd (run o p h) = h ++ t.
Proof.
  revert h. induction p as [a | s | c k IH]; intros h; simpl.
  - exists []. by rewrite app_nil_r.
  - exists []. by rewrite app_nil_r.
  - destruct (IH (o h c) (h ++ [(c, o h c)])) as [t Ht].
    exists ((c, o h c) :: t). rewrite Ht. by rewrite <- app_assoc.
Qed.

(** ** [container.c]: saving the state *)

Lemma run_save_container_state (o : oracle) (h : list event) (c : container_t) :
  exists r t, run o (save_container_state c) h = (Returned r, h ++ t) /\ saves c t.
Proof.
  unfold save_container_state. simpl.
  set (path := snprintf PATH_MAX _).
  destruct (ret (o h (Fopen path "w")) =? 0) eqn:E; simpl.
  - eexists _, [_]. split; [reflexivity|]. constructor. lia.
  - eexists _, [_; _; _]. rewrite <- !app_assoc. simpl. split; [reflexivity|].
    constructor. lia.
Qed.

(** ** [container_stop] *)

Lemma run_mark_stopped (o : oracle) (h : list event) (c : container_t) :
  exists tm saved,
    run o (mark_stopped c) h =
      (Returned (with_stopped_at (with_state c CONTAINER_STOPPED) (ret tm)),
       h ++ (Time, tm) :: saved) /\
    saves (with_stopped_at (with_state c CONTAINER_STOPPED) (ret tm)) saved.
Proof.
  unfold mark_stopped. cbn [bind sys run].
  set (tm := o h Time). exists tm.
  rewrite run_bind.
  destruct (run_save_container_state o (h ++ [(Time, tm)])
              (with_stopped_at (with_state c CONTAINER_STOPPED) (ret tm)))
    as (r & t & -> & Hs).
  exists t. cbn [run]. rewrite <- app_assoc. auto.
Qed.

Lemma run_stop_poll (o : oracle) (n : nat) :
  forall (h : list event) (c : container_t),
  exists k misses,
    missed_polls (pid c) k misses /\
    ((k = n /\ run o (stop_poll n c) h = (Returned None, h ++ misses)) \/
     (k < n)%nat /\ exists w tm saved,
        0 < ret w /\ saves (stopped_record c w tm) saved /\
        run o (stop_poll n c) h =
          (Returned (Some (stopped_record c w tm)),
           h ++ misses ++ (Waitpid (pid c) WNOHANG, w) :: (Time, tm) :: saved)).
Proof.
  induction n as [|n IH]; intros h c.
  - exists 0%nat, []. split; [constructor|]. left. split; [done|].
    simpl. by rewrite app_nil_r.
  - cbn [stop_poll bind sys run].
    set (w := o h (Waitpid (pid c) WNOHANG)).
    destruct (0 <? ret w) eqn:E.
    + exists 0%nat, []. split; [constructor|]. right. split; [lia|].
      rewrite run_bind.
      destruct (run_mark_stopped o (h ++ [(Waitpid (pid c) WNOHANG, w)]) (store_status c w))
        as (tm & saved & -> & Hs).
      exists w, tm, saved. split; [lia|]. split; [exact Hs|].
      cbn [run]. by rewrite <- app_assoc.
    + assert (Hc : store_status c w = c) by (unfold store_status; by rewrite E).
      rewrite Hc.
      set (h1 := h ++ [(Waitpid (pid c) WNOHANG, w)]).
      cbn [bind sys run].
      set (u := o h1 (Usleep 100000)).
      destruct (IH (h1 ++ [(Usleep 100000, u)]) c) as (k & misses & Hm & Hcase).
      exists (S k), ((Waitpid (pid c) WNOHANG, w) :: (Usleep 100000, u) :: misses).
      split; [constructor; [lia | done]|].
      destruct Hcase as [[-> Hr] | (Hk & w' & tm & saved & Hw & Hs & Hr)].
      * left. split; [done|]. rewrite Hr. unfold h1. by rewrite <- !app_assoc.
      * right. split; [lia|]. exists w', tm, saved. split; [done|]. split; [done|].
        rewrite Hr. unfold h1. by rewrite <- !app_assoc.
Qed.

Lemma wrap32_id (x : Z) : in_int x -> wrap 32 x = x.
Proof.
  unfold in_int, INT_MIN, INT_MAX, wrap. intros H.
  change (2 ^ (32 - 1)) with 2147483648. change (2 ^ 32) with 4294967296.
  rewrite Z.mod_small; lia.
Qed.

Lemma wrap64_id (x : Z) : in_long x -> wrap 64 x = x.
Proof.
  unfold in_long, LONG_MIN, LONG_MAX, wrap. intros H.
  change (2 ^ (64 - 1)) with 9223372036854775808.
  change (2 ^ 64) with 18446744073709551616.
  rewrite Z.mod_small; lia.
Qed.

Lemma state_eqb_eq (a b : container_state_t) : state_eqb a b = true <-> a = b.
Proof. destruct a, b; cbv; split; congruence. Qed.

(** C3, as the code has it.  [container_stop] does nothing and reports
    success on a record that is not running.  On a running record it sends
    SIGTERM, then polls [waitpid] with WNOHANG, sleeping a tenth of a second
    after every poll that did not reap the child, at most [timeout * 10]
    times (so for at most [timeout] seconds when that product fits an [int]);
    if no poll reaped the child it sends SIGKILL and waits without WNOHANG.
    Either way it ends with [stopped_at] set to the current time, the state
    set to stopped, the record saved, and success returned.  The exit code is
    recorded only when the last [waitpid] reported the child: then
    [exit_code] is the wait status it delivered; when it failed (the result
    is not checked), [exit_code] is left as it was. *)
Theorem container_stop_spec (o : oracle) (h : list event) (c : container_t) (timeout : Z) :
  (state c <> CONTAINER_RUNNING ->
     run o (container_stop c timeout) h = (Returned (MC_OK, c), h)) /\
  (state c = CONTAINER_RUNNING ->
     exists (k : nat) (term w tm : answer) (misses ending saved : list event),
       run o (container_stop c timeout) h =
         (Returned (MC_OK, stopped_record c w tm),
          h ++ (Kill (pid c) SIGTERM, term) :: misses ++ ending ++ (Time, tm) :: saved) /\
       missed_polls (pid c) k misses /\
       (k <= Z.to_nat (int_mul timeout 10))%nat /\
       (in_int (timeout * 10) -> Z.of_nat k * 100000 <= Z.max 0 timeout * 1000000) /\
       ((0 < ret w /\ ending = [(Waitpid (pid c) WNOHANG, w)]) \/
        (k = Z.to_nat (int_mul timeout 10) /\
         exists kl, ending = [(Kill (pid c) SIGKILL, kl); (Waitpid (pid c) 0, w)])) /\
       saves (stopped_record c w tm) saved /\
       state (stopped_record c w tm) = CONTAINER_STOPPED /\
       stopped_at (stopped_record c w tm) = ret tm /\
       exit_code (stopped_record c w tm) = (if 0 <? ret w then out1 w else exit_code c)).
Proof.
  split; intros Hst.
  - unfold container_stop.
    destruct (state_eqb (state c) CONTAINER_RUNNING) eqn:E; [|reflexivity].
    apply state_eqb_eq in E. contradiction.
  - unfold container_stop. rewrite Hst. cbn [state_eqb state_index Nat.eqb negb bind sys run].
    set (term := o h (Kill (pid c) SIGTERM)).
    set (n := Z.to_nat (int_mul timeout 10)).
    assert (Hsleep : forall k : nat, (k <= n)%nat ->
              in_int (timeout * 10) -> Z.of_nat k * 100000 <= Z.max 0 timeout * 1000000).
    { intros k Hk Hin. unfold n, int_mul in Hk. rewrite wrap32_id in Hk by done. lia. }
    assert (Hfin : forall w tm,
              state (stopped_record c w tm) = CONTAINER_STOPPED /\
              stopped_at (stopped_record c w tm) = ret tm /\
              exit_code (stopped_record c w tm) = (if 0 <? ret w then out1 w else exit_code c)).
    { intros w tm. unfold stopped_record, store_status. by destruct (0 <? ret w). }
    rewrite run_bind.
    destruct (run_stop_poll o n (h ++ [(Kill (pid c) SIGTERM, term)]) c)
      as (k & misses & Hm & [[-> Hr] | (Hk & w & tm & saved & Hw & Hs & Hr)]).
    + rewrite Hr. cbn [bind sys run].
      set (h2 := (h ++ [(Kill (pid c) SIGTERM, term)]) ++ misses).
      set (kl := o h2 (Kill (pid c) SIGKILL)).
      set (w := o (h2 ++ [(Kill (pid c) SIGKILL, kl)]) (Waitpid (pid c) 0)).
      rewrite run_bind.
      destruct (run_mark_stopped o ((h2 ++ [(Kill (pid c) SIGKILL, kl)]) ++ [(Waitpid (pid c) 0, w)])
                  (store_status c w)) as (tm & saved & -> & Hs).
      exists n, term, w, tm, misses, [(Kill (pid c) SIGKILL, kl); (Waitpid (pid c) 0, w)], saved.
      split.
      { cbn [run]. fold (stopped_record c w tm). unfold h2.
        rewrite <- !app_assoc. reflexivity. }
      split; [done|]. split; [lia|]. split; [by apply Hsleep|].
      split; [right; eauto|]. split; [exact Hs|]. apply Hfin.
    + rewrite Hr. cbn [run].
      exists k, term, w, tm, misses, [(Waitpid (pid c) WNOHANG, w)], saved.
      split; [by rewrite <- !app_assoc|].
      split; [done|]. split; [lia|]. split; [apply Hsleep; lia|].
      split; [left; auto|]. split; [exact Hs|]. apply Hfin.
Qed.

Lemma run_call_first {A} (o : oracle) (c : call) (k : answer -> prog A) (h : list event) :
  exists t, snd (run o (Call c k) h) = h ++ (c, o h c) :: t.
Proof.
  simpl. destruct (run_extends o (k (o h c)) (h ++ [(c, o h c)])) as [t Ht].
  exists t. rewrite Ht. by rewrite <- app_assoc.
Qed.

Lemma returns_bind {A B} (p : prog A) (f : A -> prog B) :
  returns p -> (forall a, returns (f a)) -> returns (bind p f).
Proof.
  intros Hp Hf. induction Hp as [a | c k _ IH]; simpl; [apply Hf|].
  constructor. intros a. apply IH.
Qed.

Lemma run_returns {A} (o : oracle) (p : prog A) :
  returns p -> forall h, exists a t, run o p h = (Returned a, h ++ t).
Proof.
  induction 1 as [a | c k _ IH]; intros h; simpl.
  - exists a, []. by rewrite app_nil_r.
  - destruct (IH (o h c) (h ++ [(c, o h c)])) as (a & t & ->).
    exists a, ((c, o h c) :: t). by rewrite <- app_assoc.
Qed.

Lemma returns_when (b : bool) (p : prog unit) : returns p -> returns (when b p).
Proof. destruct b; simpl; [done | constructor]. Qed.

Lemma returns_mc_log (level : Z) (fmt : string) (args : list logarg) :
  returns (mc_log level fmt args).
Proof. unfold mc_log. destruct (level <? log_level); repeat constructor. Qed.

Create HintDb returns discriminated.
#[local] Hint Resolve returns_mc_log returns_when : returns.
#[local] Hint Constructors returns : returns.

(** Proves that a straight-line function of the runtime returns: split the
    binds, answer every call, and take both sides of every test. *)
Ltac returns_tac :=
  repeat first
    [ solve [auto 1 with returns]
    | apply returns_when
    | apply returns_bind
    | apply returns_call
    | apply returns_ret
    | progress intros
    | progress cbv beta zeta
    | match goal with
      | |- returns (if ?b then _ else _) => destruct b
      | |- returns (match ?x with _ => _ end) => destruct x
      | |- returns (sys _) => unfold sys
      end ].

Lemma returns_write_cgroup_value (path value : string) :
  returns (write_cgroup_value path value).
Proof. unfold write_cgroup_value. returns_tac. Qed.
#[local] Hint Resolve returns_write_cgroup_value : returns.

Lemma returns_write_file (path content : string) : returns (write_file path content).
Proof. unfold write_file. returns_tac. Qed.
#[local] Hint Resolve returns_write_file : returns.

Lemma returns_cgroup_add_pid (c : container_t) (p : Z) : returns (cgroup_add_pid c p).
Proof. unfold cgroup_add_pid. returns_tac. Qed.
#[local] Hint Resolve returns_cgroup_add_pid : returns.

Lemma returns_save_container_state (c : container_t) : returns (save_container_state c).
Proof. unfold save_container_state. returns_tac. Qed.
#[local] Hint Resolve returns_save_container_state : returns.

Lemma returns_ns_setup_user (p a b c d : Z) : returns (ns_setup_user p a b c d).
Proof. unfold ns_setup_user. returns_tac. Qed.
#[local] Hint Resolve returns_ns_setup_user : returns.

Lemma returns_ns_create (g : container_config_t) : returns (ns_create g).
Proof. unfold ns_create. returns_tac. Qed.
#[local] Hint Resolve returns_ns_create : returns.

Lemma returns_cgroup_apply_limits (c : container_t) : returns (cgroup_apply_limits c).
Proof.
  unfold cgroup_apply_limits, apply_memory_limit, apply_cpu_limit, apply_cpu_weight,
    apply_pids_limit. returns_tac.
Qed.
#[local] Hint Resolve returns_cgroup_apply_limits : returns.

Lemma returns_enable_controllers (path msg : string) (cs : list string) :
  returns (enable_controllers path msg cs).
Proof. induction cs; simpl; returns_tac. Qed.
#[local] Hint Resolve returns_enable_controllers : returns.

Lemma returns_cgroup_init (c : container_t) : returns (cgroup_init c).
Proof. unfold cgroup_init, cgroup_v2_available, cgroup_create_hierarchy. returns_tac. Qed.
#[local] Hint Resolve returns_cgroup_init : returns.

Lemma container_stop_spec_witness :
  run (oracle_of friendly) (container_stop (sample_container CONTAINER_STOPPED) 10) [] =
    (Returned (MC_OK, sample_container CONTAINER_STOPPED), []) /\
  (exists c',
     fst (run (oracle_of (ended_with 256))
            (container_stop (sample_container CONTAINER_RUNNING) 10) []) =
       Returned (MC_OK, c') /\
     state c' = CONTAINER_STOPPED /\ exit_code c' = 256) /\
  (exists c',
     fst (run (oracle_of not_our_child)
            (container_stop (with_exit_code (sample_container CONTAINER_RUNNING) 77) 10) []) =
       Returned (MC_OK, c') /\
     state c' = CONTAINER_STOPPED /\ exit_code c' = 77).
Proof.
  split; [|split].
  - apply (proj1 (container_stop_spec (oracle_of friendly) []
                    (sample_container CONTAINER_STOPPED) 10)).
    discriminate.
  - destruct (proj2 (container_stop_spec (oracle_of (ended_with 256)) []
                       (sample_container CONTAINER_RUNNING) 10) eq_refl)
      as (k & term & w & tm & misses & ending & saved & Hr & _ & _ & _ & _ & _ & Hst & _).
    eexists. split; [by rewrite Hr|]. split; [exact Hst|].
    assert (exists c0,
              fst (run (oracle_of (ended_with 256))
                     (container_stop (sample_container CONTAINER_RUNNING) 10) []) =
                Returned (MC_OK, c0) /\ exit_code c0 = 256) as (c0 & Hc & Hx)
      by (eexists; split; vm_compute; reflexivity).
    rewrite Hr in Hc. cbn [fst] in Hc. injection Hc as Hc. by rewrite Hc.
  - destruct (proj2 (container_stop_spec (oracle_of not_our_child) []
                       (with_exit_code (sample_container CONTAINER_RUNNING) 77) 10) eq_refl)
      as (k & term & w & tm & misses & ending & saved & Hr & _ & _ & _ & _ & _ & Hst & _).
    eexists. split; [by rewrite Hr|]. split; [exact Hst|].
    assert (exists c0,
              fst (run (oracle_of not_our_child)
                     (container_stop (with_exit_code (sample_container CONTAINER_RUNNING) 77) 10)
                     []) =
                Returned (MC_OK, c0) /\ exit_code c0 = 77) as (c0 & Hc & Hx)
      by (eexists; split; vm_compute; reflexivity).
    rewrite Hr in Hc. cbn [fst] in Hc. injection Hc as Hc. by rewrite Hc.
Defined.

(** C3 as the spec words it fails: the process of the record is not a child
    of the caller, so every [waitpid] fails with ECHILD.  The stop runs its
    ten polls, sends SIGKILL, waits in vain and returns success with the
    state stopped, and the exit code in the record is still the 77 it held
    before: none was recorded. *)
Lemma container_stop_without_exit_code :
  let c := with_exit_code (sample_container CONTAINER_RUNNING) 77 in
  exists c' t,
    run (oracle_of not_our_child) (container_stop c 1) [] = (Returned (MC_OK, c'), t) /\
    state c' = CONTAINER_STOPPED /\
    stopped_at c' = 1700000000 /\
    exit_code c' = 77 /\
    last (List.filter (fun e => match fst e with Waitpid _ _ => true | _ => false end) t) =
      Some (Waitpid 42 0, not_our_child (Waitpid 42 0)) /\
    ret (not_our_child (Waitpid 42 0)) = -1.
Proof.
  cbv zeta. eexists _, _. split; [vm_compute; reflexivity|].
  repeat split; reflexivity.
Qed.

(** ** [container_start] *)

(** C1, as the code has it.  [container_start] refuses (MC_ERR_INVALID, no
    call issued, record untouched) exactly the records whose state is
    running.  In every other state, paused and deleted included, it enters
    [ns_create], whose first call creates the pipe; and whenever [ns_create]
    yields a PID the record becomes running with that PID and success is
    returned. *)
Theorem container_start_guard (o : oracle) (h : list event) (c : container_t) :
  (state c = CONTAINER_RUNNING ->
     run o (container_start c) h = (Returned (MC_ERR_INVALID, c), h)) /\
  (state c <> CONTAINER_RUNNING ->
     (exists t, snd (run o (container_start c) h) = h ++ (Pipe, o h Pipe) :: t) /\
     (forall child h', run o (ns_create (config c)) h = (Returned child, h') ->
        0 <= child ->
        exists c', fst (run o (container_start c) h) = Returned (MC_OK, c') /\
                   state c' = CONTAINER_RUNNING /\ pid c' = child /\
                   config c' = config c)).
Proof.
  split; intros Hst.
  - unfold container_start. by rewrite Hst.
  - assert (E : state_eqb (state c) CONTAINER_RUNNING = false).
    { destruct (state_eqb _ _) eqn:E; [|done]. by apply state_eqb_eq in E. }
    unfold container_start. rewrite E. split.
    + unfold ns_create. cbn [bind sys]. apply run_call_first.
    + intros child h' Hns Hpos. rewrite run_bind, Hns.
      assert (Hlt : (child <? 0) = false) by lia. rewrite Hlt.
      cbn [bind sys run]. rewrite run_bind.
      set (c1 := with_started_at _ _).
      destruct (run_returns o _ (returns_cgroup_add_pid c1 child) (h' ++ [(Time, o h' Time)]))
        as (r1 & t1 & ->).
      rewrite run_bind.
      destruct (run_returns o _ (returns_save_container_state c1) ((h' ++ [(Time, o h' Time)]) ++ t1))
        as (r2 & t2 & ->).
      exists c1. split; [reflexivity | done].
Qed.

Lemma container_start_guard_witness :
  run (oracle_of friendly) (container_start (sample_container CONTAINER_RUNNING)) [] =
    (Returned (MC_ERR_INVALID, sample_container CONTAINER_RUNNING), []) /\
  exists t, snd (run (oracle_of friendly) (container_start (sample_container CONTAINER_DELETED)) []) =
            [] ++ (Pipe, friendly Pipe) :: t.
Proof.
  split.
  - by apply (proj1 (container_start_guard (oracle_of friendly) []
                       (sample_container CONTAINER_RUNNING))).
  - by apply (proj2 (container_start_guard (oracle_of friendly) []
                       (sample_container CONTAINER_DELETED))).
Defined.

(** C1 as the spec words it fails: started on a paused record, with a kernel
    that grants every call, [container_start] clones a child (PID 4242) and
    returns success with the record running. *)
Lemma container_start_paused_spawns :
  state (sample_container CONTAINER_PAUSED) = CONTAINER_PAUSED /\
  exists c' t,
    run (oracle_of friendly) (container_start (sample_container CONTAINER_PAUSED)) [] =
      (Returned (MC_OK, c'), t) /\
    state c' = CONTAINER_RUNNING /\ pid c' = 4242 /\
    In (Clone (Z.lor (get_ns_flags sample_config) SIGCHLD) (3, 4), answer_of 4242) t.
Proof.
  split; [reflexivity|].
  eexists _, _. split; [vm_compute; reflexivity|].
  split; [reflexivity|]. split; [reflexivity|].
  vm_compute. do 2 right. left. reflexivity.
Qed.

(** ** [container_list] *)

(** C9.  When [opendir] on the containers directory yields NULL,
    [container_list] returns MC_OK with a NULL list and a count of 0, and
    issues no further call. *)
Theorem container_list_no_directory (o : oracle) (h : list event) :
  let path := snprintf PATH_MAX (STATE_DIR +:+ "/containers") in
  ret (o h (Opendir path)) = 0 ->
  run o container_list h =
    (Returned (MC_OK, None, 0), h ++ [(Opendir path, o h (Opendir path))]).
Proof.
  intros path H. unfold container_list. fold path. cbn [bind sys run].
  by rewrite H.
Qed.

Lemma container_list_no_directory_witness :
  run (oracle_of (fun _ => answer_of 0)) container_list [] =
    (Returned (MC_OK, None, 0),
     [(Opendir "/var/lib/minicontainer/containers", answer_of 0)]).
Proof.
  apply (container_list_no_directory (oracle_of (fun _ => answer_of 0)) []).
  reflexivity.
Defined.

(** ** [container_exec] *)

Lemma exited_not_signaled (status : Z) :
  WIFEXITED status = true -> WIFSIGNALED status = false.
Proof.
  unfold WIFEXITED, WIFSIGNALED, WTERMSIG. intros H.
  apply Z.eqb_eq in H. by rewrite H.
Qed.

(** C10.  Once the checks have passed, the helper is forked and [waitpid]
    has reported it, [container_exec] returns MC_OK exactly when the command
    exited with code 0 or was killed by a signal, and MC_ERR_PROCESS when it
    exited with another code.  ([waitpid] without WUNTRACED reports only
    exits and signal deaths, which is the hypothesis on the status.) *)
Theorem container_exec_result (o : oracle) (h : list event) (c : container_t)
    (cmd : list string) (cmd_count : Z) :
  let probe := o h (Kill (pid c) 0) in
  let h1 := h ++ [(Kill (pid c) 0, probe)] in
  let f := o h1 Fork in
  let h2 := h1 ++ [(Fork, f)] in
  let w := o h2 (Waitpid (ret f) 0) in
  let status := out1 w in
  0 < cmd_count -> state c = CONTAINER_RUNNING -> 0 < pid c ->
  ret probe = 0 -> 0 < ret f -> 0 <= ret w ->
  WIFEXITED status = true \/ WIFSIGNALED status = true ->
  exists r t,
    run o (container_exec (Some c) (Some cmd) cmd_count) h = (Returned r, t) /\
    (r = MC_OK <->
       (WIFEXITED status = true /\ WEXITSTATUS status = 0) \/ WIFSIGNALED status = true) /\
    (WIFEXITED status = true -> WEXITSTATUS status <> 0 -> r = MC_ERR_PROCESS).
Proof.
  intros probe h1 f h2 w status Hn Hst Hpid Hprobe Hf Hw Hstatus.
  unfold container_exec. rewrite Hst.
  replace (cmd_count <=? 0) with false by lia.
  replace (pid c <=? 0) with false by lia.
  cbn [state_eqb state_index Nat.eqb negb orb bind sys run].
  fold probe. rewrite Hprobe. cbn [Z.eqb negb bind sys run].
  fold h1 f.
  replace (ret f <? 0) with false by lia.
  replace (ret f =? 0) with false by lia.
  cbn [bind sys run]. fold h2 w status.
  replace (ret w <? 0) with false by lia.
  destruct (WIFEXITED status) eqn:Hex.
  - cbn [mc_log Z.ltb Z.compare log_level bind sys run].
    pose proof (exited_not_signaled status Hex) as Hns.
    destruct (WEXITSTATUS status =? 0) eqn:Hcode; eexists _, _;
      (split; [reflexivity|]).
    + apply Z.eqb_eq in Hcode. split; [|congruence]. split; auto.
    + apply Z.eqb_neq in Hcode. split; [|done].
      split; [discriminate|]. intros [[_ ?] | ?]; congruence.
  - eexists _, _. split; [reflexivity|]. split; [|discriminate].
    split; [|done]. intros _. right. destruct Hstatus; congruence.
Qed.

Lemma container_exec_result_witness :
  exists t,
    run (oracle_of friendly)
      (container_exec (Some (sample_container CONTAINER_RUNNING)) (Some ["/bin/true"]) 1) [] =
      (Returned MC_OK, t).
Proof.
  destruct (container_exec_result (oracle_of friendly) []
              (sample_container CONTAINER_RUNNING) ["/bin/true"] 1)
    as (r & t & Hr & Hok & _); try reflexivity; try (vm_compute; congruence).
  - left. reflexivity.
  - exists t. rewrite Hr. f_equal. f_equal. apply Hok. left. split; reflexivity.
Defined.

(** ** [filesystem.c] *)

Lemma substring_all (s : string) (n : nat) :
  (String.length s <= n)%nat -> substring 0 n s = s.
Proof.
  revert n. induction s as [|c s IH]; intros n H; destruct n; simpl in *; try done; try lia.
  f_equal. apply IH. lia.
Qed.

Lemma snprintf_fits (size : nat) (s : string) :
  (String.length s < size)%nat -> snprintf size s = s.
Proof. intros H. unfold snprintf. apply substring_all. lia. Qed.

Lemma length_append (s1 s2 : string) :
  String.length (s1 +:+ s2) = (String.length s1 + String.length s2)%nat.
Proof. induction s1; simpl; auto. Qed.

Lemma put_old_fits (rootfs : string) :
  (String.length rootfs + 10 < PATH_MAX)%nat ->
  put_old_of rootfs = rootfs +:+ "/.old_root".
Proof.
  intros H. unfold put_old_of. apply snprintf_fits.
  rewrite length_append. simpl. lia.
Qed.

Lemma sysevents_app (t1 t2 : list event) :
  sysevents (t1 ++ t2) = sysevents t1 ++ sysevents t2.
Proof. apply List.filter_app. Qed.

Lemma run_mkdir_each (o : oracle) (paths : list string) (mode : Z) :
  forall h, exists t,
    run o (mkdir_each paths mode) h = (Returned tt, h ++ t) /\
    calls t = map (fun p => Mkdir p mode) paths /\ sysevents t = t.
Proof.
  induction paths as [|p ps IH]; intros h; simpl.
  - exists []. by rewrite app_nil_r.
  - destruct (IH (h ++ [(Mkdir p mode, o h (Mkdir p mode))])) as (t & -> & Hc & Hs).
    exists ((Mkdir p mode, o h (Mkdir p mode)) :: t). rewrite <- app_assoc.
    split; [done|]. split; [simpl; by rewrite Hc|].
    unfold sysevents in *. simpl. by rewrite Hs.
Qed.

Lemma run_mkdir_p (o : oracle) (path : string) (mode : Z) (h : list event) :
  exists r t,
    run o (mkdir_p path mode) h = (Returned r, h ++ t) /\
    calls t = mkdir_p_calls path mode /\ sysevents t = t.
Proof.
  unfold mkdir_p, mkdir_p_calls. rewrite run_bind.
  destruct (run_mkdir_each o (mkdir_p_prefixes (snprintf PATH_MAX path)) mode h)
    as (t & -> & Hc & Hs).
  cbn [bind sys run]. eexists _, (t ++ [_]). rewrite <- app_assoc.
  split; [reflexivity|]. split.
  - unfold calls in *. rewrite !map_app. by f_equal.
  - by rewrite sysevents_app, Hs.
Qed.

Lemma mc_log_info (fmt : string) (args : list logarg) :
  mc_log 1 fmt args = Call (Stderr "INFO" fmt args) (fun _ => Ret tt).
Proof. reflexivity. Qed.

Lemma mc_log_warn (fmt : string) (args : list logarg) :
  mc_log 2 fmt args = Call (Stderr "WARN" fmt args) (fun _ => Ret tt).
Proof. reflexivity. Qed.

Lemma mc_log_error (fmt : string) (args : list logarg) :
  mc_log 3 fmt args = Call (Stderr "ERROR" fmt args) (fun _ => Ret tt).
Proof. reflexivity. Qed.

(** Unfolds the log calls and runs the program up to the next test. *)
Ltac run_step :=
  rewrite ?mc_log_info, ?mc_log_warn, ?mc_log_error;
  cbn [bind sys run when negb].

(** C4.  [fs_pivot_root] fails with MC_ERR_FILESYSTEM when [rootfs] is NULL,
    missing or not a directory.  Otherwise its system calls are, in this
    order: make [/] a recursive private mount; bind-mount [rootfs] on itself
    recursively; create [rootfs/.old_root] with mode 0700 (through [mkdir_p],
    which also tries the directories on the way); [pivot_root(rootfs,
    rootfs/.old_root)]; [chdir("/")]; detach-unmount [/.old_root]; remove it.
    The sequence stops early, with MC_ERR_FILESYSTEM, only when one of the two
    mounts or [pivot_root] fails.  When these three succeed the function
    returns MC_OK whatever [chdir], [umount2] and [rmdir] answer, and a failed
    [umount2] leaves just a WARN line. *)
Theorem fs_pivot_root_steps (o : oracle) (h : list event) (rootfs : string) :
  (String.length rootfs + 10 < PATH_MAX)%nat ->
  let put_old := rootfs +:+ "/.old_root" in
  let make_private := Mount None "/" None (Z.lor MS_REC MS_PRIVATE) None in
  let bind_rootfs := Mount (Some rootfs) rootfs None (Z.lor MS_BIND MS_REC) None in
  let create_put_old := map (fun p => Mkdir p 448) (mkdir_p_prefixes put_old ++ [put_old]) in
  run o (fs_pivot_root None) h =
    (Returned MC_ERR_FILESYSTEM,
     h ++ [(Stderr "ERROR" "Rootfs does not exist: %s" [A_str "(null)"],
            o h (Stderr "ERROR" "Rootfs does not exist: %s" [A_str "(null)"]))]) /\
  exists code t,
    run o (fs_pivot_root (Some rootfs)) h = (Returned code, h ++ t) /\
    ((exists st,
        ~ is_dir st /\ code = MC_ERR_FILESYSTEM /\
        sysevents t = [(Stat rootfs, st)]) \/
     (exists st m1,
        is_dir st /\ ret m1 <> 0 /\ code = MC_ERR_FILESYSTEM /\
        sysevents t = [(Stat rootfs, st); (make_private, m1)]) \/
     (exists st m1 m2,
        is_dir st /\ ret m1 = 0 /\ ret m2 <> 0 /\ code = MC_ERR_FILESYSTEM /\
        sysevents t = [(Stat rootfs, st); (make_private, m1); (bind_rootfs, m2)]) \/
     (exists st m1 m2 mk pv rm,
        is_dir st /\ ret m1 = 0 /\ ret m2 = 0 /\ ret pv <> 0 /\
        code = MC_ERR_FILESYSTEM /\ calls mk = create_put_old /\
        sysevents t =
          [(Stat rootfs, st); (make_private, m1); (bind_rootfs, m2)] ++ mk ++
          [(PivotRoot rootfs put_old, pv); (Rmdir put_old, rm)]) \/
     (exists st m1 m2 mk pv cd um rm,
        is_dir st /\ ret m1 = 0 /\ ret m2 = 0 /\ ret pv = 0 /\
        code = MC_OK /\ calls mk = create_put_old /\
        sysevents t =
          [(Stat rootfs, st); (make_private, m1); (bind_rootfs, m2)] ++ mk ++
          [(PivotRoot rootfs put_old, pv); (Chdir "/", cd);
           (Umount2 "/.old_root" MNT_DETACH, um); (Rmdir "/.old_root", rm)] /\
        (ret um <> 0 ->
           In (Stderr "WARN" "umount old_root failed: %s" [A_errno (errno um)]) (calls t)))).
Proof.
  intros Hlen put_old make_private bind_rootfs create_put_old.
  split; [reflexivity|].
  assert (Hput : put_old_of rootfs = put_old) by by apply put_old_fits.
  assert (Hmk : mkdir_p_calls put_old 448 = create_put_old).
  { unfold mkdir_p_calls, create_put_old. rewrite snprintf_fits; [done|].
    unfold put_old. rewrite length_append. simpl. lia. }
  unfold fs_pivot_root, dir_exists. cbn [bind sys run].
  set (st := o h (Stat rootfs)). set (h1 := h ++ [(Stat rootfs, st)]).
  destruct ((ret st =? 0) && S_ISDIR (out1 st)) eqn:Hdir.
  2: { run_step. eexists _, [_; _]. unfold h1. rewrite <- app_assoc. split; [reflexivity|].
       left. exists st. split; [|done].
       unfold is_dir. intros [H1 H2]. rewrite H1, H2 in Hdir. done. }
  assert (Hisdir : is_dir st).
  { apply andb_prop in Hdir as [H1 H2]. split; [lia | done]. }
  cbn [bind sys run]. fold make_private.
  set (m1 := o h1 make_private). set (h2 := h1 ++ [(make_private, m1)]).
  destruct (ret m1 =? 0) eqn:Hm1; cbn [negb].
  2: { run_step.
       eexists _, [_; _; _]. unfold h2, h1. rewrite <- !app_assoc.
       split; [reflexivity|]. right. left. exists st, m1.
       split; [done|]. split; [lia|]. done. }
  cbn [bind sys run]. fold bind_rootfs.
  set (m2 := o h2 bind_rootfs). set (h3 := h2 ++ [(bind_rootfs, m2)]).
  destruct (ret m2 =? 0) eqn:Hm2; cbn [negb].
  2: { run_step.
       eexists _, [_; _; _; _]. unfold h3, h2, h1. rewrite <- !app_assoc.
       split; [reflexivity|]. right. right. left. exists st, m1, m2.
       split; [done|]. split; [lia|]. split; [lia|]. done. }
  rewrite Hput. rewrite run_bind.
  destruct (run_mkdir_p o put_old 448 h3) as (r & mk & -> & Hcalls & Hsys).
  rewrite Hmk in Hcalls.
  cbn [bind sys run].
  set (h4 := h3 ++ mk).
  set (pv := o h4 (PivotRoot rootfs put_old)).
  set (h5 := h4 ++ [(PivotRoot rootfs put_old, pv)]).
  destruct (ret pv =? 0) eqn:Hpv; cbn [negb].
  2: { run_step.
       eexists _, ([_; _; _] ++ mk ++ [_; _; _]).
       split.
       { unfold h5, h4, h3, h2, h1. repeat (rewrite <- app_assoc; simpl). reflexivity. }
       do 3 right. left. exists st, m1, m2, mk, pv. eexists.
       split; [done|]. split; [lia|]. split; [lia|]. split; [lia|].
       split; [done|]. split; [done|].
       rewrite !sysevents_app, Hsys. reflexivity. }
  cbn [bind sys run].
  set (cd := o h5 (Chdir "/")). set (h6 := h5 ++ [(Chdir "/", cd)]).
  assert (Hcd : exists lg, run o (when (negb (ret cd =? 0))
              (mc_log 3 "chdir to / failed: %s" [A_errno (errno cd)])) h6 =
              (Returned tt, h6 ++ lg) /\ sysevents lg = [] /\
              forall c, In c (calls lg) -> is_log c = true).
  { destruct (ret cd =? 0); run_step.
    - exists []. by rewrite app_nil_r.
    - eexists [_]. split; [reflexivity|]. split; [reflexivity|].
      intros c [<- | []]. reflexivity. }
  destruct Hcd as (lg1 & Hrun1 & Hlg1 & _).
  rewrite run_bind, Hrun1. cbn [bind sys run].
  set (h7 := h6 ++ lg1).
  set (um := o h7 (Umount2 "/.old_root" MNT_DETACH)).
  set (h8 := h7 ++ [(Umount2 "/.old_root" MNT_DETACH, um)]).
  assert (Hum : exists lg, run o (when (negb (ret um =? 0))
              (mc_log 2 "umount old_root failed: %s" [A_errno (errno um)])) h8 =
              (Returned tt, h8 ++ lg) /\ sysevents lg = [] /\
              (ret um <> 0 ->
                 In (Stderr "WARN" "umount old_root failed: %s" [A_errno (errno um)]) (calls lg))).
  { destruct (ret um =? 0) eqn:E; run_step.
    - exists []. rewrite app_nil_r. split; [done|]. split; [done|]. lia.
    - eexists [_]. split; [reflexivity|]. split; [reflexivity|].
      intros _. left. reflexivity. }
  destruct Hum as (lg2 & Hrun2 & Hlg2 & Hwarn).
  rewrite run_bind, Hrun2. run_step.
  eexists _, ([_; _; _] ++ mk ++ [_; _] ++ lg1 ++ [_] ++ lg2 ++ [_; _]).
  split.
  { unfold h8, h7, h6, h5, h4, h3, h2, h1. repeat (rewrite <- app_assoc; simpl). reflexivity. }
  do 4 right. exists st, m1, m2, mk, pv, cd, um. eexists.
  split; [done|]. split; [lia|]. split; [lia|]. split; [lia|].
  split; [done|]. split; [done|]. split.
  - rewrite !sysevents_app, Hsys, Hlg1, Hlg2. reflexivity.
  - intros Hne. specialize (Hwarn Hne). unfold calls in *.
    rewrite !map_app. rewrite !in_app_iff. auto 10.
Qed.

Lemma fs_pivot_root_steps_witness :
  exists code t,
    run (oracle_of friendly) (fs_pivot_root (Some "/tmp/alpine")) [] = (Returned code, [] ++ t).
Proof.
  assert (H : (String.length "/tmp/alpine" + 10 < PATH_MAX)%nat) by (vm_compute; lia).
  destruct (proj2 (fs_pivot_root_steps (oracle_of friendly) [] "/tmp/alpine" H))
    as (code & t & Hr & _).
  by exists code, t.
Defined.

(** ** [cgroup.c]: applying the limits *)

Lemma digits_length (base : Z) (fuel : nat) :
  forall n acc, (String.length (digits base fuel n acc) <= fuel + String.length acc)%nat.
Proof.
  induction fuel as [|f IH]; intros n acc; simpl; [lia|].
  destruct (n <? base); simpl; [lia|].
  specialize (IH (n / base) (String (digit_char (n mod base)) acc)). simpl in IH. lia.
Qed.

Lemma fmt_d_length (n : Z) : (String.length (fmt_d n) <= 21)%nat.
Proof.
  unfold fmt_d, fmt_u. destruct (n <? 0); simpl.
  - pose proof (digits_length 10 20 (- n) ""). simpl in *. lia.
  - pose proof (digits_length 10 20 n ""). simpl in *. lia.
Qed.

(** A number always fits the 128-byte (or 32-byte) value buffer. *)
Lemma snprintf_fmt_d (size : nat) (n : Z) :
  (22 <= size)%nat -> snprintf size (fmt_d n) = fmt_d n.
Proof. intros H. apply snprintf_fits. pose proof (fmt_d_length n). lia. Qed.

Lemma opened_app (t1 t2 : list event) : opened (t1 ++ t2) = opened t1 ++ opened t2.
Proof.
  induction t1 as [|[c a] t1 IH]; simpl; [done|].
  destruct c; simpl; by rewrite ?IH.
Qed.

Lemma fd_table_app (fds : gmap Z string) (t1 t2 : list event) :
  fd_table fds (t1 ++ t2) = fd_table (fd_table fds t1) t2.
Proof. apply fold_left_app. Qed.

Lemma file_writes_app (t1 t2 : list event) :
  forall fds, file_writes fds (t1 ++ t2) =
              file_writes fds t1 ++ file_writes (fd_table fds t1) t2.
Proof.
  induction t1 as [|[c a] t1 IH]; intros fds; [done|].
  destruct c; try (simpl; apply IH).
  simpl. destruct (fds !! fd); simpl; by rewrite IH.
Qed.

(** What one [write_cgroup_value path value] leaves in the trace: one attempt
    to open [path]; the write of [value] on it when the open worked; no
    descriptor left open. *)
Lemma run_write_cgroup_value (o : oracle) (h : list event) (path value : string) :
  exists r t,
    run o (write_cgroup_value path value) h = (Returned r, h ++ t) /\
    opened t = [path] /\
    fd_table ∅ t = ∅ /\
    file_writes ∅ t = (if 0 <=? ret (o h (Open path O_WRONLY)) then [(path, value)] else []).
Proof.
  unfold write_cgroup_value. cbn [bind sys run].
  set (a := o h (Open path O_WRONLY)).
  destruct (ret a <? 0) eqn:Ea; run_step.
  - eexists _, [_; _]. rewrite <- app_assoc. split; [reflexivity|].
    assert (E : (0 <=? ret a) = false) by lia.
    unfold fd_table. simpl. rewrite E. done.
  - assert (E : (0 <=? ret a) = true) by lia.
    set (w := o _ (Write (ret a) value)).
    destruct (ret w =? strlen value); run_step.
    + eexists _, [_; _; _]. rewrite <- !app_assoc. split; [reflexivity|].
      unfold fd_table. simpl. rewrite E. rewrite lookup_insert_eq.
      split; [done|]. split; [|done]. by rewrite delete_insert_eq, delete_empty.
    + eexists _, [_; _; _; _]. rewrite <- !app_assoc. split; [reflexivity|].
      unfold fd_table. simpl. rewrite E. rewrite lookup_insert_eq.
      split; [done|]. split; [|done]. by rewrite delete_insert_eq, delete_empty.
Qed.

Lemma attempts_ret {A} (a : A) (post : A -> Prop) : post a -> attempts (Ret a) [] post.
Proof.
  intros H o h. exists a, []. rewrite app_nil_r. repeat split; try done; try constructor.
Qed.

Lemma attempts_post {A} (p : prog A) rows (post post' : A -> Prop) :
  (forall a, post a -> post' a) -> attempts p rows post -> attempts p rows post'.
Proof.
  intros Hpost H o h. destruct (H o h) as (r & t & ? & ? & ? & ? & ?).
  exists r, t. auto 10.
Qed.

Lemma attempts_bind {A B} (p : prog A) (f : A -> prog B) rows1 rows2
    (post1 : A -> Prop) (post2 : B -> Prop) :
  attempts p rows1 post1 ->
  (forall a, post1 a -> attempts (f a) rows2 post2) ->
  attempts (bind p f) (rows1 ++ rows2) post2.
Proof.
  intros Hp Hf o h.
  destruct (Hp o h) as (a & t1 & Hr1 & Ha & Ho1 & Hfd1 & Hw1).
  destruct (Hf a Ha o (h ++ t1)) as (b & t2 & Hr2 & Hb & Ho2 & Hfd2 & Hw2).
  exists b, (t1 ++ t2). rewrite run_bind, Hr1, Hr2, <- app_assoc.
  split; [done|]. split; [done|].
  split; [by rewrite opened_app, Ho1, Ho2, map_app|].
  split; [by rewrite fd_table_app, Hfd1|].
  rewrite file_writes_app, Hfd1. by apply sublist_app.
Qed.

Lemma attempts_mc_log (level : Z) (fmt : string) (args : list logarg) :
  attempts (mc_log level fmt args) [] (fun _ => True).
Proof.
  intros o h. unfold mc_log. destruct (level <? log_level); cbn [bind sys run].
  - exists tt, []. rewrite app_nil_r. repeat split; try done; try constructor.
  - eexists tt, [_]. repeat split; try done; try constructor.
Qed.

Lemma attempts_write_cgroup_value (path value : string) :
  attempts (write_cgroup_value path value) [(path, value)] (fun _ => True).
Proof.
  intros o h.
  destruct (run_write_cgroup_value o h path value) as (r & t & Hr & Ho & Hfd & Hw).
  exists r, t. repeat split; try done. rewrite Hw.
  destruct (0 <=? _); [done|]. apply sublist_nil_l.
Qed.

(** A write whose outcome only decides which line is logged. *)
Lemma attempts_write_then_log (path value : string) (k : Z -> prog unit) :
  (forall r, attempts (k r) [] (fun _ => True)) ->
  attempts (bind (write_cgroup_value path value) k) [(path, value)] (fun _ => True).
Proof.
  intros Hk. change [(path, value)] with ([(path, value)] ++ []).
  eapply attempts_bind; [apply attempts_write_cgroup_value|]. intros r _. apply Hk.
Qed.

Lemma attempts_log_either (b : bool) l1 f1 a1 l2 f2 a2 :
  attempts (if b then mc_log l1 f1 a1 else mc_log l2 f2 a2) [] (fun _ => True).
Proof. destruct b; apply attempts_mc_log. Qed.

Lemma attempts_log_when (b : bool) l f a :
  attempts (when b (mc_log l f a)) [] (fun _ => True).
Proof. destruct b; simpl; [apply attempts_mc_log | by apply attempts_ret]. Qed.

Lemma attempts_apply_memory_limit (c : container_t) :
  attempts (apply_memory_limit c) (memory_rows c) (fun _ => True).
Proof.
  unfold apply_memory_limit, memory_rows. cbv zeta.
  destruct (0 <? memory_limit_bytes (limits (config c))); cbn [when];
    [|by apply attempts_ret].
  rewrite !snprintf_fmt_d by lia.
  eapply (attempts_bind _ _ [_] _); [apply attempts_write_cgroup_value|]. intros r _.
  eapply (attempts_bind _ _ [] _); [apply attempts_log_either|]. intros _ _.
  destruct (0 <=? memory_swap_bytes (limits (config c))); cbn [when];
    [|by apply attempts_ret].
  apply attempts_write_then_log. intros r0. apply attempts_log_when.
Qed.

Lemma attempts_apply_cpu_limit (c : container_t) :
  attempts (apply_cpu_limit c) (cpu_max_rows c) (fun _ => True).
Proof.
  unfold apply_cpu_limit, cpu_max_rows. cbv zeta.
  destruct (0 <? cpu_quota_us (limits (config c))); cbn [when];
    [|by apply attempts_ret].
  apply attempts_write_then_log. intros r. apply attempts_log_either.
Qed.

Lemma attempts_apply_cpu_weight (c : container_t) :
  attempts (apply_cpu_weight c) (cpu_weight_rows c) (fun _ => True).
Proof.
  unfold apply_cpu_weight, cpu_weight_rows. cbv zeta.
  destruct (0 <? cpu_shares (limits (config c))); cbn [when];
    [|by apply attempts_ret].
  rewrite !snprintf_fmt_d by lia.
  apply attempts_write_then_log. intros r. apply attempts_log_when.
Qed.

Lemma attempts_apply_pids_limit (c : container_t) :
  attempts (apply_pids_limit c) (pids_rows c) (fun _ => True).
Proof.
  unfold apply_pids_limit, pids_rows. cbv zeta.
  destruct (0 <? pids_max (limits (config c))); cbn [when];
    [|by apply attempts_ret].
  rewrite !snprintf_fmt_d by lia.
  apply attempts_write_then_log. intros r. apply attempts_log_either.
Qed.

(** [cgroup_apply_limits] tries the rows of the limit table, in order, and
    always reports success. *)
Lemma attempts_cgroup_apply_limits (c : container_t) :
  attempts (cgroup_apply_limits c) (limit_rows c) (fun r => r = MC_OK).
Proof.
  unfold cgroup_apply_limits, limit_rows.
  eapply attempts_bind; [apply attempts_apply_memory_limit|]. intros _ _.
  eapply attempts_bind; [apply attempts_apply_cpu_limit|]. intros _ _.
  eapply attempts_bind; [apply attempts_apply_cpu_weight|]. intros _ _.
  rewrite <- (app_nil_r (pids_rows c)).
  eapply attempts_bind; [apply attempts_apply_pids_limit|]. intros _ _.
  by apply attempts_ret.
Qed.

Lemma append_inj_l (s a b : string) : s +:+ a = s +:+ b -> a = b.
Proof. induction s as [|c s IH]; simpl; [done|]. intros [=]. auto. Qed.

Lemma cgroup_file_fits (c : container_t) (file : string) :
  cgroup_path_fits c -> (String.length file <= 15)%nat ->
  cgroup_file c file = cgroup_path c +:+ "/" +:+ file.
Proof.
  unfold cgroup_path_fits, cgroup_file. intros Hc Hf. apply snprintf_fits.
  rewrite !length_append. simpl. lia.
Qed.

Lemma cgroup_file_inj (c : container_t) (f1 f2 : string) :
  cgroup_path_fits c -> (String.length f1 <= 15)%nat -> (String.length f2 <= 15)%nat ->
  cgroup_file c f1 = cgroup_file c f2 -> f1 = f2.
Proof.
  intros Hc H1 H2. rewrite !cgroup_file_fits by done.
  intros H. apply append_inj_l in H. by apply (append_inj_l "/") in H.
Qed.

(** Decides that two interface files of one cgroup are different files. *)
Ltac other_file :=
  match goal with
  | H : cgroup_file ?c ?f1 = cgroup_file ?c ?f2 |- _ =>
      apply cgroup_file_inj in H; [discriminate H | assumption | simpl; lia | simpl; lia]
  end.

Lemma in_memory_rows (c : container_t) (p : string) :
  In p (map fst (memory_rows c)) ->
  p = cgroup_file c "memory.max" \/ p = cgroup_file c "memory.swap.max".
Proof.
  unfold memory_rows. cbv zeta.
  destruct (0 <? _); [|intros []].
  destruct (0 <=? _); simpl; intuition.
Qed.

Lemma in_cpu_max_rows (c : container_t) (p : string) :
  In p (map fst (cpu_max_rows c)) -> p = cgroup_file c "cpu.max".
Proof.
  unfold cpu_max_rows. cbv zeta. destruct (0 <? _); simpl; intuition.
Qed.

Lemma in_cpu_weight_rows (c : container_t) (p : string) :
  In p (map fst (cpu_weight_rows c)) -> p = cgroup_file c "cpu.weight".
Proof.
  unfold cpu_weight_rows. cbv zeta. destruct (0 <? _); simpl; intuition.
Qed.

Lemma in_pids_rows (c : container_t) (p : string) :
  In p (map fst (pids_rows c)) -> p = cgroup_file c "pids.max".
Proof.
  unfold pids_rows. cbv zeta. destruct (0 <? _); simpl; intuition.
Qed.

(** C6.  [cgroup_apply_limits] tries to open exactly the interface files of
    the rows of the limit table and writes nothing but their texts.  With
    [cpu_shares = 0] and [cpu_quota_us = 0] the table is the memory rows and
    the pids row alone, and neither [cpu.max] nor [cpu.weight] is opened, let
    alone written; with [pids_max = 0] the table is the memory and cpu rows
    alone and [pids.max] is not opened.  The rows of an axis depend on that
    axis only, so the other files get what they would get anyway. *)
Theorem apply_limits_zero_axes (o : oracle) (h : list event) (c : container_t) :
  cgroup_path_fits c ->
  exists t,
    run o (cgroup_apply_limits c) h = (Returned MC_OK, h ++ t) /\
    opened t = map fst (limit_rows c) /\
    sublist (file_writes ∅ t) (limit_rows c) /\
    (cpu_shares (limits (config c)) = 0 -> cpu_quota_us (limits (config c)) = 0 ->
       limit_rows c = memory_rows c ++ pids_rows c /\
       ~ In (cgroup_file c "cpu.max") (opened t) /\
       ~ In (cgroup_file c "cpu.weight") (opened t)) /\
    (pids_max (limits (config c)) = 0 ->
       limit_rows c = memory_rows c ++ cpu_max_rows c ++ cpu_weight_rows c /\
       ~ In (cgroup_file c "pids.max") (opened t)).
Proof.
  intros Hfit.
  destruct (attempts_cgroup_apply_limits c o h) as (r & t & Hr & -> & Ho & _ & Hw).
  exists t. split; [done|]. split; [done|]. split; [done|]. split.
  - intros Hs Hq.
    assert (E : limit_rows c = memory_rows c ++ pids_rows c).
    { unfold limit_rows, cpu_max_rows, cpu_weight_rows. by rewrite Hs, Hq. }
    split; [done|]. rewrite Ho, E, map_app.
    split; intros Hin; apply in_app_or in Hin as [Hin | Hin].
    + apply in_memory_rows in Hin as [Hin | Hin]; other_file.
    + apply in_pids_rows in Hin. other_file.
    + apply in_memory_rows in Hin as [Hin | Hin]; other_file.
    + apply in_pids_rows in Hin. other_file.
  - intros Hp.
    assert (E : limit_rows c = memory_rows c ++ cpu_max_rows c ++ cpu_weight_rows c).
    { unfold limit_rows, pids_rows. rewrite Hp. simpl. by rewrite app_nil_r. }
    split; [done|]. rewrite Ho, E, !map_app.
    intros Hin. apply in_app_or in Hin as [Hin | Hin];
      [|apply in_app_or in Hin as [Hin | Hin]].
    + apply in_memory_rows in Hin as [Hin | Hin]; other_file.
    + apply in_cpu_max_rows in Hin. other_file.
    + apply in_cpu_weight_rows in Hin. other_file.
Qed.

Lemma apply_limits_zero_axes_witness :
  exists t,
    run (oracle_of friendly) (cgroup_apply_limits (limited_container (memory_and_pids 52428800 0))) [] =
      (Returned MC_OK, [] ++ t) /\
    opened t = ["/sys/fs/cgroup/kernelsight/c0ffee/memory.max"] /\
    ~ In "/sys/fs/cgroup/kernelsight/c0ffee/cpu.max" (opened t) /\
    ~ In "/sys/fs/cgroup/kernelsight/c0ffee/cpu.weight" (opened t) /\
    ~ In "/sys/fs/cgroup/kernelsight/c0ffee/pids.max" (opened t).
Proof.
  assert (Hfit : cgroup_path_fits (limited_container (memory_and_pids 52428800 0)))
    by (vm_compute; lia).
  destruct (apply_limits_zero_axes (oracle_of friendly) []
              (limited_container (memory_and_pids 52428800 0)) Hfit)
    as (t & Hr & Ho & _ & Hcpu & Hpids).
  exists t. split; [exact Hr|]. split; [exact Ho|].
  destruct (Hcpu eq_refl eq_refl) as (_ & H1 & H2).
  destruct (Hpids eq_refl) as (_ & H3).
  auto.
Defined.

(** ** The cpu weight *)

(** While [shares * 100] fits an [int], the weight is the clamp of the spec. *)
Lemma cpu_weight_in_range (s : Z) :
  0 < s -> s * 100 <= INT_MAX ->
  cpu_weight s = clamp (s * 100 / 1024) 1 10000.
Proof.
  intros Hs Hmax. unfold cpu_weight, int_mul, int_div, clamp.
  unfold INT_MAX in Hmax.
  rewrite (wrap32_id (s * 100)) by (unfold in_int, INT_MIN, INT_MAX; lia).
  rewrite Z.quot_div_nonneg by lia.
  assert (0 <= s * 100 / 1024 <= s * 100).
  { split; [apply Z.div_pos; lia|]. apply Z.div_le_upper_bound; lia. }
  rewrite wrap32_id by (unfold in_int, INT_MIN, INT_MAX; lia).
  destruct (s * 100 / 1024 <? 1) eqn:E1.
  - simpl. lia.
  - destruct (10000 <? s * 100 / 1024) eqn:E2; lia.
Qed.

(** So in that range [cgroup_apply_limits] writes the clamp to [cpu.weight]. *)
Lemma cpu_weight_row_in_range (c : container_t) :
  let s := cpu_shares (limits (config c)) in
  0 < s -> s * 100 <= INT_MAX ->
  cpu_weight_rows c = [(cgroup_file c "cpu.weight", fmt_d (clamp (s * 100 / 1024) 1 10000))].
Proof.
  intros s Hs Hmax. unfold cpu_weight_rows. cbv zeta. fold s.
  replace (0 <? s) with true by lia. by rewrite cpu_weight_in_range.
Qed.

(** C5 at [cpu_shares = 21474837]: the product [shares * 100] no longer fits
    an [int], the weight comes out as 1, and ["1"] is what is written to
    [cpu.weight], where the clamp of the spec is 10000. *)
Theorem cpu_weight_overflow :
  let s := 21474837 in
  0 < s /\ in_int s /\
  clamp (s * 100 / 1024) 1 10000 = 10000 /\
  cpu_weight s = 1 /\
  file_writes ∅ (snd (run (oracle_of friendly)
                        (cgroup_apply_limits (limited_container (only_cpu_shares s))) [])) =
    [("/sys/fs/cgroup/kernelsight/c0ffee/cpu.weight", "1")].
Proof.
  cbv zeta. split; [done|]. split; [by vm_compute|].
  split; [reflexivity|]. split; [reflexivity|]. by vm_compute.
Qed.

(** ** [cgroup.c]: reading the metrics *)

Lemma fopens_app (t1 t2 : list event) : fopens (t1 ++ t2) = fopens t1 ++ fopens t2.
Proof.
  induction t1 as [|[c a] t1 IH]; simpl; [done|].
  destruct c; simpl; by rewrite ?IH.
Qed.

Lemma run_read_cgroup_value (o : oracle) (h : list event) (path : string) :
  exists r t,
    run o (read_cgroup_value path) h = (Returned r, h ++ t) /\
    fopens t = [(path, o h (Fopen path "r"))].
Proof.
  unfold read_cgroup_value. cbn [bind sys run].
  set (a := o h (Fopen path "r")).
  destruct (ret a =? 0).
  - eexists _, [_]. split; reflexivity.
  - destruct (scan_ld (text a)); cbn [bind sys run];
      eexists _, [_; _]; rewrite <- app_assoc; split; reflexivity.
Qed.

Lemma run_read_cgroup_string (o : oracle) (h : list event) (path : string) (size : nat) :
  exists t,
    run o (read_cgroup_string path size) h =
      (Returned (string_read size (o h (Fopen path "r"))), h ++ t) /\
    fopens t = [(path, o h (Fopen path "r"))].
Proof.
  unfold read_cgroup_string, string_read. cbn [bind sys run].
  set (a := o h (Fopen path "r")).
  destruct (ret a =? 0).
  - eexists [_]. split; reflexivity.
  - destruct (fgets size (text a)) as [[buf rest]|]; cbn [bind sys run];
      eexists [_; _]; rewrite <- app_assoc; split; reflexivity.
Qed.

Lemma cpu_stat_loop_last (bufs : list string) :
  forall acc,
    cpu_stat_loop bufs acc =
    from_option (fun v => long_mul v 1000) acc (last (omap scan_usage_usec bufs)).
Proof.
  induction bufs as [|b bufs IH]; intros acc; simpl; [done|].
  destruct (scan_usage_usec b) as [v|]; simpl; rewrite IH; [|done].
  rewrite last_cons. by destruct (last _).
Qed.

(** *** [atol] reads back what ["%ld"] prints *)

Lemma digit_char_digit (d : Z) :
  0 <= d < 10 -> isdigit (digit_char d) = true /\ digit_val (digit_char d) = d.
Proof.
  intros H.
  assert (d = 0 \/ d = 1 \/ d = 2 \/ d = 3 \/ d = 4 \/ d = 5 \/ d = 6 \/ d = 7 \/
          d = 8 \/ d = 9) as Hd by lia.
  repeat (destruct Hd as [-> | Hd]; [by vm_compute|]). subst. by vm_compute.
Qed.

Lemma scan_digits_digits (fuel : nat) :
  forall n acc, 0 <= n < 10 ^ Z.of_nat fuel ->
    scan_digits (digits 10 fuel n acc) 0 = scan_digits acc n.
Proof.
  induction fuel as [|f IH]; intros n acc Hn.
  - simpl in *. by replace n with 0 by lia.
  - cbn [digits].
    assert (Hd : 0 <= n mod 10 < 10) by (apply Z.mod_pos_bound; lia).
    destruct (digit_char_digit _ Hd) as [Hdig Hval].
    destruct (n <? 10) eqn:E.
    + cbn [scan_digits]. rewrite Hdig, Hval. rewrite Z.mod_small by lia. done.
    + rewrite IH.
      * cbn [scan_digits]. rewrite Hdig, Hval. f_equal.
        pose proof (Z.div_mod n 10). lia.
      * rewrite Nat2Z.inj_succ, Z.pow_succ_r in Hn by lia.
        split; [apply Z.div_pos; lia|]. apply Z.div_lt_upper_bound; lia.
Qed.

Lemma digits_head (fuel : nat) :
  forall n acc, 0 <= n ->
    exists d r, digits 10 (S fuel) n acc = String (digit_char d) r /\ 0 <= d < 10.
Proof.
  induction fuel as [|f IH]; intros n acc Hn.
  - cbn [digits]. exists (n mod 10), acc.
    split; [by destruct (n <? 10)|]. apply Z.mod_pos_bound; lia.
  - change (digits 10 (S (S f)) n acc) with
      (if n <? 10 then String (digit_char (n mod 10)) acc
       else digits 10 (S f) (n / 10) (String (digit_char (n mod 10)) acc)).
    destruct (n <? 10).
    + exists (n mod 10), acc. split; [done|]. apply Z.mod_pos_bound; lia.
    + apply IH. apply Z.div_pos; lia.
Qed.

Lemma digit_char_plain (d : Z) :
  0 <= d < 10 ->
  isspace (digit_char d) = false /\
  Ascii.eqb (digit_char d) "-" = false /\ Ascii.eqb (digit_char d) "+" = false.
Proof.
  intros H.
  assert (d = 0 \/ d = 1 \/ d = 2 \/ d = 3 \/ d = 4 \/ d = 5 \/ d = 6 \/ d = 7 \/
          d = 8 \/ d = 9) as Hd by lia.
  repeat (destruct Hd as [-> | Hd]; [by vm_compute|]). subst. by vm_compute.
Qed.

(** Every non-negative [long] printed with ["%ld"] is read back by [atol]. *)
Lemma atol_fmt_d (n : Z) : 0 <= n <= LONG_MAX -> atol (fmt_d n) = n.
Proof.
  intros Hn. unfold atol, scan_ld, scan_long, fmt_d, fmt_u.
  replace (n <? 0) with false by lia.
  destruct (digits_head 19 n "" ltac:(lia)) as (d & r & Hd & Hr).
  destruct (digit_char_digit d Hr) as [Hdig _].
  destruct (digit_char_plain d Hr) as (Hsp & Hminus & Hplus).
  assert (Hscan : scan_digits (digits 10 20 n "") 0 = (n, "")).
  { rewrite scan_digits_digits; [done|]. unfold LONG_MAX in Hn.
    change (10 ^ Z.of_nat 20) with 100000000000000000000. lia. }
  rewrite Hd in *. cbn [skip_ws]. rewrite Hsp, Hminus, Hplus, Hdig, Hscan.
  simpl. unfold clamp_long, LONG_MIN. lia.
Qed.

(** ** [container_create] *)

Lemma results_bind {A B} (p : prog A) (f : A -> prog B) (Q : A -> Prop) (R : B -> Prop) :
  results Q p -> (forall a, Q a -> results R (f a)) -> results R (bind p f).
Proof.
  intros Hp Hf. induction Hp as [a Ha | c k _ IH]; simpl; [by apply Hf|].
  constructor. intros a. apply IH.
Qed.

Lemma results_returns {A} (p : prog A) : returns p -> results (fun _ => True) p.
Proof. induction 1; constructor; auto. Qed.

Lemma results_weaken {A} (p : prog A) (Q R : A -> Prop) :
  (forall a, Q a -> R a) -> results Q p -> results R p.
Proof. intros H. induction 1; constructor; auto. Qed.

Lemma run_results {A} (o : oracle) (p : prog A) (post : A -> Prop) :
  results post p -> forall h, exists a t, run o p h = (Returned a, h ++ t) /\ post a.
Proof.
  induction 1 as [a Ha | c k _ IH]; intros h; simpl.
  - exists a, []. by rewrite app_nil_r.
  - destruct (IH (o h c) (h ++ [(c, o h c)])) as (a & t & -> & Ha).
    exists a, ((c, o h c) :: t). by rewrite <- app_assoc.
Qed.

(** [cgroup_init] changes nothing in the record but the cgroup path. *)
Lemma results_cgroup_init (c : container_t) :
  results (fun rc => exists p, snd rc = with_cgroup_path c p) (cgroup_init c).
Proof.
  assert (Hsame : exists p, c = with_cgroup_path c p).
  { exists (cgroup_path c). by destruct c. }
  unfold cgroup_init.
  eapply results_bind; [apply results_returns; unfold cgroup_v2_available; returns_tac|].
  intros avail _. destruct avail; cbn [negb].
  2: { eapply results_bind; [apply results_returns, returns_mc_log|].
       intros _ _. by constructor. }
  eapply results_bind; [apply results_returns; unfold cgroup_create_hierarchy; returns_tac|].
  intros r _. destruct (negb (r =? MC_OK)); [by constructor|].
  cbv zeta. cbn [bind sys]. constructor. intros m.
  destruct (_ && _);
    (eapply results_bind; [apply results_returns, returns_mc_log|]);
    intros _ _; constructor; cbn [snd]; eauto.
Qed.

Lemma hex_digit (d : Z) :
  0 <= d < 16 ->
  fmt_x d = String (digit_char d) EmptyString /\
  is_hex_char (digit_char d) = true /\ Ascii.eqb (digit_char d) NUL = false.
Proof.
  intros H.
  assert (d = 0 \/ d = 1 \/ d = 2 \/ d = 3 \/ d = 4 \/ d = 5 \/ d = 6 \/ d = 7 \/
          d = 8 \/ d = 9 \/ d = 10 \/ d = 11 \/ d = 12 \/ d = 13 \/ d = 14 \/ d = 15)
    as Hd by lia.
  repeat (destruct Hd as [-> | Hd]; [by vm_compute|]). subst. by vm_compute.
Qed.

Lemma poke_fresh (chs : list ascii) (ch : ascii) (k : nat) :
  poke (chs ++ repeat NUL (S (S k))) (length chs) (String ch EmptyString) =
  (chs ++ [ch]) ++ repeat NUL (S k).
Proof.
  cbn [poke repeat].
  rewrite (insert_app_r_alt chs _ (length chs)) by lia.
  rewrite Nat.sub_diag. cbn [insert list_insert].
  rewrite (insert_app_r_alt chs _ (S (length chs))) by lia.
  replace (S (length chs) - length chs)%nat with 1%nat by lia.
  by rewrite <- app_assoc.
Qed.

Lemma cstring_chars (chs : list ascii) (k : nat) :
  Forall (fun c => Ascii.eqb c NUL = false) chs ->
  cstring (chs ++ repeat NUL (S k)) = string_of_list_ascii chs.
Proof.
  induction 1 as [|c chs Hc _ IH]; [done|].
  cbn [app cstring string_of_list_ascii]. by rewrite Hc, IH.
Qed.

(** With [rand] never negative, every round of the loop appends one
    hexadecimal digit to the identifier. *)
Lemma run_generate_id_loop (o : oracle) :
  (forall h, 0 <= ret (o h Rand)) ->
  forall (n : nat) (chs : list ascii) (h : list event),
    (length chs + n < 65)%nat -> hex_chars chs ->
    exists new t,
      run o (generate_id_loop n (length chs) (chs ++ repeat NUL (65 - length chs))) h =
        (Returned ((chs ++ new) ++ repeat NUL (65 - (length chs + n))), h ++ t) /\
      length new = n /\ hex_chars (chs ++ new).
Proof.
  intros Hrand. induction n as [|n IH]; intros chs h Hlen Hhex.
  - exists [], []. rewrite !app_nil_r, Nat.add_0_r. by cbn.
  - cbn [generate_id_loop bind sys run].
    set (r := o h Rand).
    assert (Hd : 0 <= int_rem (ret r) 16 < 16).
    { unfold int_rem. apply Z.rem_bound_pos; [apply Hrand | lia]. }
    destruct (hex_digit _ Hd) as (Hfmt & Hhexc & Hnul).
    set (ch := digit_char (int_rem (ret r) 16)) in *.
    rewrite Hfmt.
    replace (65 - length chs)%nat with (S (S (63 - length chs))) by lia.
    rewrite poke_fresh.
    replace (S (63 - length chs)) with (65 - length (chs ++ [ch]))%nat
      by (rewrite length_app; simpl; lia).
    replace (S (length chs)) with (length (chs ++ [ch]))
      by (rewrite length_app; simpl; lia).
    destruct (IH (chs ++ [ch]) (h ++ [(Rand, r)])) as (new & t & Hr & Hn & Hh).
    { rewrite length_app. simpl. lia. }
    { apply Forall_app. split; [done|]. by repeat constructor. }
    exists (ch :: new), ((Rand, r) :: t). rewrite Hr.
    rewrite length_app, <- !app_assoc. simpl.
    replace (length chs + 1 + n)%nat with (length chs + S n)%nat by lia.
    split; [done|]. split; [lia|]. by rewrite <- app_assoc in Hh.
Qed.

Lemma run_generate_container_id (o : oracle) (h : list event) :
  (forall h, 0 <= ret (o h Rand)) ->
  exists buf t,
    run o (generate_container_id (repeat NUL 65)) h = (Returned buf, h ++ t) /\
    String.length (cstring buf) = 12%nat /\
    Forall (fun c => is_hex_char c = true) (list_ascii_of_string (cstring buf)).
Proof.
  intros Hrand. unfold generate_container_id. cbn [bind sys run].
  set (h3 := ((h ++ _) ++ _) ++ _).
  rewrite run_bind.
  destruct (run_generate_id_loop o Hrand 12 [] h3) as (new & t & Hr & Hn & Hh);
    [simpl; lia | constructor |].
  cbn [length app Nat.sub Nat.add] in Hr. change (65 - 0)%nat with 65%nat in Hr.
  rewrite Hr. cbn [run].
  eexists _, ([_; _; _] ++ t). split.
  { unfold h3. rewrite <- !app_assoc. reflexivity. }
  assert (Hbuf : <[12%nat:=NUL]> (new ++ repeat NUL 53) = new ++ repeat NUL 53).
  { rewrite insert_app_r_alt by lia. rewrite Hn. reflexivity. }
  cbn [app] in Hh.
  rewrite Hbuf.
  rewrite (cstring_chars new 52).
  2: { eapply Forall_impl; [exact Hh|]. by intros c [_ ?]. }
  split.
  - clear -Hn. revert Hn. generalize 12%nat.
    induction new; intros k Hk; simpl in *; [done|].
    destruct k; [done|]. f_equal. apply IHnew. lia.
  - rewrite list_ascii_of_string_of_list_ascii.
    eapply Forall_impl; [exact Hh|]. by intros c [? _].
Qed.

Lemma strlen_zero (s : string) : (strlen s =? 0) = true <-> s = "".
Proof.
  unfold strlen. destruct s; simpl; split; try done; lia.
Qed.

Lemma strncpy_fits (src : string) (n : nat) :
  (String.length src <= n)%nat -> strncpy src n = src.
Proof. apply substring_all. Qed.

Lemma run_fill_defaults (o : oracle) (h : list event) (g : container_config_t) :
  (forall h, 0 <= ret (o h Rand)) -> config_fits g ->
  exists g' t, run o (fill_defaults g) h = (Returned g', h ++ t) /\ defaults_filled g g'.
Proof.
  intros Hrand (Hid & Hname & Hhost). unfold fill_defaults. rewrite run_bind.
  assert (Hstep : exists g1 t,
            run o (if strlen (id g) =? 0
                   then bind (generate_container_id (repeat NUL 65))
                          (fun buf => Ret (with_id g (cstring buf)))
                   else Ret g) h = (Returned g1, h ++ t) /\
            (id g = "" -> String.length (id g1) = 12%nat /\
               Forall (fun c => is_hex_char c = true) (list_ascii_of_string (id g1))) /\
            (id g <> "" -> id g1 = id g) /\
            name g1 = name g /\ hostname g1 = hostname g /\
            limits g1 = limits g /\ rootfs g1 = rootfs g /\
            (String.length (id g1) <= 64)%nat).
  { destruct (strlen (id g) =? 0) eqn:E.
    - apply strlen_zero in E.
      destruct (run_generate_container_id o h Hrand) as (buf & t & Hr & Hl & Hx).
      exists (with_id g (cstring buf)), t. rewrite run_bind, Hr. cbn [run with_id id].
      split; [done|]. split; [done|]. split; [done|]. repeat split; try done. lia.
    - exists g, []. rewrite app_nil_r. split; [done|].
      assert (id g <> "") by (intros Hx; apply strlen_zero in Hx; congruence).
      repeat split; done. }
  destruct Hstep as (g1 & t & -> & Hgen & Hkeep & Hn1 & Hh1 & Hl1 & Hr1 & Hlen1).
  exists (let g2 := if strlen (name g1) =? 0 then with_name g1 (strncpy (id g1) 255) else g1 in
          if strlen (hostname g2) =? 0 then with_hostname g2 (strncpy (name g2) 255) else g2), t.
  split; [reflexivity|]. cbv zeta.
  assert (Hcp : strncpy (id g1) 255 = id g1) by (apply strncpy_fits; lia).
  unfold defaults_filled.
  destruct (strlen (name g1) =? 0) eqn:En.
  - apply strlen_zero in En.
    assert (Hcp2 : strncpy (id g1) 255 = id g1) by done.
    destruct (strlen (hostname (with_name g1 (strncpy (id g1) 255))) =? 0) eqn:Eh.
    + apply strlen_zero in Eh. cbn in Eh |- *. rewrite ?Hcp.
      rewrite ?(strncpy_fits (id g1)) by lia.
      repeat split; try done; try congruence; try (apply Hgen; done).
    + assert (hostname g1 <> "") by (intros Hx; cbn in Eh; rewrite Hx in Eh; done).
      cbn. rewrite ?Hcp. repeat split; try done; try congruence; try (apply Hgen; done).
  - assert (name g1 <> "") by (intros Hx; rewrite Hx in En; done).
    destruct (strlen (hostname g1) =? 0) eqn:Eh.
    + apply strlen_zero in Eh. cbn.
      rewrite (strncpy_fits (name g1)) by (rewrite Hn1; lia).
      repeat split; try done; try congruence; try (apply Hgen; done).
    + assert (hostname g1 <> "") by (intros Hx; rewrite Hx in Eh; done).
      repeat split; try done; try congruence; try (apply Hgen; done).
Qed.

(** C7.  With the record allocated, [container_create] returns MC_OK and a
    record in state created whatever [cgroup_init] reports: a failure of
    [cgroup_init] only puts the WARN line [Could not initialize cgroup] in the
    log, the limits are tried all the same, and [save_container_state] is
    called on the record (so [state=created] reaches [state.txt] whenever the
    file can be opened).  An empty id is replaced by 12 hexadecimal digits
    drawn from [rand], an empty name by the id, an empty hostname by the
    name. *)
Theorem container_create_spec (o : oracle) (h : list event) (conf : container_config_t) :
  ret (o h (Calloc 1 sizeof_container_t)) <> 0 ->
  (forall h', 0 <= ret (o h' Rand)) ->
  config_fits conf ->
  exists c c0 r t1 t2 t3 tl saved lg,
    run o (container_create conf) h =
      (Returned (MC_OK, Some c), h ++ t1 ++ t2 ++ t3 ++ tl ++ saved ++ [lg]) /\
    state c = CONTAINER_CREATED /\
    defaults_filled conf (config c) /\
    run o (cgroup_init c0) (h ++ t1) = (Returned (r, c), (h ++ t1) ++ t2) /\
    (r <> MC_OK -> calls t3 = [Stderr "WARN" "Could not initialize cgroup" []]) /\
    (r = MC_OK -> t3 = []) /\
    opened tl = map fst (limit_rows c) /\
    saves c saved /\
    fst lg = Stderr "INFO" "Created container: %s (%s)"
               [A_str (name (config c)); A_str (id (config c))].
Proof.
  intros Hcalloc Hrand Hfit. unfold container_create. cbn [bind sys run].
  set (m := o h (Calloc 1 sizeof_container_t)) in *.
  replace (ret m =? 0) with false by lia.
  set (h1 := h ++ [(Calloc 1 sizeof_container_t, m)]).
  rewrite run_bind.
  destruct (run_fill_defaults o h1 conf Hrand Hfit) as (g & tf & Hrf & Hdef).
  change (config (with_config zeroed_container conf)) with conf. rewrite Hrf.
  cbn [bind sys run].
  set (c1 := with_state_dir (with_config (with_config zeroed_container conf) g) _).
  set (h2 := (h1 ++ tf) ++ [(System _, _)]).
  set (tm := o h2 Time). set (h3 := h2 ++ [(Time, tm)]).
  set (c0 := with_created_at (with_state c1 CONTAINER_CREATED) (ret tm)).
  assert (Ht1 : exists t1, h3 = h ++ t1).
  { eexists (_ :: tf ++ [_; _]). unfold h3, h2, h1.
    repeat (rewrite <- app_assoc; simpl). reflexivity. }
  destruct Ht1 as [t1 Ht1]. clearbody h3. subst h3.
  rewrite run_bind.
  destruct (run_results o _ _ (results_cgroup_init c0) (h ++ t1)) as ([r c] & t2 & Hri & p & Hc).
  cbn [snd] in Hc. rewrite Hri. cbn [fst snd].
  rewrite run_bind.
  assert (Hwarn : exists t3,
            run o (when (negb (r =? MC_OK)) (mc_log 2 "Could not initialize cgroup" []))
              ((h ++ t1) ++ t2) = (Returned tt, ((h ++ t1) ++ t2) ++ t3) /\
            (r <> MC_OK -> calls t3 = [Stderr "WARN" "Could not initialize cgroup" []]) /\
            (r = MC_OK -> t3 = [])).
  { destruct (r =? MC_OK) eqn:E; run_step.
    - exists []. rewrite app_nil_r. split; [done|]. split; [lia | done].
    - eexists [_]. split; [reflexivity|]. split; [done | lia]. }
  destruct Hwarn as (t3 & -> & Hw1 & Hw2).
  rewrite run_bind.
  destruct (attempts_cgroup_apply_limits c o (((h ++ t1) ++ t2) ++ t3))
    as (rl & tl & -> & -> & Hopen & _ & _).
  cbn [when negb Z.eqb MC_OK]. cbn [bind run].
  rewrite run_bind.
  destruct (run_save_container_state o ((((h ++ t1) ++ t2) ++ t3) ++ tl) c) as (rs & saved & -> & Hsaved).
  run_step.
  eexists c, c0, r, t1, t2, t3, tl, saved, _.
  split; [by rewrite <- !app_assoc|].
  subst c. split; [reflexivity|]. split; [exact Hdef|]. split; [exact Hri|].
  split; [done|]. split; [done|]. split; [done|]. split; [done|]. reflexivity.
Qed.

Lemma container_create_spec_witness :
  exists c t,
    run (oracle_of no_cgroup_v2) (container_create (with_id sample_config "")) [] =
      (Returned (MC_OK, Some c), t) /\
    state c = CONTAINER_CREATED /\ id (config c) = "777777777777" /\
    In (Stderr "WARN" "Could not initialize cgroup" []) (calls t) /\
    In (Fputs 6 ("id=777777777777" +:+ nl +:+ "name=demo" +:+ nl +:+
                 "state=created" +:+ nl +:+ "pid=0" +:+ nl)) (calls t).
Proof.
  destruct (container_create_spec (oracle_of no_cgroup_v2) [] (with_id sample_config ""))
    as (c & c0 & r & t1 & t2 & t3 & tl & saved & lg & Hr & Hst & _);
    [discriminate | intros; by vm_compute | by (vm_compute; lia) |].
  exists c. eexists. split; [exact Hr|]. split; [exact Hst|].
  assert (Hrun : exists c' t',
            run (oracle_of no_cgroup_v2) (container_create (with_id sample_config "")) [] =
              (Returned (MC_OK, Some c'), t') /\
            id (config c') = "777777777777" /\
            In (Stderr "WARN" "Could not initialize cgroup" []) (calls t') /\
            In (Fputs 6 ("id=777777777777" +:+ nl +:+ "name=demo" +:+ nl +:+
                         "state=created" +:+ nl +:+ "pid=0" +:+ nl)) (calls t')).
  { eexists _, _. split; [vm_compute; reflexivity|]. split; [reflexivity|].
    split; vm_compute; repeat (first [left; reflexivity | right]). }
  destruct Hrun as (c' & t' & Hrun & Hid & Hw & Hf).
  rewrite Hrun in Hr. injection Hr as -> ->. auto.
Defined.

(** ** The spawn handshake *)

Section SpawnProofs.

Variable config : container_config_t.









(** *** The parent *)


Lemma parent_ok_weaken {A} (p : prog A)
    (Q R : phase -> gmap Z fdkind -> A -> Prop) (ph : phase) (fds : gmap Z fdkind) :
  (forall ph' fds' v, Q ph' fds' v -> R ph' fds' v) ->
  parent_ok config Q ph fds p -> parent_ok config R ph fds p.
Proof.
  intros H. induction 1; constructor; auto.
Qed.





Lemma proc_file_fits (pid : Z) (file : string) :
  (String.length file <= 64)%nat ->
  proc_file pid file = "/proc/" +:+ fmt_d pid +:+ "/" +:+ file.
Proof.
  intros H. unfold proc_file. apply snprintf_fits.
  rewrite !length_append. pose proof (fmt_d_length pid). simpl. unfold PATH_MAX. lia.
Qed.

Lemma proc_file_inj (pid : Z) (f1 f2 : string) :
  (String.length f1 <= 64)%nat -> (String.length f2 <= 64)%nat ->
  proc_file pid f1 = proc_file pid f2 -> f1 = f2.
Proof.
  intros H1 H2. rewrite !proc_file_fits by done. intros H.
  apply (append_inj_l "/proc/") in H. apply append_inj_l in H.
  by apply (append_inj_l "/") in H.
Qed.

Lemma proc_file_other (pid : Z) (f1 f2 : string) :
  (String.length f1 <= 64)%nat -> (String.length f2 <= 64)%nat -> f1 <> f2 ->
  String.eqb (proc_file pid f1) (proc_file pid f2) = false.
Proof.
  intros H1 H2 Hne. apply String.eqb_neq. intros H. by apply proc_file_inj in H.
Qed.

Let uid_row : string := map_row (uid_map_container config) (uid_map_host config).
Let gid_row : string := map_row (gid_map_container config) (gid_map_host config).







(** *** The child *)



(** *** The invariant *)








(** *** From the monitor to the order of the entries *)










End SpawnProofs.




(** ** Properties of the rest of the runtime *)

Lemma always_weaken {A} (p : prog A) :
  forall (post post' : outcome A -> list event -> Prop),
    (forall r t, post r t -> post' r t) -> always p post -> always p post'.
Proof.
  induction p as [a|s|c k IH]; simpl; intros post post' Hw Hp; auto.
  intros a. eapply IH; [|apply Hp]. simpl. auto.
Qed.

Lemma always_run {A} (o : oracle) (p : prog A) :
  forall (post : outcome A -> list event -> Prop) (h : list event),
    always p post -> exists r t, run o p h = (r, h ++ t) /\ post r t.
Proof.
  induction p as [a|s|c k IH]; simpl; intros post h Hp.
  - exists (Returned a), []. by rewrite app_nil_r.
  - exists (Stopped s), []. by rewrite app_nil_r.
  - destruct (IH (o h c) _ (h ++ [(c, o h c)]) (Hp (o h c))) as (r & t & Hr & Hpost).
    exists r, ((c, o h c) :: t). rewrite Hr, <- app_assoc. done.
Qed.

Lemma always_bind {A B} (p : prog A) (f : A -> prog B) :
  forall (post : outcome B -> list event -> Prop),
    always p (fun r t => match r with
                         | Returned a => always (f a) (fun r' t' => post r' (t ++ t'))
                         | Stopped s => post (Stopped s) t
                         end) ->
    always (bind p f) post.
Proof.
  induction p as [a|s|c k IH]; simpl; intros post Hp; [done|done|].
  intros a. apply IH. apply Hp.
Qed.

Lemma always_ret {A} (a : A) (post : outcome A -> list event -> Prop) :
  post (Returned a) [] -> always (Ret a) post.
Proof. done. Qed.

Lemma yields_run {A} (o : oracle) (p : prog A) (Q : A -> list event -> Prop)
    (h : list event) :
  yields p Q -> exists a t, run o p h = (Returned a, h ++ t) /\ Q a t.
Proof.
  intros Hp. destruct (always_run o p _ h Hp) as ([a|s] & t & Hr & Hq); [|done].
  by exists a, t.
Qed.

Lemma halts_run {A} (o : oracle) (p : prog A) (Q : halt -> list event -> Prop)
    (h : list event) :
  halts p Q -> exists s t, run o p h = (Stopped s, h ++ t) /\ Q s t.
Proof.
  intros Hp. destruct (always_run o p _ h Hp) as ([a|s] & t & Hr & Hq); [done|].
  by exists s, t.
Qed.

Lemma yields_bind {A B} (p : prog A) (f : A -> prog B) (Q : A -> list event -> Prop)
    (post : outcome B -> list event -> Prop) :
  yields p Q ->
  (forall a t, Q a t -> always (f a) (fun r' t' => post r' (t ++ t'))) ->
  always (bind p f) post.
Proof.
  intros Hp Hf. apply always_bind. eapply always_weaken; [|apply Hp].
  intros [a|s] t; simpl; [apply Hf|done].
Qed.

Lemma yields_weaken {A} (p : prog A) (Q R : A -> list event -> Prop) :
  (forall a t, Q a t -> R a t) -> yields p Q -> yields p R.
Proof.
  intros Hw. apply always_weaken. intros [a|s] t; [apply Hw|done].
Qed.

(** Unfold the next calls of a program under [always]. *)
Ltac wp :=
  repeat first
    [ progress (rewrite ?mc_log_info, ?mc_log_warn, ?mc_log_error)
    | progress (cbn [bind sys always when negb exit fault])
    | progress intros ].

Ltac trace_simpl :=
  cbn [sysevents List.filter is_log negb fst app calls map opened fopens] in *.

Lemma yields_write_cgroup_value (path value : string) :
  yields (write_cgroup_value path value)
    (fun r t => written path value r (sysevents t)).
Proof.
  unfold yields, write_cgroup_value. wp.
  destruct (ret a <? 0) eqn:Ea; wp.
  - trace_simpl. constructor. lia.
  - destruct (ret a0 =? strlen value) eqn:Eb; wp; trace_simpl.
    + apply written_whole; lia.
    + apply written_short; lia.
Qed.

Lemma write_file_same : write_file = write_cgroup_value.
Proof. reflexivity. Qed.

(** Log lines do not matter to what a trace opens, closes or enters. *)
Lemma opened_sysevents (t : list event) : opened (sysevents t) = opened t.
Proof.
  induction t as [|[c a] t IH]; [done|].
  destruct c; cbn [sysevents List.filter is_log negb fst opened] in *; try done.
  by f_equal.
Qed.

Lemma fd_table_sysevents (t : list event) :
  forall fds, fd_table fds (sysevents t) = fd_table fds t.
Proof.
  induction t as [|[c a] t IH]; [done|]. intros fds.
  destruct c; cbn [sysevents List.filter is_log negb fst] in *;
    unfold fd_table in *; simpl; apply IH.
Qed.

Lemma file_writes_sysevents (t : list event) :
  forall fds, file_writes fds (sysevents t) = file_writes fds t.
Proof.
  induction t as [|[c a] t IH]; [done|]. intros fds.
  destruct c; cbn [sysevents List.filter is_log negb fst] in *; simpl;
    by rewrite IH.
Qed.

Lemma filter_sysevents (f : event -> bool) (t : list event) :
  (forall c a, is_log c = true -> f (c, a) = false) ->
  List.filter f (sysevents t) = List.filter f t.
Proof.
  intros Hf. induction t as [|[c a] t IH]; [done|].
  unfold sysevents in *. simpl. destruct (is_log c) eqn:E; simpl.
  - by rewrite (Hf c a E).
  - by rewrite IH.
Qed.

Lemma calls_sysevents_in (c : call) (t : list event) :
  is_log c = false -> In c (calls (sysevents t)) <-> In c (calls t).
Proof.
  intros Hc. unfold calls, sysevents. rewrite !in_map_iff. split.
  - intros ([c' a] & <- & Hin). apply filter_In in Hin as [Hin _]. by exists (c', a).
  - intros ([c' a] & <- & Hin). exists (c', a). split; [done|].
    apply filter_In. split; [done|]. simpl in *. by rewrite Hc.
Qed.

Lemma written_opened (path value : string) (r : Z) (t : list event) :
  written path value r t -> opened t = [path].
Proof. by destruct 1. Qed.

Lemma written_closed (path value : string) (r : Z) (t : list event) :
  written path value r t -> forall fds, fds !! ret (snd (hd (Pipe, answer_of 0) t)) = None ->
  fd_table fds t = fds.
Proof.
  destruct 1 as [a Ha|a b d Ha Hb|a b d Ha Hb]; intros fds Hfd; unfold fd_table; simpl in *.
  - by destruct (0 <=? ret a) eqn:E; [lia|].
  - destruct (0 <=? ret a) eqn:E; [|lia]. by rewrite delete_insert_eq, delete_id.
  - destruct (0 <=? ret a) eqn:E; [|lia]. by rewrite delete_insert_eq, delete_id.
Qed.

Lemma written_closed_empty (path value : string) (r : Z) (t : list event) :
  written path value r t -> fd_table ∅ t = ∅.
Proof. intros H. eapply written_closed; [exact H|apply lookup_empty]. Qed.

Lemma written_result (path value : string) (r : Z) (t : list event) :
  written path value r t -> r = MC_OK \/ r = MC_ERR_IO.
Proof. destruct 1; auto. Qed.

(** X3. [cgroup_add_pid] writes the PID in decimal, never truncated, to the
    [cgroup.procs] file of the container's cgroup, with the outcomes of
    [write_cgroup_value]. *)
Theorem cgroup_add_pid_writes (o : oracle) (h : list event) (c : container_t) (p : Z) :
  exists r t,
    run o (cgroup_add_pid c p) h = (Returned r, h ++ t) /\
    written (cgroup_file c "cgroup.procs") (fmt_d p) r (sysevents t).
Proof.
  apply yields_run. unfold yields, cgroup_add_pid.
  rewrite snprintf_fmt_d by lia.
  eapply yields_bind; [apply yields_write_cgroup_value|].
  intros r t Hw. cbv beta.
  destruct (Z.eqb_spec r MC_OK) as [->|Hne]; wp; rewrite sysevents_app; trace_simpl;
    by rewrite app_nil_r.
Qed.

Lemma ns_name_known (ty : Z) : In ty ns_types <-> exists nm, ns_name ty = Some nm.
Proof.
  split.
  - intros Hin. unfold ns_types in Hin. simpl in Hin.
    repeat (destruct Hin as [<-|Hin]; [by eexists|]). done.
  - intros [nm Hnm]. unfold ns_name in Hnm. unfold ns_types. simpl.
    repeat match type of Hnm with
           | (if ?x =? ?y then _ else _) = _ =>
               destruct (Z.eqb_spec x y) as [->|_]; [tauto|]
           end.
    done.
Qed.

Lemma yields_ns_enter (pid ty : Z) :
  In ty ns_types ->
  yields (ns_enter pid ty) (fun r t => entered (ns_file pid ty) ty r (sysevents t)).
Proof.
  intros Hin. apply ns_name_known in Hin as [nm Hnm].
  unfold yields, ns_enter, ns_file. rewrite Hnm. cbn [default from_option]. wp.
  destruct (ret a <? 0) eqn:Ea; wp.
  - trace_simpl. constructor. lia.
  - destruct (Z.eqb_spec (ret a0) 0) as [E|E]; wp; trace_simpl.
    + apply entered_joined; lia.
    + apply entered_refused; lia.
Qed.

(** X15. [ns_enter] rejects a type that is not one of the seven namespace flags
    with [MC_ERR_INVALID] before any call.  For a known type it opens
    [/proc/<pid>/ns/<name>]: [MC_ERR_NOT_FOUND] if that fails,
    [MC_ERR_NAMESPACE] if [setns] fails, [MC_OK] otherwise, the descriptor
    closed in both of the latter cases. *)
Theorem ns_enter_outcomes (o : oracle) (h : list event) (pid ns_type : Z) :
  exists r t,
    run o (ns_enter pid ns_type) h = (Returned r, h ++ t) /\
    (~ In ns_type ns_types -> r = MC_ERR_INVALID /\ t = []) /\
    (In ns_type ns_types ->
       entered (ns_file pid ns_type) ns_type r (sysevents t) /\ fd_table ∅ t = ∅).
Proof.
  destruct (decide (In ns_type ns_types)) as [Hin|Hout].
  - destruct (yields_run o _ _ h (yields_ns_enter pid ns_type Hin)) as (r & t & Hr & He).
    exists r, t. split; [done|]. split; [done|]. intros _. split; [done|].
    rewrite <- fd_table_sysevents.
    destruct He as [a Ha|a b d Ha Hb|a b d Ha Hb]; unfold fd_table; simpl;
      destruct (0 <=? ret a) eqn:E; try lia; try done;
      by rewrite delete_insert_eq, delete_empty.
  - exists MC_ERR_INVALID, []. rewrite app_nil_r.
    assert (ns_name ns_type = None) as Hn.
    { destruct (ns_name ns_type) eqn:E; [|done].
      destruct Hout. apply ns_name_known. by eexists. }
    unfold ns_enter. rewrite Hn. simpl. done.
Qed.

Lemma entered_closed (path : string) (ty r : Z) (t : list event) :
  entered path ty r t -> fd_table ∅ t = ∅.
Proof.
  destruct 1 as [a Ha|a b d Ha Hb|a b d Ha Hb]; unfold fd_table; simpl;
    destruct (0 <=? ret a) eqn:E; try lia; try done;
    by rewrite delete_insert_eq, delete_empty.
Qed.

Lemma entered_opened (path : string) (ty r : Z) (t : list event) :
  entered path ty r t -> opened t = [path].
Proof. by destruct 1. Qed.

Lemma entered_failures (path : string) (ty r : Z) (t : list event) :
  entered path ty r t ->
  (r = MC_ERR_NAMESPACE /\ exists e, List.filter setns_failed t = [e]) \/
  (r <> MC_ERR_NAMESPACE /\ List.filter setns_failed t = []).
Proof.
  destruct 1 as [a Ha|a b d Ha Hb|a b d Ha Hb]; simpl.
  - by right.
  - left. split; [done|]. destruct (Z.eqb_spec (ret b) 0); [done|]. by eexists.
  - right. split; [done|]. by destruct (Z.eqb_spec (ret b) 0).
Qed.

Lemma yields_ns_enter_each (pid flags : Z) (types : list Z) :
  (forall ty, In ty types -> In ty ns_types) ->
  yields (ns_enter_each pid flags types)
    (fun r t =>
       entered_each pid (List.filter (fun ty => negb (Z.land flags ty =? 0)) types) r
         (sysevents t)).
Proof.
  induction types as [|ty rest IH]; intros Hknown.
  - unfold yields. simpl. constructor.
  - unfold yields. cbn [ns_enter_each List.filter].
    destruct (negb (Z.land flags ty =? 0)).
    + eapply yields_bind; [apply yields_ns_enter, Hknown; by left|].
      intros r t He. cbv beta.
      assert (r = MC_OK \/ r = MC_ERR_NOT_FOUND \/ r = MC_ERR_NAMESPACE) as Hr
        by (destruct He; auto).
      destruct Hr as [-> | [-> | ->] ]; cbn [Z.eqb negb andb MC_OK MC_ERR_NOT_FOUND MC_ERR_NAMESPACE
                                         Pos.eqb always].
      * eapply always_weaken; [|apply IH; intros; apply Hknown; by right].
        intros [r'|s] t' Hq; [|done]. rewrite sysevents_app.
        by eapply entered_each_cons; [exact He| |].
      * eapply always_weaken; [|apply IH; intros; apply Hknown; by right].
        intros [r'|s] t' Hq; [|done]. rewrite sysevents_app.
        by eapply entered_each_cons; [exact He| |].
      * rewrite app_nil_r. by apply entered_each_stop.
    + apply IH. intros; apply Hknown; by right.
Qed.

Lemma entered_each_facts (pid : Z) (tys : list Z) (r : Z) (t : list event) :
  entered_each pid tys r t ->
  opened t `prefix_of` map (ns_file pid) tys /\
  fd_table ∅ t = ∅ /\
  ((r = MC_OK /\ opened t = map (ns_file pid) tys /\ List.filter setns_failed t = []) \/
   (r = MC_ERR_NAMESPACE /\ exists e, List.filter setns_failed t = [e])).
Proof.
  induction 1 as [|ty rest t He|ty rest r0 t r t' He Hr0 Hrest IH].
  - split; [done|]. split; [done|]. by left.
  - split; [|split].
    + rewrite (entered_opened _ _ _ _ He). simpl. by apply prefix_cons, prefix_nil.
    + by eapply entered_closed.
    + right. split; [done|].
      destruct (entered_failures _ _ _ _ He) as [[_ Hf]|[Hf _]]; done.
  - destruct IH as (Hpre & Hfd & Hres).
    destruct (entered_failures _ _ _ _ He) as [[Hf _]|[_ Hf]]; [done|].
    rewrite opened_app, fd_table_app, (entered_closed _ _ _ _ He),
      (entered_opened _ _ _ _ He), List.filter_app, Hf. simpl.
    split; [by apply prefix_cons|]. split; [done|].
    destruct Hres as [(-> & Ho & Hn)|(-> & e & Hn)].
    + left. by rewrite Ho.
    + right. split; [done|]. by exists e.
Qed.

(** X16. [ns_enter_all] enters the namespaces that [flags] selects in the order
    user, pid, mnt, uts, ipc, net, cgroup.  A namespace file that does not
    open is passed over; the first [setns] that fails ends the loop with
    [MC_ERR_NAMESPACE]; otherwise every selected namespace was tried and the
    result is [MC_OK].  No descriptor stays open. *)
Theorem ns_enter_all_order (o : oracle) (h : list event) (pid flags : Z) :
  exists r t,
    run o (ns_enter_all pid flags) h = (Returned r, h ++ t) /\
    opened t `prefix_of` map (ns_file pid) (wanted flags) /\
    fd_table ∅ t = ∅ /\
    ((r = MC_OK /\ opened t = map (ns_file pid) (wanted flags) /\
      List.filter setns_failed t = []) \/
     (r = MC_ERR_NAMESPACE /\ exists e, List.filter setns_failed t = [e])).
Proof.
  destruct (yields_run o _ _ h (yields_ns_enter_each pid flags ns_types (fun _ H => H)))
    as (r & t & Hr & He).
  exists r, t. split; [done|].
  apply entered_each_facts in He.
  rewrite opened_sysevents, fd_table_sysevents, filter_sysevents in He; [done|].
  by intros [] a.
Qed.

(** X11. The flags [get_ns_flags] computes select, in the table of [ns_enter_all],
    the PID, mount, UTS, IPC and cgroup namespaces always, the network
    namespace exactly when [enable_network] is set and the user namespace
    (first in the table) exactly when [enable_user_ns] is set; they have no bit
    in common with SIGCHLD and fit an [int] together with it. *)
Theorem get_ns_flags_wanted (config : container_config_t) :
  wanted (get_ns_flags config) =
    (if enable_user_ns config =? 0 then [] else [CLONE_NEWUSER]) ++
    [CLONE_NEWPID; CLONE_NEWNS; CLONE_NEWUTS; CLONE_NEWIPC] ++
    (if enable_network config =? 0 then [] else [CLONE_NEWNET]) ++
    [CLONE_NEWCGROUP] /\
  Z.land (get_ns_flags config) SIGCHLD = 0 /\
  0 < Z.lor (get_ns_flags config) SIGCHLD <= INT_MAX.
Proof.
  unfold get_ns_flags.
  destruct (enable_user_ns config =? 0), (enable_network config =? 0); vm_compute;
    repeat split; congruence.
Qed.

Lemma sysevents_log (l f : string) (args : list logarg) (a : answer) (t : list event) :
  sysevents ((Stderr l f args, a) :: t) = sysevents t.
Proof. reflexivity. Qed.

Lemma sysevents_keep (c : call) (a : answer) (t : list event) :
  is_log c = false -> sysevents ((c, a) :: t) = (c, a) :: sysevents t.
Proof. intros H. unfold sysevents. simpl. by rewrite H. Qed.

Ltac sys_norm :=
  repeat first
    [ rewrite sysevents_app
    | rewrite sysevents_log
    | rewrite sysevents_keep by reflexivity
    | rewrite app_nil_r
    | progress change (sysevents []) with (@nil event) ].

(** Compose with a program whose [yields] specification is [L]. *)
Ltac bind_with L :=
  apply always_bind; eapply always_weaken; [|apply L];
  let r := fresh "r" in let t := fresh "t" in let H := fresh "H" in
  intros [r|?] t H; [cbv beta|done].

Lemma yields_ns_setup_user (pid uh uc gh gc : Z) :
  yields (ns_setup_user pid uh uc gh gc)
    (fun r t => user_mapped pid uh uc gh gc r (sysevents t)).
Proof.
  unfold yields, ns_setup_user. rewrite write_file_same.
  bind_with (yields_write_cgroup_value (proc_file pid "setgroups") "deny").
  assert (forall t0,
    sysevents t0 = [] ->
    always
      (r0 <- write_cgroup_value (proc_file pid "uid_map") (map_row uc uh);;
       (if negb (r0 =? MC_OK)
        then mc_log 3 "Failed to write uid_map" [];; Ret r0
        else
         mc_log 1 "Set UID mapping: %u -> %u" [A_int uc; A_int uh];;
         r1 <- write_cgroup_value (proc_file pid "gid_map") (map_row gc gh);;
         (if negb (r1 =? MC_OK)
          then mc_log 3 "Failed to write gid_map" [];; Ret r1
          else mc_log 1 "Set GID mapping: %u -> %u" [A_int gc; A_int gh];; Ret MC_OK)))
      (fun r' t' =>
         match r' with
         | Returned a => user_mapped pid uh uc gh gc a (sysevents (t ++ t0 ++ t'))
         | Stopped _ => False
         end)) as Hrest.
  { intros t0 Ht0.
    bind_with (yields_write_cgroup_value (proc_file pid "uid_map") (map_row uc uh)).
    destruct (Z.eqb_spec r0 MC_OK) as [->|Hne]; wp.
    - bind_with (yields_write_cgroup_value (proc_file pid "gid_map") (map_row gc gh)).
      destruct (Z.eqb_spec r0 MC_OK) as [->|Hne]; wp; sys_norm; rewrite Ht0; simpl;
        by eapply user_mapped_gid.
    - sys_norm. rewrite Ht0. simpl.
      destruct (written_result _ _ _ _ H0) as [->| ->]; [done|].
      by eapply user_mapped_no_uid. }
  destruct (negb (r =? MC_OK)); wp.
  - apply (Hrest [_]). reflexivity.
  - apply (Hrest []). reflexivity.
Qed.

Lemma user_mapped_facts (pid uh uc gh gc r : Z) (t : list event) :
  user_mapped pid uh uc gh gc r t ->
  fd_table ∅ t = ∅ /\
  ((r = MC_ERR_IO /\ opened t = [proc_file pid "setgroups"; proc_file pid "uid_map"]) \/
   ((r = MC_OK \/ r = MC_ERR_IO) /\
    opened t = [proc_file pid "setgroups"; proc_file pid "uid_map"; proc_file pid "gid_map"])).
Proof.
  destruct 1 as [r0 t0 t1 H0 H1|r0 t0 t1 r t2 H0 H1 H2].
  - rewrite fd_table_app, opened_app, (written_closed_empty _ _ _ _ H0),
      (written_closed_empty _ _ _ _ H1), (written_opened _ _ _ _ H0),
      (written_opened _ _ _ _ H1).
    split; [done|]. by left.
  - rewrite !fd_table_app, !opened_app, (written_closed_empty _ _ _ _ H0),
      (written_closed_empty _ _ _ _ H1), (written_closed_empty _ _ _ _ H2),
      (written_opened _ _ _ _ H0), (written_opened _ _ _ _ H1), (written_opened _ _ _ _ H2).
    split; [done|]. right. split; [|done]. by eapply written_result.
Qed.

(** X12. [ns_setup_user] tries [setgroups], then [uid_map], then [gid_map], each
    with the outcomes of [write_file].  The result of the [setgroups] write is
    ignored; the group map is attempted only after the user map was written
    whole; the result is that of the last map attempted; no descriptor stays
    open. *)
Theorem ns_setup_user_order (o : oracle) (h : list event)
    (pid uid_host uid_container gid_host gid_container : Z) :
  exists r t,
    run o (ns_setup_user pid uid_host uid_container gid_host gid_container) h =
      (Returned r, h ++ t) /\
    user_mapped pid uid_host uid_container gid_host gid_container r (sysevents t) /\
    fd_table ∅ t = ∅ /\
    ((r = MC_ERR_IO /\ opened t = [proc_file pid "setgroups"; proc_file pid "uid_map"]) \/
     ((r = MC_OK \/ r = MC_ERR_IO) /\
      opened t =
        [proc_file pid "setgroups"; proc_file pid "uid_map"; proc_file pid "gid_map"])).
Proof.
  destruct (yields_run o _ _ h
              (yields_ns_setup_user pid uid_host uid_container gid_host gid_container))
    as (r & t & Hr & Hm).
  exists r, t. split; [done|]. split; [done|].
  apply user_mapped_facts in Hm. by rewrite fd_table_sysevents, opened_sysevents in Hm.
Qed.

Lemma yields_ns_create (config : container_config_t) :
  yields (ns_create config) (fun r t => created_ns config r (sysevents t)).
Proof.
  unfold yields, ns_create. wp.
  destruct (Z.eqb_spec (ret a) 0) as [Hp|Hp]; wp.
  2: { sys_norm. by constructor. }
  destruct (Z.eqb_spec (ret a0) 0) as [Hm|Hm]; wp.
  { sys_norm. by apply created_no_stack. }
  destruct (ret a1 <? 0) eqn:Hcl; wp.
  { sys_norm. apply created_no_clone; [done|done|lia]. }
  destruct (Z.eqb_spec (enable_user_ns config) 0) as [Hu|Hu]; cbn [negb].
  - wp. change (MC_OK =? MC_OK) with true. wp. sys_norm.
    apply (created_released config a a0 a1 []); [done|done|lia|]. by left.
  - bind_with (yields_ns_setup_user (ret a1) (uid_map_host config)
                 (uid_map_container config) (gid_map_host config)
                 (gid_map_container config)).
    destruct (Z.eqb_spec r MC_OK) as [->|Hne]; wp; sys_norm.
    + apply (created_released config a a0 a1 (sysevents t)); [done|done|lia|]. by right.
    + assert (r = MC_ERR_IO) as ->.
      { apply user_mapped_facts in H as [_ [[? _]|[[?|?] _]]]; done. }
      apply (created_unmapped config a a0 a1 (sysevents t)); [done|done|lia|done|done].
Qed.

Lemma substring_length (s : string) :
  forall n, String.length (substring 0 n s) = Nat.min n (String.length s).
Proof.
  induction s as [|c s IH]; intros [|n]; simpl; try done. by rewrite IH.
Qed.

Lemma map_row_not_release (a b : Z) : String.eqb (map_row a b) "x" = false.
Proof.
  apply String.eqb_neq. intros Heq.
  assert (String.length (map_row a b) = 1%nat) as Hlen by (by rewrite Heq).
  unfold map_row, snprintf in Hlen. rewrite substring_length, !length_append in Hlen.
  change (String.length " ") with 1%nat in Hlen.
  change (String.length " 1") with 2%nat in Hlen.
  change (String.length nl) with 1%nat in Hlen.
  change (256 - 1)%nat with 255%nat in Hlen. lia.
Qed.

Lemma written_calls (path value : string) (r : Z) (t : list event) :
  String.eqb value "x" = false ->
  written path value r t -> Forall (fun e => map_call (fst e) = true) t.
Proof.
  intros Hv. destruct 1; repeat constructor; simpl; by rewrite Hv.
Qed.

Lemma user_mapped_calls (pid uh uc gh gc r : Z) (t : list event) :
  user_mapped pid uh uc gh gc r t -> Forall (fun e => map_call (fst e) = true) t.
Proof.
  destruct 1; rewrite ?Forall_app; repeat split;
    (eapply written_calls; [|eassumption]); first [done|apply map_row_not_release].
Qed.

Lemma in_calls (c : call) (t : list event) : In c (calls t) <-> exists a, In (c, a) t.
Proof.
  unfold calls. rewrite in_map_iff. split.
  - intros ([c' a] & <- & Hin). by exists a.
  - intros [a Hin]. by exists (c, a).
Qed.

Lemma map_call_in (t : list event) (c : call) (a : answer) :
  Forall (fun e => map_call (fst e) = true) t -> In (c, a) t -> map_call c = true.
Proof. intros Hf Hin. exact (proj1 (List.Forall_forall _ _) Hf (c, a) Hin). Qed.

Ltac in_cases :=
  repeat match goal with
         | H : In _ (_ ++ _) |- _ => apply in_app_iff in H as [H|H]
         | H : In _ (_ :: _) |- _ => destruct H as [H|H]
         | H : In _ [] |- _ => destruct H
         | H : (_, _) = (_, _) |- _ => first [discriminate H | (injection H; clear H; intros; subst)]
         end.



Lemma created_ns_facts (config : container_config_t) (r : Z) (t : list event) :
  created_ns config r t ->
  (r < 0 -> r = MC_ERR_IO \/ r = MC_ERR_MEMORY \/ r = MC_ERR_NAMESPACE) /\
  (0 <= r <-> exists c a, In (c, a) t /\ is_release c = true) /\
  (forall p, In (Pipe, p) t -> ret p = 0 ->
     exists c1 c2, In (Close (out1 p), c1) t /\ In (Close (out2 p), c2) t) /\
  (forall fl sp cl, In (Clone fl sp, cl) t ->
     (r = ret cl /\ 0 <= r) \/
     (r < 0 /\ (0 <= ret cl ->
        exists k w, In (Kill (ret cl) SIGKILL, k) t /\ In (Waitpid (ret cl) 0, w) t))).
Proof.
  destruct 1 as [p Hp|p m c1 c2 Hp Hm|p m cl f c1 c2 Hp Hm Hcl
                |p m cl tu k w f c1 c2 Hp Hm Hcl Hu Hmap|p m cl tu c1 x c2 Hp Hm Hcl Hmap].
  - split; [auto|]. split; [|split].
    + split; [done|]. intros (c & a & Hin & Hrel). in_cases; by simpl in *.
    + intros p' Hin Hp'. in_cases; by simpl in *.
    + intros fl sp cl Hin. in_cases; by simpl in *.
  - split; [auto|]. split; [|split].
    + split; [done|]. intros (c & a & Hin & Hrel). in_cases; by simpl in *.
    + intros p' Hin Hp'. in_cases; try (by simpl in * ). exists c1, c2. simpl. tauto.
    + intros fl sp cl Hin. in_cases; by simpl in *.
  - split; [auto|]. split; [|split].
    + split; [done|]. intros (c & a & Hin & Hrel). in_cases; by simpl in *.
    + intros p' Hin Hp'. in_cases; try (by simpl in * ). exists c1, c2. simpl. tauto.
    + intros fl sp cl' Hin. in_cases; try (by simpl in * ). right. split; [done|]. intros ?. lia.
  - pose proof (user_mapped_calls _ _ _ _ _ _ _ Hmap) as Hcalls.
    split; [auto|]. split; [|split].
    + split; [done|]. intros (c & a & Hin & Hrel). in_cases; try (by simpl in * ).
      apply (map_call_in _ _ _ Hcalls) in Hin. destruct c; try done.
      simpl in *. by rewrite Hrel in Hin.
    + intros p' Hin Hp'. in_cases; try (by simpl in * ).
      * exists c1, c2. rewrite !in_app_iff. simpl. tauto.
      * by apply (map_call_in _ _ _ Hcalls) in Hin.
    + intros fl sp cl' Hin. in_cases; try (by simpl in * ).
      * right. split; [done|]. intros _. exists k, w. rewrite !in_app_iff. simpl. tauto.
      * by apply (map_call_in _ _ _ Hcalls) in Hin.
  - assert (Forall (fun e => map_call (fst e) = true) tu) as Hcalls.
    { destruct Hmap as [[_ ->]|[_ Hmap]]; [done|]. by eapply user_mapped_calls. }
    split; [lia|]. split; [|split].
    + split; [|done]. intros _. exists (Write (out2 p) "x"), x.
      rewrite !in_app_iff. simpl. tauto.
    + intros p' Hin Hp'. in_cases; try (by simpl in * ).
      * exists c1, c2. rewrite !in_app_iff. simpl. tauto.
      * by apply (map_call_in _ _ _ Hcalls) in Hin.
    + intros fl sp cl' Hin. in_cases; try (by simpl in * ).
      * by left.
      * by apply (map_call_in _ _ _ Hcalls) in Hin.
Qed.

Lemma in_sysevents (c : call) (a : answer) (t : list event) :
  is_log c = false -> In (c, a) (sysevents t) <-> In (c, a) t.
Proof.
  intros Hc. unfold sysevents. rewrite filter_In. simpl. rewrite Hc. simpl. tauto.
Qed.

(** X13. [ns_create] returns the PID of the clone or one of [MC_ERR_IO],
    [MC_ERR_MEMORY], [MC_ERR_NAMESPACE].  It writes the release byte exactly
    when it returns a PID; both ends of a pipe it made are closed on every
    path; and when it fails after a clone that succeeded, it has sent SIGKILL
    to the child and waited for it. *)
Theorem ns_create_cleanup (o : oracle) (h : list event) (config : container_config_t) :
  exists r t,
    run o (ns_create config) h = (Returned r, h ++ t) /\
    (r < 0 -> r = MC_ERR_IO \/ r = MC_ERR_MEMORY \/ r = MC_ERR_NAMESPACE) /\
    (0 <= r <-> exists fd a, In (Write fd "x", a) t) /\
    (forall p, In (Pipe, p) t -> ret p = 0 ->
       exists c1 c2, In (Close (out1 p), c1) t /\ In (Close (out2 p), c2) t) /\
    (forall fl sp cl, In (Clone fl sp, cl) t ->
       (r = ret cl /\ 0 <= r) \/
       (r < 0 /\ (0 <= ret cl ->
          exists k w, In (Kill (ret cl) SIGKILL, k) t /\ In (Waitpid (ret cl) 0, w) t))).
Proof.
  destruct (yields_run o _ _ h (yields_ns_create config)) as (r & t & Hr & Hc).
  exists r, t. split; [done|].
  apply created_ns_facts in Hc as (Hneg & Hrel & Hpipe & Hclone).
  split; [done|]. split; [|split].
  - rewrite Hrel. split.
    + intros (c & a & Hin & Hc). destruct c; try done. simpl in Hc.
      apply String.eqb_eq in Hc as ->. rewrite in_sysevents in Hin by done. by exists fd, a.
    + intros (fd & a & Hin). exists (Write fd "x"), a. split; [|done].
      by rewrite in_sysevents.
  - intros p Hin Hp. rewrite <- in_sysevents in Hin by done.
    destruct (Hpipe p Hin Hp) as (c1 & c2 & H1 & H2).
    exists c1, c2. by rewrite in_sysevents in H1, H2.
  - intros fl sp cl Hin. rewrite <- in_sysevents in Hin by done.
    destruct (Hclone fl sp cl Hin) as [?|[? Hk]]; [by left|]. right. split; [done|].
    intros Hcl. destruct (Hk Hcl) as (k & w & H1 & H2).
    exists k, w. by rewrite in_sysevents in H1, H2.
Qed.

Lemma only_bind {A B} (K : call -> bool) (p : prog A) (f : A -> prog B) :
  only K p -> (forall a, only K (f a)) -> only K (bind p f).
Proof.
  intros Hp Hf. induction p as [a|s|c k IH]; simpl in *; [apply Hf|done|].
  destruct Hp as [Hc Hk]. split; [done|]. intros a. apply IH, Hk.
Qed.

Lemma only_weaken {A} (K K' : call -> bool) (p : prog A) :
  (forall c, K c = true -> K' c = true) -> only K p -> only K' p.
Proof.
  intros Hw. induction p as [a|s|c k IH]; simpl; [done|done|].
  intros [Hc Hk]. split; [by apply Hw|]. intros a. apply IH, Hk.
Qed.

Lemma only_always {A} (K : call -> bool) (p : prog A) :
  only K p -> always p (fun _ t => Forall (fun e => K (fst e) = true) t).
Proof.
  induction p as [a|s|c k IH]; simpl; [constructor|constructor|].
  intros [Hc Hk] a. eapply always_weaken; [|apply IH, Hk].
  intros r t Ht. by constructor.
Qed.

Lemma always_and {A} (p : prog A) :
  forall (P Q : outcome A -> list event -> Prop),
    always p P -> always p Q -> always p (fun r t => P r t /\ Q r t).
Proof.
  induction p as [a|s|c k IH]; simpl; intros P Q HP HQ; [done|done|].
  intros a. apply (IH a (fun r t => P r ((c, a) :: t)) (fun r t => Q r ((c, a) :: t)));
    [apply HP|apply HQ].
Qed.

Lemma yields_only {A} (K : call -> bool) (p : prog A) (Q : A -> list event -> Prop) :
  yields p Q -> only K p ->
  yields p (fun a t => Q a t /\ Forall (fun e => K (fst e) = true) t).
Proof.
  intros Hy Ho. unfold yields.
  eapply always_weaken; [|apply (always_and p _ _ Hy (only_always K p Ho))].
  by intros [a|s] t [? ?].
Qed.

Lemma only_mc_log (K : call -> bool) (level : Z) (fmt : string) (args : list logarg) :
  (forall l f a, K (Stderr l f a) = true) -> only K (mc_log level fmt args).
Proof. intros HK. unfold mc_log. destruct (level <? log_level); simpl; auto. Qed.

Lemma only_when {K : call -> bool} (b : bool) (p : prog unit) :
  only K p -> only K (when b p).
Proof. by destruct b. Qed.

(** Decompose an [only] goal along the program. *)
Ltac only_tac :=
  repeat first
    [ apply only_mc_log; done
    | apply only_when
    | apply only_bind
    | progress intros
    | progress cbn [only sys when exit]
    | split; [reflexivity|]
    | exact I
    | match goal with
      | |- only _ (if ?b then _ else _) => destruct b
      | |- only _ (match ?x with _ => _ end) => destruct x
      end ].

Lemma only_mkdir_each (K : call -> bool) (paths : list string) (mode : Z) :
  (forall p m, K (Mkdir p m) = true) -> only K (mkdir_each paths mode).
Proof. intros HK. induction paths; simpl; auto. Qed.

Lemma only_mkdir_p (K : call -> bool) (path : string) (mode : Z) :
  (forall p m, K (Mkdir p m) = true) -> only K (mkdir_p path mode).
Proof.
  intros HK. unfold mkdir_p. apply only_bind; [by apply only_mkdir_each|].
  intros _. simpl. auto.
Qed.

Lemma only_fs_pivot_root (rootfs : option string) : only pivot_call (fs_pivot_root rootfs).
Proof.
  unfold fs_pivot_root, dir_exists.
  destruct rootfs as [r|]; [|only_tac].
  cbn [bind sys only]. split; [done|]. intros st.
  destruct ((ret st =? 0) && S_ISDIR (out1 st)); [|only_tac].
  cbn [bind sys only]. split; [done|]. intros m1.
  destruct (negb (ret m1 =? 0)); [only_tac|].
  cbn [bind sys only]. split; [done|]. intros m2.
  destruct (negb (ret m2 =? 0)); [only_tac|].
  apply only_bind; [by apply only_mkdir_p|]. only_tac.
Qed.

Lemma pivot_call_setup (c : call) : pivot_call c = true -> setup_call c = true.
Proof. by destruct c. Qed.


Lemma returns_always {A} (p : prog A) :
  returns p ->
  forall post : outcome A -> list event -> Prop,
    (forall a t, post (Returned a) t) -> always p post.
Proof.
  induction 1 as [a|c k Hk IH]; simpl; intros post Hpost; [done|].
  intros a. apply IH. intros; apply Hpost.
Qed.

Lemma yields_returns {A} (p : prog A) : returns p -> yields p (fun _ _ => True).
Proof. intros Hr. apply returns_always; done. Qed.

Lemma returns_mkdir_each (paths : list string) (mode : Z) : returns (mkdir_each paths mode).
Proof. induction paths; simpl; returns_tac. Qed.

Lemma returns_mkdir_p (path : string) (mode : Z) : returns (mkdir_p path mode).
Proof. unfold mkdir_p. apply returns_bind; [apply returns_mkdir_each|]. returns_tac. Qed.

Lemma append_nil_r (s : string) : s +:+ "" = s.
Proof.
  induction s as [|c s IH]; [done|].
  change (String c (s +:+ "") = String c s). by rewrite IH.
Qed.

Lemma append_assoc (s1 s2 s3 : string) : (s1 +:+ s2) +:+ s3 = s1 +:+ (s2 +:+ s3).
Proof.
  induction s1 as [|c s IH]; [done|].
  change (String c ((s +:+ s2) +:+ s3) = String c (s +:+ (s2 +:+ s3))). by rewrite IH.
Qed.

(** The prefixes [mkdir_p] creates are ancestors of its path. *)
Lemma slash_prefixes_ancestors (rest : string) :
  forall seen p, In p (slash_prefixes seen rest) ->
    exists x y, p = seen +:+ x /\ rest = x +:+ "/" +:+ y.
Proof.
  induction rest as [|c r IH]; intros seen p Hin; [done|].
  simpl in Hin. apply in_app_iff in Hin as [Hin|Hin].
  - destruct (Ascii.eqb_spec c "/") as [->|]; [|done].
    destruct Hin as [<-|[]]. exists "", r. split; [|done].
    by rewrite append_nil_r.
  - destruct (IH _ _ Hin) as (x & y & -> & ->).
    exists (String c x), y. split; [|done].
    by rewrite append_assoc.
Qed.

Lemma mkdir_p_prefixes_ancestors (tmp p : string) :
  In p (mkdir_p_prefixes tmp) -> p <> "" /\ exists rest, tmp = p +:+ "/" +:+ rest.
Proof.
  destruct tmp as [|c r]; [done|]. simpl. intros Hin.
  destruct (slash_prefixes_ancestors _ _ _ Hin) as (x & y & -> & ->).
  split; [done|]. by exists y.
Qed.

Lemma yields_mkdir_each (paths : list string) (mode : Z) :
  yields (mkdir_each paths mode)
    (fun _ t => calls t = map (fun p => Mkdir p mode) paths).
Proof.
  unfold yields. induction paths as [|p ps IH]; simpl; [done|].
  intros a. eapply always_weaken; [|apply IH].
  intros [r|s] t; [|done]. simpl. by intros ->.
Qed.

(** X8. [mkdir_p] on a non-empty path calls [mkdir] on ancestors of the path only
    (a non-empty prefix that is followed by a slash), then on the path itself;
    the result is [MC_OK] exactly when this last call returned 0 or failed with
    [EEXIST], whatever the earlier ones did. *)
Theorem mkdir_p_ancestors (o : oracle) (h : list event) (path : string) (mode : Z) :
  path <> "" ->
  let tmp := snprintf PATH_MAX path in
  exists r pre m,
    run o (mkdir_p path mode) h = (Returned r, h ++ pre ++ [(Mkdir tmp mode, m)]) /\
    (r = MC_OK \/ r = MC_ERR_IO) /\
    (r = MC_OK <-> ret m = 0 \/ errno m = EEXIST) /\
    Forall (fun e => exists p rest,
              fst e = Mkdir p mode /\ p <> "" /\ tmp = p +:+ "/" +:+ rest) pre.
Proof.
  intros _ tmp.
  assert (yields (mkdir_p path mode)
            (fun r t => exists pre m,
               t = pre ++ [(Mkdir tmp mode, m)] /\
               calls pre = map (fun p => Mkdir p mode) (mkdir_p_prefixes tmp) /\
               r = if (ret m =? 0) || (errno m =? EEXIST) then MC_OK else MC_ERR_IO)) as Hy.
  { unfold yields, mkdir_p. fold tmp.
    bind_with (yields_mkdir_each (mkdir_p_prefixes tmp) mode).
    wp. by exists t, a. }
  destruct (yields_run o _ _ h Hy) as (r & t & Hr & pre & m & -> & Hpre & ->).
  exists (if (ret m =? 0) || (errno m =? EEXIST) then MC_OK else MC_ERR_IO), pre, m.
  split; [done|]. split; [by destruct (_ || _); auto|]. split.
  - destruct (Z.eqb_spec (ret m) 0), (Z.eqb_spec (errno m) EEXIST); simpl; split;
      try tauto; try done.
  - apply List.Forall_forall. intros [c a] Hin.
    assert (In c (calls pre)) as Hc by (apply in_calls; by exists a).
    rewrite Hpre in Hc. apply in_map_iff in Hc as (p & <- & Hp).
    apply mkdir_p_prefixes_ancestors in Hp as [Hne [rest Hrest]].
    by exists p, rest.
Qed.

Lemma mkdir_p_ancestors_witness :
  exists r pre m,
    run (oracle_of friendly) (mkdir_p "/dev/pts" 493) [] =
      (Returned r, [] ++ pre ++ [(Mkdir (snprintf PATH_MAX "/dev/pts") 493, m)]) /\
    (r = MC_OK \/ r = MC_ERR_IO).
Proof.
  destruct (mkdir_p_ancestors (oracle_of friendly) [] "/dev/pts" 493)
    as (r & pre & m & Hr & Hres & _); [discriminate|].
  exists r, pre, m. split; [exact Hr|exact Hres].
Defined.

(** Case analysis on the conditions of the [when]s in reach. *)
Ltac wp_when :=
  repeat match goal with
         | |- context [when ?b _] => destruct b; wp
         end.

(** Membership in a trace given as a concatenation. *)
Ltac in_tac := simpl; rewrite ?in_app_iff; simpl; auto 30.

Lemma returns_dir_exists (path : string) : returns (dir_exists path).
Proof. unfold dir_exists. returns_tac. Qed.

(** [fs_pivot_root] reports success only after [pivot_root] succeeded. *)
Lemma yields_fs_pivot_root (rootfs : string) :
  yields (fs_pivot_root (Some rootfs))
    (fun r t =>
       ((r = MC_OK /\ exists pv, In (PivotRoot rootfs (put_old_of rootfs), pv) t /\ ret pv = 0) \/
        r = MC_ERR_FILESYSTEM) /\
       Forall (fun e => pivot_call (fst e) = true) t).
Proof.
  apply yields_only; [|apply only_fs_pivot_root].
  unfold yields, fs_pivot_root, dir_exists. wp.
  destruct ((ret a =? 0) && S_ISDIR (out1 a)); wp; [|by right].
  destruct (ret a0 =? 0); wp; [|by right].
  destruct (ret a1 =? 0); wp; [|by right].
  bind_with (yields_returns _ (returns_mkdir_p (put_old_of rootfs) 448)).
  wp. destruct (Z.eqb_spec (ret a2) 0) as [Hpv|Hpv]; wp; [|by right].
  wp_when; left; (split; [done|]); exists a2; (split; [|done]); in_tac.
Qed.

Lemma yields_fs_mount_essentials :
  yields fs_mount_essentials
    (fun r t =>
       r = MC_OK /\
       exists d, In (mount_devtmpfs, d) t /\
         calls t = essential_dirs ++ essential_mounts (negb (ret d =? 0)) ++ essential_nodes).
Proof.
  unfold yields. cbv [fs_mount_essentials mkdir_p bind mkdir_each mkdir_p_prefixes sys
                      mknod_each devs].
  simpl. intros.
  match goal with
  | |- context [negb (ret ?d =? 0)] =>
      destruct (ret d =? 0) eqn:E; simpl; intros; (split; [done|]); exists d;
      rewrite E; (split; [in_tac|reflexivity])
  end.
Qed.

Lemma returns_mknod_each (ds : list (string * Z * Z)) : returns (mknod_each ds).
Proof. induction ds as [|[[n m] d] ds IH]; simpl; returns_tac. Qed.

Lemma returns_always_essentials : returns fs_mount_essentials.
Proof.
  unfold fs_mount_essentials.
  repeat first [ apply returns_mkdir_p | apply returns_mknod_each
               | apply returns_bind | progress intros ]; returns_tac.
Qed.

(** X9. [fs_mount_essentials] returns [MC_OK] whatever its calls answer, and the
    calls are the same every time: the directories, the mounts, the six device
    nodes and the four links; the only variation is the [tmpfs] mounted on
    [/dev] exactly when the [devtmpfs] mount failed. *)
Theorem fs_mount_essentials_never_fails (o : oracle) (h : list event) :
  exists t d,
    run o fs_mount_essentials h = (Returned MC_OK, h ++ t) /\
    In (mount_devtmpfs, d) t /\
    calls t = essential_dirs ++ essential_mounts (negb (ret d =? 0)) ++ essential_nodes.
Proof.
  destruct (yields_run o _ _ h yields_fs_mount_essentials) as (r & t & Hr & -> & d & Hd & Hc).
  by exists t, d.
Qed.

(** X10. [fs_setup] refuses an empty rootfs with [MC_ERR_FILESYSTEM] before any
    system call.  It returns [MC_OK] only after a [pivot_root] call that
    succeeded, and when it fails it has mounted no file system by type and made
    no device node or link: all its calls are those of [fs_pivot_root]. *)
Theorem fs_setup_isolation (o : oracle) (h : list event) (c : container_t) :
  let root := rootfs (config c) in
  exists r t,
    run o (fs_setup c) h = (Returned r, h ++ t) /\
    (r = MC_OK \/ r = MC_ERR_FILESYSTEM) /\
    (root = "" -> r = MC_ERR_FILESYSTEM /\ sysevents t = []) /\
    (r = MC_OK ->
       exists pv, In (PivotRoot root (put_old_of root), pv) t /\ ret pv = 0) /\
    (r = MC_ERR_FILESYSTEM -> Forall (fun e => pivot_call (fst e) = true) t).
Proof.
  intros root. apply yields_run. unfold yields, fs_setup. fold root.
  destruct (strlen root =? 0) eqn:E; wp.
  { split; [by right|]. split; [done|]. split; [done|]. intros _. by repeat constructor. }
  assert (root <> "") as Hroot.
  { intros Heq. apply strlen_zero in Heq. congruence. }
  unfold dir_exists. wp.
  destruct ((ret a =? 0) && S_ISDIR (out1 a)); wp.
  2: { split; [by right|]. split; [done|]. split; [done|]. intros _. by repeat constructor. }
  bind_with (yields_fs_pivot_root root). destruct H as [Hres Hcalls].
  destruct Hres as [[-> (pv & Hpv & Hret)]| ->]; change (MC_OK =? MC_OK) with true; wp.
  - bind_with (yields_returns _ (returns_always_essentials)).
    wp_when; (split; [by left|]); (split; [done|]); (split; [|done]); intros _;
      exists pv; (split; [|done]); in_tac.
  - split; [by right|]. split; [done|]. split; [done|]. intros _.
    constructor; [done|]. apply Forall_app. split; [done|]. by repeat constructor.
Qed.

Lemma setup_no_exec (t : list event) :
  Forall (fun e => setup_call (fst e) = true) t -> List.filter is_exec t = [].
Proof.
  induction 1 as [|[c a] t Hc Ht IH]; [done|].
  simpl. destruct c; try done.
Qed.

Lemma only_setenv_each (entries : list string) : only setup_call (setenv_each entries).
Proof.
  induction entries as [|e rest IH]; simpl; [done|].
  destruct (split_eq e) as [[k v]|]; simpl; auto.
Qed.

Lemma only_fs_mount_essentials : only setup_call fs_mount_essentials.
Proof.
  unfold fs_mount_essentials.
  repeat first [ apply only_mkdir_p; done | apply only_bind | progress intros ];
    try (simpl; repeat split; done).
  only_tac.
Qed.

Lemma yields_ns_setup_uts (hostname : string) :
  yields (ns_setup_uts (Some hostname))
    (fun r t =>
       (r = MC_OK \/ r = MC_ERR_NAMESPACE) /\
       Forall (fun e => setup_call (fst e) = true) t /\
       (r = MC_OK -> hostname <> "" ->
          exists sh, In (Sethostname hostname (strlen hostname), sh) t /\ ret sh = 0)).
Proof.
  unfold yields, ns_setup_uts.
  destruct (strlen hostname =? 0) eqn:E; wp.
  { split; [by left|]. split; [done|]. intros _ Hne. apply strlen_zero in E. done. }
  destruct (Z.eqb_spec (ret a) 0) as [Hsh|Hsh]; wp.
  - split; [by left|]. split; [by repeat constructor|]. intros _ _. exists a. in_tac.
  - split; [by right|]. split; [by repeat constructor|]. done.
Qed.

Lemma returns_setenv_each (entries : list string) : returns (setenv_each entries).
Proof.
  induction entries as [|e rest IH]; simpl; [constructor|].
  destruct (split_eq e) as [[k v]|]; [|done]. returns_tac.
Qed.

Lemma logs_no_exec (t : list event) :
  List.filter is_exec (List.filter (fun e => is_log (fst e)) t) = [].
Proof.
  induction t as [|[c y] t IH]; [done|]. simpl. destruct c; simpl; try apply IH.
Qed.

Lemma halts_exec_tail (file : string) (argv : list string) (fmt : string) :
  halts (A := Z) (x <- execvp file argv ;; mc_log 3 fmt [A_errno (errno x)] ;; exit 127)
    (fun s t => exists x,
       t = (Execvp file argv, x) :: List.filter (fun e => is_log (fst e)) t /\
       s = exec_end file argv x).
Proof.
  unfold halts, execvp, exec_end. wp.
  destruct (ret a =? -1) eqn:E; wp; exists a; rewrite E; by repeat split.
Qed.

Lemma halts_exec_once (file : string) (argv : list string) (fmt : string) :
  halts (A := Z) (x <- execvp file argv ;; mc_log 3 fmt [A_errno (errno x)] ;; exit 127)
    (fun s t => exists x,
       List.filter is_exec t = [(Execvp file argv, x)] /\ s = exec_end file argv x).
Proof.
  eapply always_weaken; [|apply (halts_exec_tail file argv fmt)].
  intros [v|s] t Hq; [done|]. destruct Hq as (x & Ht & Hs).
  exists x. split; [|done]. rewrite Ht. cbn [List.filter is_exec]. f_equal.
  apply logs_no_exec.
Qed.

(** The child's command: one [execvp], or a fault on a NULL [cmd]. *)
Lemma halts_child_exec (config : container_config_t) :
  halts (child_exec config)
    (fun s t =>
       (s = Faulted /\ t = [] /\ 0 < cmd_count config /\ cmd config = None) \/
       (exists x,
          List.filter is_exec t =
            [(Execvp (fst (child_image config)) (snd (child_image config)), x)] /\
          s = exec_end (fst (child_image config)) (snd (child_image config)) x)).
Proof.
  unfold halts, child_exec, child_image.
  assert (forall file argv fmt,
            always (x <- execvp file argv ;; mc_log 3 fmt [A_errno (errno x)] ;; exit 127)
              (fun (r : outcome Z) t =>
                 match r with
                 | Returned _ => False
                 | Stopped s =>
                     (s = Faulted /\ t = [] /\ 0 < cmd_count config /\ cmd config = None) \/
                     (exists x, List.filter is_exec t = [(Execvp file argv, x)] /\
                                s = exec_end file argv x)
                 end)) as Hsh.
  { intros file argv fmt. eapply always_weaken; [|apply (halts_exec_once file argv fmt)].
    intros [v|s] t Hq; [done|]. by right. }
  destruct (cmd config) as [[|cmd0 rest]|] eqn:Ecmd;
    destruct (Z.ltb_spec 0 (cmd_count config)) as [Hn|Hn]; try apply Hsh.
  - wp. eapply always_weaken; [|apply (halts_exec_once cmd0 (cmd0 :: rest))].
    intros [v|s] t Hq; [done|]. destruct Hq as (x & Ht & Hs). right. exists x.
    split; [|done]. cbn [fst snd List.filter is_exec]. exact Ht.
  - wp. left. done.
Qed.

Lemma yields_child_env (config : container_config_t) :
  always (child_env config)
    (fun r t =>
       List.filter is_exec t = [] /\
       match r with
       | Returned _ => True
       | Stopped s => s = Faulted /\ t = [] /\ 0 < env_count config /\ env config = None
       end).
Proof.
  unfold child_env.
  destruct (Z.ltb_spec 0 (env_count config)) as [Hn|Hn]; [|done].
  destruct (env config) as [entries|] eqn:Ee; [|done].
  eapply always_weaken.
  2: apply (yields_only setup_call _ _ (yields_returns _ (returns_setenv_each _))
              (only_setenv_each _)).
  intros [v|s] t Hq; [|done]. destruct Hq as [_ Hset]. split; [|done].
  by apply setup_no_exec.
Qed.

(** From [clearenv] on, the child sets its environment and executes. *)
Lemma halts_child_tail (config : container_config_t) :
  halts (A := Z)
    (_ <- sys Clearenv ;;
     _ <- sys (Setenv "PATH" "/usr/local/sbin:/usr/local/bin:/usr/sbin:/usr/bin:/sbin:/bin" 1) ;;
     _ <- sys (Setenv "TERM" "xterm-256color" 1) ;;
     _ <- sys (Setenv "HOME" "/root" 1) ;;
     child_env config ;;
     child_exec config)
    (fun s t =>
       In Clearenv (calls t) /\
       ((s = Faulted /\ List.filter is_exec t = [] /\ null_array config) \/
        (exists x,
           List.filter is_exec t =
             [(Execvp (fst (child_image config)) (snd (child_image config)), x)] /\
           s = exec_end (fst (child_image config)) (snd (child_image config)) x))).
Proof.
  unfold halts. wp. apply always_bind.
  eapply always_weaken; [|apply yields_child_env].
  intros [v|s] t [Hset Hq].
  - eapply always_weaken; [|apply halts_child_exec].
    intros [v'|s'] t' Hq'; [done|]. split; [simpl; by left|].
    cbn [List.filter is_exec]. rewrite List.filter_app, Hset. cbn [app].
    destruct Hq' as [(-> & -> & Hc)|(x & Hx & ->)].
    + left. split; [done|]. split; [done|]. by right.
    + right. by exists x.
  - destruct Hq as (-> & -> & He). split; [simpl; by left|]. left.
    split; [done|]. split; [done|]. by left.
Qed.

Lemma pivot_no_exec (t : list event) :
  Forall (fun e => pivot_call (fst e) = true) t -> List.filter is_exec t = [].
Proof.
  intros H. apply setup_no_exec. eapply Forall_impl; [exact H|].
  intros e. apply pivot_call_setup.
Qed.

(** X14. [container_child] never returns.  It exits with code 1 without
    having called [execvp] when the byte does not come, the hostname cannot
    be set or the pivot fails.  Otherwise it has read the byte from the pipe,
    set the hostname (if there is one), pivoted into the rootfs (if there is
    one) and cleared the environment, and then either it calls [execvp]
    exactly once, on the configured command if there is one and on [/bin/sh]
    otherwise, and ends as that image or, if [execvp] came back, with code
    127; or it faults without an [execvp], which happens only on a
    configuration that announces entries ([env_count] or [cmd_count]
    positive) and gives NULL for the array. *)
Theorem container_child_ends (o : oracle) (h : list event) (config : container_config_t)
    (sync_pipe : Z * Z) :
  let file := fst (child_image config) in
  let argv := snd (child_image config) in
  exists s t,
    run o (container_child config sync_pipe) h = (Stopped s, h ++ t) /\
    ((s = Exited 1 /\ List.filter is_exec t = []) \/
     ((exists rd, In (Read (fst sync_pipe) 1, rd) t /\ ret rd = 1) /\
      In Clearenv (calls t) /\
      (hostname config <> "" ->
         exists sh, In (Sethostname (hostname config) (strlen (hostname config)), sh) t /\
                    ret sh = 0) /\
      (rootfs config <> "" ->
         exists pv,
           In (PivotRoot (rootfs config) (put_old_of (rootfs config)), pv) t /\
           ret pv = 0) /\
      ((s = Faulted /\ List.filter is_exec t = [] /\ ~ arrays_given config) \/
       (exists x,
          List.filter is_exec t = [(Execvp file argv, x)] /\
          s = exec_end file argv x)))) /\
    (arrays_given config -> s <> Faulted).
Proof.
  intros file argv.
  assert (Hnull : null_array config -> ~ arrays_given config).
  { intros [[Hn He]|[Hn Hc]] [Henv Hcmd]; [by apply Henv|by apply Hcmd]. }
  assert (H127 : forall x, exec_end file argv x <> Faulted).
  { intros x. unfold exec_end. by destruct (ret x =? -1). }
  cut (exists s t,
         run o (container_child config sync_pipe) h = (Stopped s, h ++ t) /\
         ((s = Exited 1 /\ List.filter is_exec t = []) \/
          ((exists rd, In (Read (fst sync_pipe) 1, rd) t /\ ret rd = 1) /\
           In Clearenv (calls t) /\
           (hostname config <> "" ->
              exists sh, In (Sethostname (hostname config) (strlen (hostname config)), sh) t /\
                         ret sh = 0) /\
           (rootfs config <> "" ->
              exists pv,
                In (PivotRoot (rootfs config) (put_old_of (rootfs config)), pv) t /\
                ret pv = 0) /\
           ((s = Faulted /\ List.filter is_exec t = [] /\ null_array config) \/
            (exists x,
               List.filter is_exec t = [(Execvp file argv, x)] /\
               s = exec_end file argv x))))).
  { intros (s & t & Hr & Hcase). exists s, t. split; [done|]. split.
    - destruct Hcase as [Hexit|(Hrd & Hcl & Hh & Hp & [(-> & Hne & Hn)|Hexec])]; [by left|..];
        right; (split; [done|]); (split; [done|]); (split; [done|]); (split; [done|]).
      + left. split; [done|]. split; [done|]. by apply Hnull.
      + by right.
    - intros Hgiven ->.
      destruct Hcase as [[[=] _]|(_ & _ & _ & _ & [(_ & _ & Hn)|(x & _ & Hx)])].
      + by apply (Hnull Hn).
      + by apply (H127 x). }
  apply halts_run. unfold halts, container_child. wp.
  destruct (Z.eqb_spec (ret a0) 1) as [Hrd|Hrd]; wp; [|by left].
  bind_with (yields_ns_setup_uts (hostname config)).
  destruct H as (Hres & Huts & Hhost). apply setup_no_exec in Huts.
  destruct Hres as [-> | ->].
  2: { change (MC_ERR_NAMESPACE =? MC_OK) with false. wp. left. split; [done|].
       cbn [List.filter is_exec]. by rewrite List.filter_app, Huts. }
  change (MC_OK =? MC_OK) with true. cbn [negb]. specialize (Hhost eq_refl).
  apply always_bind.
  assert (forall (pre : list event),
            List.filter is_exec pre = [] ->
            (rootfs config <> "" ->
               exists pv, In (PivotRoot (rootfs config) (put_old_of (rootfs config)), pv) pre /\
                          ret pv = 0) ->
            always
              (_ <- sys Clearenv ;;
               _ <- sys (Setenv "PATH" "/usr/local/sbin:/usr/local/bin:/usr/sbin:/usr/bin:/sbin:/bin" 1) ;;
               _ <- sys (Setenv "TERM" "xterm-256color" 1) ;;
               _ <- sys (Setenv "HOME" "/root" 1) ;;
               child_env config ;;
               child_exec config)
              (fun (r' : outcome Z) t' =>
                 match r' with
                 | Returned _ => False
                 | Stopped s =>
                     let t := (Close (snd sync_pipe), a) :: (Read (fst sync_pipe) 1, a0)
                              :: (Close (fst sync_pipe), a1) :: t ++ pre ++ t' in
                     (s = Exited 1 /\ List.filter is_exec t = []) \/
                     ((exists rd, In (Read (fst sync_pipe) 1, rd) t /\ ret rd = 1) /\
                      In Clearenv (calls t) /\
                      (hostname config <> "" ->
                         exists sh,
                           In (Sethostname (hostname config) (strlen (hostname config)), sh) t /\
                           ret sh = 0) /\
                      (rootfs config <> "" ->
                         exists pv,
                           In (PivotRoot (rootfs config) (put_old_of (rootfs config)), pv) t /\
                           ret pv = 0) /\
                      ((s = Faulted /\ List.filter is_exec t = [] /\ null_array config) \/
                       (exists x,
                          List.filter is_exec t = [(Execvp file argv, x)] /\
                          s = exec_end file argv x)))
                 end)) as Htail.
  { intros pre Hpre Hpivot.
    eapply always_weaken; [|apply (halts_child_tail config)].
    intros [v|s] t' Hq; [done|]. destruct Hq as (Hclear & Hend).
    right.
    split. { exists a0. split; [in_tac|done]. }
    split. { unfold calls in *. rewrite !map_cons, !map_app. in_tac. }
    split.
    { intros Hne. destruct (Hhost Hne) as (sh & Hin & Hsh). exists sh. split; [|done]. in_tac. }
    split.
    { intros Hne. destruct (Hpivot Hne) as (pv & Hin & Hpv). exists pv. split; [|done]. in_tac. }
    cbn [List.filter is_exec]. rewrite !List.filter_app, Huts, Hpre. cbn [app].
    destruct Hend as [(-> & Hne & Hn)|(x & Hexec & ->)]; [left|right].
    - by rewrite Hne.
    - exists x. by rewrite Hexec. }
  destruct (0 <? strlen (rootfs config)) eqn:Eroot.
  - bind_with (yields_fs_pivot_root (rootfs config)).
    destruct H as [[[-> (pv & Hin & Hpv)]| ->] Hpc]; apply pivot_no_exec in Hpc.
    2: { change (MC_ERR_FILESYSTEM =? MC_OK) with false. wp. left. split; [done|].
         cbn [List.filter is_exec]. by rewrite !List.filter_app, Huts, Hpc. }
    change (MC_OK =? MC_OK) with true. cbn [negb].
    bind_with (yields_only setup_call _ _ yields_fs_mount_essentials only_fs_mount_essentials).
    destruct H as [[-> _] Hess]. apply setup_no_exec in Hess.
    change (MC_OK =? MC_OK) with true. cbn [negb]. apply always_ret. cbv beta iota.
    rewrite app_nil_r.
    eapply always_weaken; [|apply (Htail (t0 ++ t1))].
    + intros [v|s] t' Hq; [done|]. exact Hq.
    + by rewrite List.filter_app, Hpc, Hess.
    + intros _. exists pv. split; [|done]. in_tac.
  - apply always_ret. cbv beta iota. eapply always_weaken; [|apply (Htail [])].
    + intros [v|s] t' Hq; [done|]. exact Hq.
    + done.
    + intros Hne. destruct Hne. apply strlen_zero, Z.eqb_eq.
      apply Z.ltb_ge in Eroot. unfold strlen in *. lia.
Qed.

(** On a NULL [cmd] with a positive count the child gets as far as the
    environment and faults at the test of [cmd[0]]. *)
Example container_child_null_cmd :
  run (oracle_of friendly) (container_child null_cmd_config (3, 4)) [] =
    (Stopped Faulted,
     [(Close 4, answer_of 0); (Read 3 1, answer_of 1); (Close 3, answer_of 0);
      (Clearenv, answer_of 0);
      (Setenv "PATH" "/usr/local/sbin:/usr/local/bin:/usr/sbin:/usr/bin:/sbin:/bin" 1,
       answer_of 0);
      (Setenv "TERM" "xterm-256color" 1, answer_of 0);
      (Setenv "HOME" "/root" 1, answer_of 0)]).
Proof. reflexivity. Qed.

Tactic Notation "bind_with" constr(L) "as" ident(r) ident(t) ident(H) :=
  apply always_bind; eapply always_weaken; [|apply L];
  [intros [r|?] t H; [cbv beta|done] | ..].

(** A conditional log line adds nothing but log lines to the trace. *)
Lemma always_when_log {B} (b : bool) (l : Z) (f : string) (args : list logarg)
    (k : unit -> prog B) (post : outcome B -> list event -> Prop) :
  (forall lg, sysevents lg = [] -> always (k tt) (fun r t => post r (lg ++ t))) ->
  always (bind (when b (mc_log l f args)) k) post.
Proof.
  intros Hk. unfold when, mc_log.
  destruct b; [destruct (l <? log_level)|]; cbn [bind sys always].
  - apply (Hk []). done.
  - intros a. apply (Hk [_]). done.
  - apply (Hk []). done.
Qed.

Lemma always_log {B} (l : Z) (f : string) (args : list logarg)
    (k : unit -> prog B) (post : outcome B -> list event -> Prop) :
  (forall lg, sysevents lg = [] -> always (k tt) (fun r t => post r (lg ++ t))) ->
  always (bind (mc_log l f args) k) post.
Proof. apply (always_when_log true). Qed.

Lemma yields_cgroup_add_pid (c : container_t) (p : Z) :
  yields (cgroup_add_pid c p)
    (fun r t => written (cgroup_file c "cgroup.procs") (fmt_d p) r (sysevents t)).
Proof.
  unfold yields, cgroup_add_pid.
  rewrite snprintf_fmt_d by lia.
  eapply yields_bind; [apply yields_write_cgroup_value|].
  intros r t Hw. cbv beta.
  destruct (Z.eqb_spec r MC_OK) as [->|Hne]; wp; rewrite sysevents_app; trace_simpl;
    by rewrite app_nil_r.
Qed.

Lemma setns_types_app (t1 t2 : list event) :
  setns_types (t1 ++ t2) = setns_types t1 ++ setns_types t2.
Proof.
  induction t1 as [|[c a] t1 IH]; [done|]. destruct c; simpl; try done. by rewrite IH.
Qed.

Lemma setns_types_sysevents (t : list event) : setns_types (sysevents t) = setns_types t.
Proof.
  induction t as [|[c a] t IH]; [done|].
  destruct c; cbn [sysevents List.filter is_log negb fst setns_types] in *; try done.
  by f_equal.
Qed.

Lemma entered_setns (path : string) (ty r : Z) (t : list event) :
  entered path ty r t -> sublist (setns_types t) [ty].
Proof. destruct 1; simpl; [apply sublist_nil_l|done|done]. Qed.

Lemma written_setns (path value : string) (r : Z) (t : list event) :
  written path value r t -> setns_types t = [].
Proof. by destruct 1. Qed.

Lemma entered_no_exec (path : string) (ty r : Z) (t : list event) :
  entered path ty r t -> List.filter is_exec t = [].
Proof. by destruct 1. Qed.

Lemma written_no_exec (path value : string) (r : Z) (t : list event) :
  written path value r t -> List.filter is_exec t = [].
Proof. by destruct 1. Qed.

Lemma halts_exec_helper (c : container_t) (cmd : list string) :
  halts (exec_helper c cmd)
    (fun s t => exists r1 t1 r2 t2 r3 t3 r4 t4 me r5 t5 cd x,
       sysevents t =
         t1 ++ t2 ++ t3 ++ t4 ++ [(Getpid, me)] ++ t5 ++
         [(Chdir "/", cd); (Execvp (hd "" cmd) cmd, x)] /\
       entered (ns_file (pid c) CLONE_NEWNS) CLONE_NEWNS r1 t1 /\
       entered (ns_file (pid c) CLONE_NEWUTS) CLONE_NEWUTS r2 t2 /\
       entered (ns_file (pid c) CLONE_NEWIPC) CLONE_NEWIPC r3 t3 /\
       entered (ns_file (pid c) CLONE_NEWCGROUP) CLONE_NEWCGROUP r4 t4 /\
       written (cgroup_file c "cgroup.procs") (fmt_d (ret me)) r5 t5 /\
       s = exec_end (hd "" cmd) cmd x).
Proof.
  unfold halts, exec_helper.
  bind_with (yields_ns_enter (pid c) CLONE_NEWNS) as r1 t1 H1.
  2: { unfold ns_types. simpl. tauto. }
  apply always_when_log. intros l1 Hl1.
  bind_with (yields_ns_enter (pid c) CLONE_NEWUTS) as r2 t2 H2.
  2: { unfold ns_types. simpl. tauto. }
  apply always_when_log. intros l2 Hl2.
  bind_with (yields_ns_enter (pid c) CLONE_NEWIPC) as r3 t3 H3.
  2: { unfold ns_types. simpl. tauto. }
  apply always_when_log. intros l3 Hl3.
  bind_with (yields_ns_enter (pid c) CLONE_NEWCGROUP) as r4 t4 H4.
  2: { unfold ns_types. simpl. tauto. }
  apply always_when_log. intros l4 Hl4.
  cbn [bind sys always]. intros me.
  bind_with (yields_cgroup_add_pid c (ret me)) as r5 t5 H5.
  cbn [bind sys always]. intros cd.
  apply always_when_log. intros l5 Hl5.
  apply always_log. intros l6 Hl6.
  unfold execvp. cbn [bind sys always]. intros x.
  assert (forall tl, sysevents tl = [] ->
    sysevents (t1 ++ l1 ++ t2 ++ l2 ++ t3 ++ l3 ++ t4 ++ l4 ++ (Getpid, me) :: t5 ++
               (Chdir "/", cd) :: l5 ++ l6 ++ (Execvp (hd "" cmd) cmd, x) :: tl) =
    sysevents t1 ++ sysevents t2 ++ sysevents t3 ++ sysevents t4 ++ [(Getpid, me)] ++
    sysevents t5 ++ [(Chdir "/", cd); (Execvp (hd "" cmd) cmd, x)]) as Hsys.
  { intros tl Htl. sys_norm. rewrite Hl1, Hl2, Hl3, Hl4, Hl5, Hl6, Htl. done. }
  unfold exec_end.
  destruct (ret x =? -1) eqn:E; wp.
  - exists r1, (sysevents t1), r2, (sysevents t2), r3, (sysevents t3), r4, (sysevents t4),
      me, r5, (sysevents t5), cd, x.
    split; [apply (Hsys [_]); done|]. by rewrite E.
  - exists r1, (sysevents t1), r2, (sysevents t2), r3, (sysevents t3), r4, (sysevents t4),
      me, r5, (sysevents t5), cd, x.
    split; [apply (Hsys []); done|]. by rewrite E.
Qed.

Lemma exec_helper_run (o : oracle) (h : list event) (c : container_t)
    (cmd : list string) :
  exists s t x,
    run o (exec_helper c cmd) h = (Stopped s, h ++ t) /\
    List.filter is_exec t = [(Execvp (hd "" cmd) cmd, x)] /\
    s = exec_end (hd "" cmd) cmd x /\
    opened t =
      [ns_file (pid c) CLONE_NEWNS; ns_file (pid c) CLONE_NEWUTS;
       ns_file (pid c) CLONE_NEWIPC; ns_file (pid c) CLONE_NEWCGROUP;
       cgroup_file c "cgroup.procs"] /\
    fd_table ∅ t = ∅ /\
    sublist (setns_types t) [CLONE_NEWNS; CLONE_NEWUTS; CLONE_NEWIPC; CLONE_NEWCGROUP].
Proof.
  destruct (halts_run o _ _ h (halts_exec_helper c cmd))
    as (s & t & Hr & r1 & t1 & r2 & t2 & r3 & t3 & r4 & t4 & me & r5 & t5 & cd & x &
        Hsys & H1 & H2 & H3 & H4 & H5 & Hs).
  exists s, t, x. split; [done|].
  rewrite <- (filter_sysevents is_exec t), <- opened_sysevents, <- fd_table_sysevents,
    <- setns_types_sysevents, Hsys by (by intros []).
  split; [|split; [done|split; [|split]]].
  - rewrite !List.filter_app.
    pose proof (entered_no_exec _ _ _ _ H1) as E1.
    pose proof (entered_no_exec _ _ _ _ H2) as E2.
    pose proof (entered_no_exec _ _ _ _ H3) as E3.
    pose proof (entered_no_exec _ _ _ _ H4) as E4.
    pose proof (written_no_exec _ _ _ _ H5) as E5.
    unfold event in *. by rewrite E1, E2, E3, E4, E5.
  - rewrite !opened_app, (entered_opened _ _ _ _ H1), (entered_opened _ _ _ _ H2),
      (entered_opened _ _ _ _ H3), (entered_opened _ _ _ _ H4),
      (written_opened _ _ _ _ H5). done.
  - rewrite !fd_table_app, (entered_closed _ _ _ _ H1), (entered_closed _ _ _ _ H2),
      (entered_closed _ _ _ _ H3), (entered_closed _ _ _ _ H4).
    change (fd_table ∅ [(Getpid, me)]) with (∅ : gmap Z string).
    by rewrite (written_closed_empty _ _ _ _ H5).
  - rewrite !setns_types_app, (written_setns _ _ _ _ H5). simpl. rewrite app_nil_r.
    apply (sublist_app _ [_] _ [_; _; _]); [by eapply entered_setns|].
    apply (sublist_app _ [_] _ [_; _]); [by eapply entered_setns|].
    apply (sublist_app _ [_] _ [_]); by eapply entered_setns.
Qed.


(** X24. [container_exec] returns [MC_ERR_INVALID] without any call for a null
    container, a null command or a count that is not positive; [MC_ERR_PROCESS]
    with no system call for a container that is not running or has no PID;
    [MC_ERR_NOT_FOUND] without forking when the probe [kill (pid, 0)] fails;
    [MC_ERR_PROCESS] when [fork] or [waitpid] fails.  In the forked child it
    never returns. *)
Theorem container_exec_refusals (o : oracle) (h : list event) (c : option container_t)
    (cmd : option (list string)) (cmd_count : Z) :
  exists out t,
    run o (container_exec c cmd cmd_count) h = (out, h ++ t) /\
    (c = None \/ cmd = None \/ cmd_count <= 0 ->
       out = Returned MC_ERR_INVALID /\ t = []) /\
    (forall c' cmd', c = Some c' -> cmd = Some cmd' -> 0 < cmd_count ->
       (state c' <> CONTAINER_RUNNING \/ pid c' <= 0 ->
          out = Returned MC_ERR_PROCESS /\ sysevents t = []) /\
       (state c' = CONTAINER_RUNNING -> 0 < pid c' ->
          exists probe,
            (ret probe <> 0 /\ out = Returned MC_ERR_NOT_FOUND /\
             sysevents t = [(Kill (pid c') 0, probe)]) \/
            (ret probe = 0 /\
             exists f rest,
               sysevents t = (Kill (pid c') 0, probe) :: (Fork, f) :: rest /\
               (ret f < 0 -> out = Returned MC_ERR_PROCESS /\ rest = []) /\
               (ret f = 0 -> exists s, out = Stopped s) /\
               (0 < ret f ->
                  exists w, rest = [(Waitpid (ret f) 0, w)] /\
                            (ret w < 0 -> out = Returned MC_ERR_PROCESS))))).
Proof.
  apply always_run.
  destruct c as [c'|], cmd as [cmd'|]; cbn [container_exec always];
    try (split; [done|]; intros; done).
  destruct (Z.leb_spec cmd_count 0) as [Hn|Hn]; cbn [always].
  { split; [done|]. intros; lia. }
  apply (always_weaken _
    (fun out t =>
       (state c' <> CONTAINER_RUNNING \/ pid c' <= 0 ->
          out = Returned MC_ERR_PROCESS /\ sysevents t = []) /\
       (state c' = CONTAINER_RUNNING -> 0 < pid c' ->
          exists probe,
            (ret probe <> 0 /\ out = Returned MC_ERR_NOT_FOUND /\
             sysevents t = [(Kill (pid c') 0, probe)]) \/
            (ret probe = 0 /\
             exists f rest,
               sysevents t = (Kill (pid c') 0, probe) :: (Fork, f) :: rest /\
               (ret f < 0 -> out = Returned MC_ERR_PROCESS /\ rest = []) /\
               (ret f = 0 -> exists s, out = Stopped s) /\
               (0 < ret f ->
                  exists w, rest = [(Waitpid (ret f) 0, w)] /\
                            (ret w < 0 -> out = Returned MC_ERR_PROCESS)))))).
  { intros out t Hq. split; [intros [?|[?|?]]; first [done|lia]|].
    by intros c cmd [= <-] [= <-] _. }
  destruct (state_eqb (state c') CONTAINER_RUNNING) eqn:Est; cbn [negb orb].
  2: { wp. split; [done|]. intros Hst. apply state_eqb_eq in Hst. congruence. }
  apply state_eqb_eq in Est.
  destruct (Z.leb_spec (pid c') 0) as [Hp|Hp]; wp.
  { split; [done|]. intros; lia. }
  assert (forall (out : outcome Z) (t : list event) (P : Prop),
            P ->
            (state c' <> CONTAINER_RUNNING \/ pid c' <= 0 ->
             out = Returned MC_ERR_PROCESS /\ sysevents t = []) /\
            (state c' = CONTAINER_RUNNING -> 0 < pid c' -> P)) as Hleaf.
  { intros out t P HP. split; [intros [?|?]; first [done|lia]|]. done. }
  destruct (Z.eqb_spec (ret a) 0) as [Hprobe|Hprobe]; wp.
  2: { apply Hleaf. exists a. left. by sys_norm. }
  destruct (Z.ltb_spec (ret a0) 0) as [Hf|Hf]; wp.
  { apply Hleaf. exists a. right. split; [done|]. exists a0, []. sys_norm.
    split; [done|]. split; [done|]. split; intros; lia. }
  destruct (Z.eqb_spec (ret a0) 0) as [Hf0|Hf0].
  { eapply always_weaken; [|apply (halts_exec_helper c' cmd')].
    intros [v|s] t Hq; [done|]. apply Hleaf. exists a. right. split; [done|].
    exists a0, (sysevents t). sys_norm.
    split; [done|]. split; [intros; lia|]. split; [by exists s|]. intros; lia. }
  wp. destruct (Z.ltb_spec (ret a1) 0) as [Hw|Hw]; wp.
  { apply Hleaf. exists a. right. split; [done|].
    exists a0, [(Waitpid (ret a0) 0, a1)]. sys_norm. split; [done|].
    split; [intros; lia|]. split; [intros; lia|]. intros _. by exists a1. }
  destruct (WIFEXITED (out1 a1)); wp;
    (apply Hleaf; exists a; right; split; [done|];
     exists a0, [(Waitpid (ret a0) 0, a1)]; sys_norm; split; [reflexivity|];
     split; [intros; lia|]; split; [intros; lia|]; intros _; exists a1;
     split; [done|]; intros; lia).
Qed.

(** *** Reading back what [printf] prints *)

Lemma append_cons (c : ascii) (s t : string) : String c s +:+ t = String c (s +:+ t).
Proof. reflexivity. Qed.

Lemma digits_append (fuel : nat) :
  forall n acc rest, digits 10 fuel n acc +:+ rest = digits 10 fuel n (acc +:+ rest).
Proof.
  induction fuel as [|f IH]; intros n acc rest; [done|].
  cbn [digits]. destruct (n <? 10); [done|]. by rewrite IH.
Qed.

Lemma scan_digits_stop (s : string) (n : Z) : not_digit_first s -> scan_digits s n = (n, s).
Proof. destruct s as [|c s]; simpl; [done|]. by intros ->. Qed.

Lemma scan_long_fmt_d (n : Z) (rest : string) :
  LONG_MIN <= n <= LONG_MAX -> not_digit_first rest ->
  scan_long (fmt_d n +:+ rest) = Some (n, rest).
Proof.
  intros Hn Hrest. unfold scan_long, fmt_d, fmt_u.
  assert (forall m, 0 <= m <= 9223372036854775808 ->
            exists d r, digits 10 20 m rest = String (digit_char d) r /\ 0 <= d < 10 /\
                        scan_digits (digits 10 20 m rest) 0 = (m, rest)) as Hdig.
  { intros m Hm. destruct (digits_head 19 m rest ltac:(lia)) as (d & r & Hd & Hr).
    exists d, r. split; [done|]. split; [done|].
    rewrite scan_digits_digits; [by apply scan_digits_stop|].
    change (10 ^ Z.of_nat 20) with 100000000000000000000. lia. }
  unfold LONG_MIN, LONG_MAX in *.
  destruct (Z.ltb_spec n 0) as [E|E].
  - destruct (Hdig (- n)) as (d & r & Hd & Hr & Hscan); [lia|].
    destruct (digit_char_digit d Hr) as [Hdg _].
    rewrite append_cons, digits_append. change ("" +:+ rest) with rest.
    rewrite Hd in *. cbn [skip_ws]. change (isspace "-") with false. cbv iota.
    change (Ascii.eqb "-" "-") with true. cbv iota.
    rewrite Hdg, Hscan. f_equal. f_equal.
    unfold clamp_long, LONG_MIN, LONG_MAX. lia.
  - destruct (Hdig n) as (d & r & Hd & Hr & Hscan); [lia|].
    destruct (digit_char_digit d Hr) as [Hdg _].
    destruct (digit_char_plain d Hr) as (Hsp & Hminus & Hplus).
    rewrite digits_append. change ("" +:+ rest) with rest.
    rewrite Hd in *. cbn [skip_ws]. rewrite Hsp, Hminus, Hplus, Hdg, Hscan.
    f_equal. f_equal. unfold clamp_long, LONG_MIN, LONG_MAX. lia.
Qed.

(** *** [cgroup_kill_all], [cgroup_cleanup] *)

Lemma yields_kill_each (pids : list Z) (sig : Z) :
  yields (kill_each pids sig)
    (fun _ t => sysevents t = t /\ calls t = map (fun p => Kill p sig) pids /\
                kills t = map (fun p => (p, sig)) pids).
Proof.
  unfold yields. induction pids as [|p ps IH]; cbn [kill_each bind sys always map]; [done|].
  intros a. eapply always_weaken; [|apply IH].
  intros [r|s] t; [|done]. cbv beta. intros (Hs & Hc & Hk).
  rewrite sysevents_keep by done. rewrite Hs. split; [done|].
  unfold calls in *. cbn [map fst kills]. by rewrite Hc, Hk.
Qed.

Lemma yields_cgroup_kill_all (c : container_t) :
  yields (cgroup_kill_all c) (fun r t => killed_all c r (sysevents t)).
Proof.
  unfold yields, cgroup_kill_all. wp.
  destruct (Z.eqb_spec (ret a) 0) as [Hac|Hac].
  - eapply always_weaken;
      [|apply (yields_write_cgroup_value (cgroup_file c "cgroup.kill") "1")].
    intros [r|s] t H; [|done]. sys_norm. by apply killed_by_file.
  - wp. destruct (Z.eqb_spec (ret a0) 0) as [Hfp|Hfp]; wp.
    + sys_norm. by apply killed_nothing.
    + bind_with (yields_kill_each (scan_ints (String.length (text a0)) (text a0)) SIGKILL)
        as r t H.
      destruct H as (Hs & Hc & _). wp. sys_norm. rewrite Hs.
      by apply (killed_each c a a0 t).
Qed.

Lemma skip_ws_procs_text (pids : list Z) :
  Forall is_pid pids -> skip_ws (procs_text pids) = procs_text pids.
Proof.
  destruct 1 as [|p ps Hp Hps]; [done|]. simpl.
  unfold fmt_d, fmt_u. unfold is_pid in Hp. replace (p <? 0) with false by lia.
  destruct (digits_head 19 p "" ltac:(lia)) as (d & r & Hd & Hr).
  destruct (digit_char_plain d Hr) as (Hsp & _).
  rewrite Hd, append_cons. cbn [skip_ws]. by rewrite Hsp.
Qed.

Lemma scan_long_skip_ws (s : string) : scan_long s = scan_long (skip_ws s).
Proof.
  unfold scan_long.
  assert (skip_ws (skip_ws s) = skip_ws s) as ->; [|done].
  induction s as [|c s IH]; [done|]. simpl. destruct (isspace c) eqn:E; [done|].
  simpl. by rewrite E.
Qed.

Lemma scan_ints_skip_ws (fuel : nat) (s : string) :
  scan_ints fuel s = scan_ints fuel (skip_ws s).
Proof. destruct fuel; [done|]. simpl. by rewrite <- scan_long_skip_ws. Qed.

(** The loop over [cgroup.procs] reads back the PIDs the kernel printed. *)
Lemma scan_ints_procs_text (pids : list Z) :
  Forall is_pid pids ->
  forall fuel, (length pids <= fuel)%nat -> scan_ints fuel (procs_text pids) = pids.
Proof.
  induction 1 as [|p ps Hp Hps IH]; intros fuel Hfuel.
  - destruct fuel; done.
  - destruct fuel as [|f]; [simpl in Hfuel; lia|].
    cbn [scan_ints procs_text].
    unfold is_pid, INT_MAX in Hp.
    rewrite scan_long_fmt_d; [|unfold LONG_MIN, LONG_MAX; lia|done].
    rewrite wrap32_id by (unfold in_int, INT_MIN, INT_MAX; lia).
    f_equal. rewrite scan_ints_skip_ws.
    change (skip_ws (nl +:+ procs_text ps)) with (skip_ws (procs_text ps)).
    rewrite skip_ws_procs_text by done. apply IH. simpl in Hfuel. lia.
Qed.

Lemma procs_text_length (pids : list Z) :
  (length pids <= String.length (procs_text pids))%nat.
Proof.
  induction pids as [|p ps IH]; [done|]. simpl. rewrite !length_append.
  change (String.length nl) with 1%nat. lia.
Qed.

Lemma kills_app (t1 t2 : list event) : kills (t1 ++ t2) = kills t1 ++ kills t2.
Proof.
  induction t1 as [|[c a] t1 IH]; [done|]. destruct c; simpl; try done. by rewrite IH.
Qed.

Lemma kills_sysevents (t : list event) : kills (sysevents t) = kills t.
Proof.
  induction t as [|[c a] t IH]; [done|].
  destruct c; cbn [sysevents List.filter is_log negb fst kills] in *; try done.
  by f_equal.
Qed.

Lemma kills_of_calls (t : list event) (pids : list Z) (sig : Z) :
  calls t = map (fun p => Kill p sig) pids -> kills t = map (fun p => (p, sig)) pids.
Proof.
  revert pids. induction t as [|[c a] t IH]; intros [|p ps]; simpl; try done.
  intros [= -> Ht]. simpl. by rewrite (IH ps).
Qed.

Lemma written_kills (path value : string) (r : Z) (t : list event) :
  written path value r t -> kills t = [].
Proof. by destruct 1. Qed.

(** X6. [cgroup_kill_all] writes ["1"] to [cgroup.kill] when [access] says it is
    writable; otherwise it reads [cgroup.procs], with [MC_ERR_IO] if that does
    not open, and sends SIGKILL to every PID in it: for a file that lists PIDs
    one per line, exactly those PIDs are signalled, in order, and the result is
    [MC_OK]. *)
Theorem cgroup_kill_all_outcomes (o : oracle) (h : list event) (c : container_t) :
  exists r t,
    run o (cgroup_kill_all c) h = (Returned r, h ++ t) /\
    killed_all c r (sysevents t) /\
    (forall fp pids,
       In (Fopen (cgroup_file c "cgroup.procs") "r", fp) t -> ret fp <> 0 ->
       text fp = procs_text pids -> Forall is_pid pids ->
       r = MC_OK /\ kills t = map (fun p => (p, SIGKILL)) pids).
Proof.
  destruct (yields_run o _ _ h (yields_cgroup_kill_all c)) as (r & t & Hr & Hk).
  exists r, t. split; [done|]. split; [done|].
  intros fp pids Hin Hfp Htext Hpids.
  rewrite <- in_sysevents in Hin by done. rewrite <- kills_sysevents.
  remember (sysevents t) as ts eqn:Hts. clear Hts.
  destruct Hk as [ac r t' Hac Hw|ac fp' Hac Hfp'|ac fp' ks cl Hac Hfp' Hks].
  - exfalso. destruct Hin as [[=]|Hin]. destruct Hw; simpl in Hin; intuition congruence.
  - exfalso. destruct Hin as [[=]|[[= <-]|[]]]. done.
  - assert (fp' = fp) as ->.
    { simpl in Hin. destruct Hin as [[=]|[[=]|Hin]]; [done|].
      exfalso. apply in_app_iff in Hin as [Hin|[[=]|[]]].
      assert (In (Fopen (cgroup_file c "cgroup.procs") "r") (calls ks)) as Hc
        by (apply in_calls; by exists fp).
      rewrite Hks in Hc. by apply in_map_iff in Hc as (? & [=] & _). }
    split; [done|]. simpl. rewrite kills_app. simpl. rewrite app_nil_r.
    rewrite (kills_of_calls _ _ _ Hks), Htext.
    by rewrite scan_ints_procs_text by (done || apply procs_text_length).
Qed.

Lemma cgroup_kill_all_outcomes_witness :
  exists t,
    run (oracle_of (old_kernel [12; 345]))
      (cgroup_kill_all (limited_container (memory_and_pids 0 0))) [] = (Returned MC_OK, t) /\
    kills t = [(12, SIGKILL); (345, SIGKILL)].
Proof.
  destruct (cgroup_kill_all_outcomes (oracle_of (old_kernel [12; 345])) []
              (limited_container (memory_and_pids 0 0))) as (r & t & Hr & _ & Hk).
  exists t.
  destruct (Hk (old_kernel [12; 345] (Fopen "" "r")) [12; 345]) as [-> Hkills].
  - vm_compute in Hr. injection Hr as _ <-. vm_compute. auto.
  - discriminate.
  - reflexivity.
  - repeat constructor; vm_compute; congruence.
  - split; [exact Hr|exact Hkills].
Defined.

Lemma yields_cgroup_cleanup (c : container_t) :
  yields (cgroup_cleanup c)
    (fun r t =>
       (cgroup_path c = "" /\ r = MC_OK /\ t = []) \/
       (cgroup_path c <> "" /\
        exists rk tk us rd,
          sysevents t = tk ++ [(Usleep 100000, us); (Rmdir (cgroup_path c), rd)] /\
          killed_all c rk tk /\
          r = if (ret rd =? 0) || (errno rd =? ENOENT) then MC_OK else MC_ERR_CGROUP)).
Proof.
  unfold yields, cgroup_cleanup.
  destruct (strlen (cgroup_path c) =? 0) eqn:E.
  { apply strlen_zero in E. by left. }
  assert (cgroup_path c <> "") as Hne.
  { intros Heq. apply strlen_zero in Heq. congruence. }
  bind_with (yields_cgroup_kill_all c) as rk tk Hk. wp.
  destruct (ret a0 =? 0) eqn:E1; [|destruct (errno a0 =? ENOENT) eqn:E2]; wp;
    right; (split; [done|]); exists rk, (sysevents tk), a, a0; sys_norm;
    rewrite E1, ?E2; done.
Qed.

(** X7. [cgroup_cleanup] does nothing and returns [MC_OK] for an empty cgroup path.
    Otherwise it kills the processes (whatever that returns), sleeps and
    removes the directory last; the result is [MC_OK] exactly when [rmdir]
    succeeded or failed with [ENOENT], and [MC_ERR_CGROUP] otherwise. *)
Theorem cgroup_cleanup_outcomes (o : oracle) (h : list event) (c : container_t) :
  exists r t,
    run o (cgroup_cleanup c) h = (Returned r, h ++ t) /\
    ((cgroup_path c = "" /\ r = MC_OK /\ t = []) \/
     (cgroup_path c <> "" /\
      exists rk tk us rd,
        sysevents t = tk ++ [(Usleep 100000, us); (Rmdir (cgroup_path c), rd)] /\
        killed_all c rk tk /\
        (r = MC_OK <-> ret rd = 0 \/ errno rd = ENOENT) /\
        (r = MC_OK \/ r = MC_ERR_CGROUP))).
Proof.
  destruct (yields_run o _ _ h (yields_cgroup_cleanup c)) as (r & t & Hr & Hc).
  exists r, t. split; [done|].
  destruct Hc as [?|(Hne & rk & tk & us & rd & Hs & Hk & ->)]; [by left|].
  right. split; [done|]. exists rk, tk, us, rd. split; [done|]. split; [done|].
  destruct (Z.eqb_spec (ret rd) 0), (Z.eqb_spec (errno rd) ENOENT); simpl;
    split; try tauto; try (by left); try (by right).
  split; [done|]. by intros [?|?].
Qed.

(** *** [container_stop], [container_delete] *)

Lemma yields_save_container_state (c : container_t) :
  yields (save_container_state c)
    (fun r t => kills t = [] /\ sysevents t = t /\
                Forall (fun e => match fst e with
                                 | Fopen _ _ | Fputs _ _ | Fclose _ => True
                                 | _ => False
                                 end) t).
Proof.
  unfold yields, save_container_state. wp.
  destruct (ret a =? 0); wp; repeat split; by repeat constructor.
Qed.

Lemma yields_mark_stopped (c : container_t) :
  yields (mark_stopped c)
    (fun c' t => kills t = [] /\
                 exists tm, c' = with_stopped_at (with_state c CONTAINER_STOPPED) (ret tm)).
Proof.
  unfold yields, mark_stopped. wp.
  bind_with (yields_save_container_state
               (with_stopped_at (with_state c CONTAINER_STOPPED) (ret a))) as r t H.
  wp. destruct H as (Hk & _). rewrite app_nil_r. split; [done|]. by exists a.
Qed.

Lemma yields_stop_poll (n : nat) :
  forall c,
    yields (stop_poll n c)
      (fun r t => kills t = [] /\
                  match r with
                  | Some c' => exists w tm, c' = stopped_record c w tm
                  | None => True
                  end).
Proof.
  induction n as [|n IH]; intros c; unfold yields; cbn [stop_poll]; [done|].
  wp. destruct (0 <? ret a) eqn:E.
  - bind_with (yields_mark_stopped (store_status c a)) as c' t H.
    destruct H as (Hk & tm & ->). wp. rewrite app_nil_r. split; [done|].
    by exists a, tm.
  - assert (store_status c a = c) as -> by (unfold store_status; by rewrite E).
    wp. eapply always_weaken; [|apply IH].
    intros [r|s] t; [|done]. by intros [Hk Hr].
Qed.

Lemma yields_container_stop (c : container_t) (timeout : Z) :
  yields (container_stop c timeout)
    (fun rc t =>
       fst rc = MC_OK /\
       ((state c <> CONTAINER_RUNNING /\ snd rc = c /\ t = []) \/
        (state c = CONTAINER_RUNNING /\
         exists w tm term rest,
           snd rc = stopped_record c w tm /\
           t = (Kill (pid c) SIGTERM, term) :: rest))).
Proof.
  unfold yields, container_stop.
  destruct (state_eqb (state c) CONTAINER_RUNNING) eqn:E; cbn [negb].
  2: { split; [done|]. left. split; [|done]. intros Hs. apply state_eqb_eq in Hs. congruence. }
  apply state_eqb_eq in E. wp.
  bind_with (yields_stop_poll (Z.to_nat (int_mul timeout 10)) c) as r t H.
  destruct H as [_ H]. destruct r as [c'|].
  - destruct H as (w & tm & ->). wp. split; [done|]. right. split; [done|].
    by exists w, tm, a, (t ++ []).
  - wp. bind_with (yields_mark_stopped (store_status c a1)) as c' t' H'.
    destruct H' as (_ & tm & ->). wp. split; [done|]. right. split; [done|].
    by eexists a1, tm, a, _.
Qed.

(** X19. [container_stop] always returns [MC_OK] and leaves a record that is not
    running, with the same configuration and PID; stopping that record again
    returns it unchanged without any call. *)
Theorem container_stop_twice (o : oracle) (h : list event) (c : container_t)
    (timeout timeout' : Z) :
  exists c1 t,
    run o (container_stop c timeout) h = (Returned (MC_OK, c1), h ++ t) /\
    state c1 <> CONTAINER_RUNNING /\
    config c1 = config c /\ pid c1 = pid c /\
    run o (container_stop c1 timeout') (h ++ t) = (Returned (MC_OK, c1), h ++ t).
Proof.
  destruct (yields_run o _ _ h (yields_container_stop c timeout))
    as ([r c1] & t & Hr & Hok & Hc). simpl in Hok, Hc. subst r.
  exists c1, t. split; [done|].
  assert (state c1 <> CONTAINER_RUNNING /\ config c1 = config c /\ pid c1 = pid c)
    as (Hst & Hcfg & Hpid).
  { destruct Hc as [(Hs & -> & _)|(_ & w & tm & term & rest & -> & _)]; [done|].
    unfold stopped_record, store_status. by destruct (0 <? ret w). }
  split; [done|]. split; [done|]. split; [done|].
  unfold container_stop.
  destruct (state_eqb (state c1) CONTAINER_RUNNING) eqn:E; [|done].
  by apply state_eqb_eq in E.
Qed.

Lemma killed_all_kills (c : container_t) (r : Z) (t : list event) :
  killed_all c r t -> Forall (fun k => snd k = SIGKILL) (kills t).
Proof.
  destruct 1 as [ac r t Hac Hw|ac fp Hac Hfp|ac fp ks cl Hac Hfp Hks]; simpl.
  - by rewrite (written_kills _ _ _ _ Hw).
  - done.
  - rewrite kills_app, (kills_of_calls _ _ _ Hks). simpl. rewrite app_nil_r.
    apply Forall_forall. intros k Hin. apply list_elem_of_fmap in Hin as (p & -> & _). done.
Qed.

(** [container_delete] from the cgroup clean-up on. *)
Lemma yields_delete_rest (c : container_t) :
  yields
    (_ <- cgroup_cleanup c ;;
     _ <- fs_cleanup c ;;
     _ <- sys (System (snprintf PATH_MAX ("rm -rf " +:+ state_dir c))) ;;
     mc_log 1 "Deleted container: %s" [A_str (name (config (with_state c CONTAINER_DELETED)))] ;;
     Ret (MC_OK, with_state c CONTAINER_DELETED))
    (fun rc t =>
       rc = (MC_OK, with_state c CONTAINER_DELETED) /\
       (exists pre rm,
          sysevents t =
            pre ++ [(System (snprintf PATH_MAX ("rm -rf " +:+ state_dir c)), rm)]) /\
       Forall (fun k => snd k = SIGKILL) (kills t)).
Proof.
  unfold yields.
  bind_with (yields_cgroup_cleanup c) as r t H.
  assert (Forall (fun k => snd k = SIGKILL) (kills t)) as Hk.
  { rewrite <- kills_sysevents.
    destruct H as [(_ & _ & ->)|(_ & rk & tk & us & rd & -> & Hka & _)]; [done|].
    rewrite kills_app. simpl. rewrite app_nil_r. by eapply killed_all_kills. }
  clear H. unfold fs_cleanup.
  destruct (negb (strlen (state_dir c) =? 0)); wp.
  - split; [done|]. split.
    + eexists (sysevents t ++ [_]), _. sys_norm. by rewrite <- app_assoc.
    + rewrite kills_app. simpl. by rewrite app_nil_r.
  - split; [done|]. split.
    + eexists (sysevents t), _. by sys_norm.
    + rewrite kills_app. simpl. by rewrite app_nil_r.
Qed.

(** X20. [container_delete] always returns [MC_OK] and marks the record deleted,
    keeping its configuration, PID and paths; its last system call is
    [rm -rf <state_dir>].  A running container is stopped first, starting with
    SIGTERM; for any other state the only signals sent are the SIGKILLs of the
    cgroup clean-up. *)
Theorem container_delete_always (o : oracle) (h : list event) (c : container_t) :
  exists c' t,
    run o (container_delete c) h = (Returned (MC_OK, c'), h ++ t) /\
    state c' = CONTAINER_DELETED /\ config c' = config c /\ pid c' = pid c /\
    state_dir c' = state_dir c /\ cgroup_path c' = cgroup_path c /\
    (exists pre rm,
       sysevents t =
         pre ++ [(System (snprintf PATH_MAX ("rm -rf " +:+ state_dir c)), rm)]) /\
    (state c = CONTAINER_RUNNING ->
       exists term rest, t = (Kill (pid c) SIGTERM, term) :: rest) /\
    (state c <> CONTAINER_RUNNING -> Forall (fun k => snd k = SIGKILL) (kills t)).
Proof.
  assert (yields (container_delete c)
            (fun rc t =>
               exists c1,
                 rc = (MC_OK, with_state c1 CONTAINER_DELETED) /\
                 config c1 = config c /\ pid c1 = pid c /\
                 state_dir c1 = state_dir c /\ cgroup_path c1 = cgroup_path c /\
                 (exists pre rm,
                    sysevents t =
                      pre ++ [(System (snprintf PATH_MAX ("rm -rf " +:+ state_dir c)), rm)]) /\
                 (state c = CONTAINER_RUNNING ->
                    exists term rest, t = (Kill (pid c) SIGTERM, term) :: rest) /\
                 (state c <> CONTAINER_RUNNING ->
                    Forall (fun k => snd k = SIGKILL) (kills t)))) as Hy.
  { unfold yields, container_delete. apply always_bind.
    destruct (state_eqb (state c) CONTAINER_RUNNING) eqn:E.
    - apply state_eqb_eq in E.
      bind_with (yields_container_stop c 10) as rc t1 H1.
      destruct rc as [r c1]. destruct H1 as [_ [(Hs & _)|(_ & w & tm & term & rest & Hc1 & ->)]];
        [done|]. simpl in Hc1. subst c1.
      apply always_ret. cbv beta iota. cbn [snd].
      eapply always_weaken; [|apply (yields_delete_rest (stopped_record c w tm))].
      intros [rc|s] t2 H2; [|done]. destruct H2 as (-> & (pre & rm & Hsys) & _).
      exists (stopped_record c w tm).
      assert (state_dir (stopped_record c w tm) = state_dir c) as Hsd
        by (unfold stopped_record, store_status; by destruct (0 <? ret w)).
      split; [done|]. repeat split;
        try (unfold stopped_record, store_status; by destruct (0 <? ret w)).
      + rewrite app_nil_r, sysevents_app, Hsys, Hsd. eexists (_ ++ pre), rm.
        by rewrite <- app_assoc.
      + intros _. rewrite app_nil_r. by eexists _, _.
    - apply always_ret. cbv beta iota.
      eapply always_weaken; [|apply (yields_delete_rest c)].
      intros [rc|s] t2 H2; [|done]. destruct H2 as (-> & Hsys & Hk).
      exists c. repeat split; try done.
      intros Hs. apply state_eqb_eq in Hs. congruence. }
  destruct (yields_run o _ _ h Hy)
    as (rc & t & Hr & c1 & -> & Hcfg & Hpid & Hsd & Hcg & Hsys & Hrun & Hnot).
  by exists (with_state c1 CONTAINER_DELETED), t.
Qed.

(** *** [container_start] *)

Lemma yields_saves (c : container_t) :
  yields (save_container_state c) (fun _ t => saves c t).
Proof.
  unfold yields, save_container_state. wp.
  destruct (Z.eqb_spec (ret a) 0) as [E|E]; wp.
  - by apply saves_failed.
  - by apply saves_written.
Qed.

(** X18. [container_start] of a container that is not running: if [ns_create]
    fails, its error is returned and the record is unchanged, with nothing
    called after it; if it gives a PID the result is [MC_OK] and the record
    gets the PID, the running state and the start time, whatever the write to
    [cgroup.procs] and the saving of the state file return. *)
Theorem container_start_outcomes (o : oracle) (h : list event) (c : container_t) :
  exists r c' t,
    run o (container_start c) h = (Returned (r, c'), h ++ t) /\
    (state c = CONTAINER_RUNNING -> r = MC_ERR_INVALID /\ c' = c /\ t = []) /\
    (state c <> CONTAINER_RUNNING ->
       exists rn tn rest,
         t = tn ++ rest /\ created_ns (config c) rn (sysevents tn) /\
         (rn < 0 -> r = rn /\ c' = c /\ rest = []) /\
         (0 <= rn ->
            r = MC_OK /\
            exists tm ra ta saved lg,
              c' = with_started_at (with_state (with_pid c rn) CONTAINER_RUNNING) (ret tm) /\
              rest = (Time, tm) :: ta ++ saved ++ [lg] /\
              written (cgroup_file c "cgroup.procs") (fmt_d rn) ra (sysevents ta) /\
              saves c' saved)).
Proof.
  assert (yields (container_start c)
    (fun rc t =>
      (state c = CONTAINER_RUNNING -> rc = (MC_ERR_INVALID, c) /\ t = []) /\
      (state c <> CONTAINER_RUNNING ->
       exists rn tn rest,
         t = tn ++ rest /\ created_ns (config c) rn (sysevents tn) /\
         (rn < 0 -> rc = (rn, c) /\ rest = []) /\
         (0 <= rn ->
            fst rc = MC_OK /\
            exists tm ra ta saved lg,
              snd rc = with_started_at (with_state (with_pid c rn) CONTAINER_RUNNING) (ret tm) /\
              rest = (Time, tm) :: ta ++ saved ++ [lg] /\
              written (cgroup_file c "cgroup.procs") (fmt_d rn) ra (sysevents ta) /\
              saves (snd rc) saved)))) as Hy.
  { unfold yields, container_start.
    destruct (state_eqb (state c) CONTAINER_RUNNING) eqn:E.
    { apply state_eqb_eq in E. cbn [always]. split; [done|]. done. }
    assert (state c <> CONTAINER_RUNNING) as Hs.
    { intros Hs. apply state_eqb_eq in Hs. congruence. }
    bind_with (yields_ns_create (config c)) as rn tn Hn.
    destruct (Z.ltb_spec rn 0) as [Hneg|Hpos].
    { cbn [always]. split; [done|]. intros _. exists rn, tn, [].
      split; [done|]. split; [done|]. split; [done|]. intros; lia. }
    wp.
    bind_with (yields_cgroup_add_pid
                 (with_started_at (with_state (with_pid c rn) CONTAINER_RUNNING) (ret a)) rn)
      as ra ta Ha.
    bind_with (yields_saves
                 (with_started_at (with_state (with_pid c rn) CONTAINER_RUNNING) (ret a)))
      as rs saved Hsv.
    wp. split; [done|]. intros _. eexists rn, tn, _.
    split; [reflexivity|]. split; [done|]. split; [intros; lia|]. intros _.
    split; [done|]. eexists a, ra, ta, saved, _. cbn [snd].
    split; [reflexivity|]. split; [reflexivity|]. split; [exact Ha|exact Hsv]. }
  destruct (yields_run o _ _ h Hy) as ([r c'] & t & Hr & Hrun & Hnot).
  exists r, c', t. split; [done|]. split.
  - intros Hs. destruct (Hrun Hs) as [[= -> ->] ->]. done.
  - intros Hs. destruct (Hnot Hs) as (rn & tn & rest & -> & Hc & Hneg & Hpos).
    exists rn, tn, rest. split; [done|]. split; [done|]. split.
    + intros Hlt. destruct (Hneg Hlt) as [[= -> ->] ->]. done.
    + intros Hge. destruct (Hpos Hge) as (Hok & tm & ra & ta & saved & lg & H1 & H2 & H3 & H4).
      simpl in *. split; [done|]. by exists tm, ra, ta, saved, lg.
Qed.

(** *** [cgroup_init] *)



Lemma logs_opened (lg : list event) : sysevents lg = [] -> opened lg = [].
Proof. intros H. by rewrite <- opened_sysevents, H. Qed.

Lemma logs_fd_table (lg : list event) (fds : gmap Z string) :
  sysevents lg = [] -> fd_table fds lg = fds.
Proof. intros H. by rewrite <- fd_table_sysevents, H. Qed.




(** *** Reading the cgroup files *)

Lemma calls_app (t1 t2 : list event) : calls (t1 ++ t2) = calls t1 ++ calls t2.
Proof. apply map_app. Qed.

Lemma yields_read_cgroup_value (path : string) :
  yields (read_cgroup_value path)
    (fun r t => exists a,
       fopens t = [(path, a)] /\
       r = (if ret a =? 0 then -1 else default (-1) (scan_ld (text a))) /\
       calls t = Fopen path "r" :: (if ret a =? 0 then [] else [Fclose (ret a)])).
Proof.
  unfold yields, read_cgroup_value. wp.
  destruct (ret a =? 0) eqn:E; wp.
  - exists a. by rewrite E.
  - destruct (scan_ld (text a)) eqn:Es; wp; exists a; by rewrite E, ?Es.
Qed.

Lemma yields_read_cgroup_string (path : string) (size : nat) :
  yields (read_cgroup_string path size)
    (fun r t => exists a,
       fopens t = [(path, a)] /\ r = string_read size a /\
       calls t = Fopen path "r" :: (if ret a =? 0 then [] else [Fclose (ret a)])).
Proof.
  unfold yields, read_cgroup_string, string_read. wp.
  destruct (ret a =? 0) eqn:E; wp.
  - exists a. by rewrite E.
  - destruct (fgets size (text a)) as [[buf rest]|] eqn:Es; wp; exists a; by rewrite E, Es.
Qed.

(** X4. [read_cgroup_value] opens the file for reading and closes it again if it
    opened.  A file that does not open, or that does not start with a number,
    gives -1; a file holding a [long] printed in decimal and a newline gives
    that number. *)
Theorem read_cgroup_value_round_trip (o : oracle) (h : list event) (path : string) :
  exists r t a,
    run o (read_cgroup_value path) h = (Returned r, h ++ t) /\
    calls t = Fopen path "r" :: (if ret a =? 0 then [] else [Fclose (ret a)]) /\
    fopens t = [(path, a)] /\
    (ret a = 0 -> r = -1) /\
    (ret a <> 0 ->
       (scan_ld (text a) = None -> r = -1) /\
       (forall n, in_long n -> text a = fmt_d n +:+ nl -> r = n)).
Proof.
  destruct (yields_run o _ _ h (yields_read_cgroup_value path))
    as (r & t & Hr & a & Hf & -> & Hc).
  exists (if ret a =? 0 then -1 else default (-1) (scan_ld (text a))), t, a.
  split; [done|]. split; [done|]. split; [done|].
  destruct (Z.eqb_spec (ret a) 0) as [E|E]; (split; [done|]); intros Hne; [done|].
  split; [by intros ->|]. intros n Hn Htext.
  unfold scan_ld. rewrite Htext, scan_long_fmt_d; done.
Qed.

(** X5. When none of the six files of the cgroup opens, [cgroup_get_metrics] still
    returns [MC_OK]: the memory usage, the peak and the number of PIDs are -1,
    the limits and the CPU time are 0, and it has called nothing but the six
    [fopen]. *)
Theorem cgroup_get_metrics_missing (o : oracle) (h : list event) (c : container_t) :
  exists m t,
    run o (cgroup_get_metrics c) h = (Returned (MC_OK, m), h ++ t) /\
    (Forall (fun pa => ret (snd pa) = 0) (fopens t) ->
       m = {| memory_usage_bytes := -1; memory_max_usage_bytes := -1;
              metrics_memory_limit_bytes := 0; cpu_usage_ns := 0;
              pids_current := -1; pids_limit := 0 |} /\
       calls t =
         map (fun f => Fopen (cgroup_file c f) "r")
           ["memory.current"; "memory.peak"; "memory.max"; "cpu.stat"; "pids.current";
            "pids.max"]).
Proof.
  assert (yields (cgroup_get_metrics c)
    (fun rm t =>
       fst rm = MC_OK /\
       (Forall (fun pa => ret (snd pa) = 0) (fopens t) ->
        snd rm = {| memory_usage_bytes := -1; memory_max_usage_bytes := -1;
                    metrics_memory_limit_bytes := 0; cpu_usage_ns := 0;
                    pids_current := -1; pids_limit := 0 |} /\
        calls t =
          map (fun f => Fopen (cgroup_file c f) "r")
            ["memory.current"; "memory.peak"; "memory.max"; "cpu.stat"; "pids.current";
             "pids.max"]))) as Hy.
  { unfold yields, cgroup_get_metrics.
    bind_with (yields_read_cgroup_value (cgroup_file c "memory.current")) as r1 t1 H1.
    bind_with (yields_read_cgroup_value (cgroup_file c "memory.peak")) as r2 t2 H2.
    bind_with (yields_read_cgroup_string (cgroup_file c "memory.max") 1024) as r3 t3 H3.
    wp.
    assert (forall cpu tl,
      (ret a = 0 -> cpu = 0 /\ tl = []) -> fopens tl = [] ->
      always
        (pcur <- read_cgroup_value (cgroup_file c "pids.current") ;;
         pmax <- read_cgroup_string (cgroup_file c "pids.max") 1024 ;;
         Ret (MC_OK,
              {| memory_usage_bytes := r1;
                 memory_max_usage_bytes := r2;
                 metrics_memory_limit_bytes :=
                   if fst r3 =? MC_OK then
                     if String.eqb (snd r3) "max" then -1 else atol (snd r3)
                   else 0;
                 cpu_usage_ns := cpu;
                 pids_current := wrap 32 pcur;
                 pids_limit :=
                   if fst pmax =? MC_OK then
                     if String.eqb (snd pmax) "max" then -1 else atoi (snd pmax)
                   else 0 |}))
        (fun r' t' =>
           match r' with
           | Returned rm =>
               fst rm = MC_OK /\
               (Forall (fun pa => ret (snd pa) = 0)
                  (fopens (t1 ++ t2 ++ t3 ++
                           (Fopen (cgroup_file c "cpu.stat") "r", a) :: tl ++ t')) ->
                snd rm = {| memory_usage_bytes := -1; memory_max_usage_bytes := -1;
                            metrics_memory_limit_bytes := 0; cpu_usage_ns := 0;
                            pids_current := -1; pids_limit := 0 |} /\
                calls (t1 ++ t2 ++ t3 ++
                       (Fopen (cgroup_file c "cpu.stat") "r", a) :: tl ++ t') =
                  map (fun f => Fopen (cgroup_file c f) "r")
                    ["memory.current"; "memory.peak"; "memory.max"; "cpu.stat";
                     "pids.current"; "pids.max"])
           | Stopped _ => False
           end)) as Hrest.
    { intros cpu tl Hcpu Htl.
      bind_with (yields_read_cgroup_value (cgroup_file c "pids.current")) as r5 t5 H5.
      bind_with (yields_read_cgroup_string (cgroup_file c "pids.max") 1024) as r6 t6 H6.
      wp. split; [done|].
      destruct H1 as (a1 & Hf1 & -> & Hc1), H2 as (a2 & Hf2 & -> & Hc2),
        H3 as (a3 & Hf3 & -> & Hc3), H5 as (a5 & Hf5 & -> & Hc5),
        H6 as (a6 & Hf6 & -> & Hc6).
      rewrite !fopens_app, !calls_app. cbn [fopens].
      rewrite !fopens_app, Hf1, Hf2, Hf3, Htl, Hf5, Hf6. cbn [app fopens]. intros Hall.
      repeat match goal with
             | H : Forall _ (_ :: _) |- _ => apply Forall_cons in H as [? H]
             end.
      simpl in *. destruct (Hcpu ltac:(done)) as [-> ->].
      change (calls ((Fopen (cgroup_file c "cpu.stat") "r", a) :: [] ++ t5 ++ t6 ++ []))
        with (Fopen (cgroup_file c "cpu.stat") "r" :: calls (t5 ++ t6 ++ [])).
      rewrite !calls_app, Hc1, Hc2, Hc3, Hc5, Hc6.
      unfold string_read.
      repeat match goal with
             | H : ret ?x = 0 |- _ => rewrite H in *; clear H
             end.
      done. }
    destruct (Z.eqb_spec (ret a) 0) as [E|E]; wp.
    - apply (Hrest 0 []); done.
    - apply (Hrest _ [_]); [done|done]. }
  destruct (yields_run o _ _ h Hy) as ([r m] & t & Hr & Hok & Hm).
  simpl in *. subst r. by exists m, t.
Qed.

(** *** The state file: what [save_container_state] writes, [container_list] reads back *)

Lemma is_word_parts (w : string) :
  is_word w = true -> no_space w = true /\ no_nul w = true.
Proof. unfold is_word. by intros [? ?]%andb_true_iff. Qed.

Lemma c_str_id (s : string) : no_nul s = true -> c_str s = s.
Proof.
  induction s as [|c s IH]; [done|]. cbn [no_nul c_str].
  intros [Hc Hs]%andb_true_iff. apply negb_true_iff in Hc. rewrite Hc. by rewrite IH.
Qed.

Lemma no_nul_append (s1 s2 : string) :
  no_nul (s1 +:+ s2) = no_nul s1 && no_nul s2.
Proof.
  induction s1 as [|c s1 IH]; [done|]. rewrite append_cons. cbn [no_nul].
  by rewrite IH, andb_assoc.
Qed.

Lemma digit_char_no_nul (d : Z) : 0 <= d < 10 -> Ascii.eqb (digit_char d) zero = false.
Proof.
  intros H.
  assert (d = 0 \/ d = 1 \/ d = 2 \/ d = 3 \/ d = 4 \/ d = 5 \/ d = 6 \/ d = 7 \/
          d = 8 \/ d = 9) as Hd by lia.
  repeat (destruct Hd as [-> | Hd]; [by vm_compute|]). subst. by vm_compute.
Qed.

Lemma digits_no_nul (fuel : nat) :
  forall n acc, no_nul acc = true -> no_nul (digits 10 fuel n acc) = true.
Proof.
  induction fuel as [|f IH]; intros n acc Hacc; [done|].
  cbn [digits].
  assert (no_nul (String (digit_char (n mod 10)) acc) = true) as Hd.
  { cbn [no_nul]. rewrite digit_char_no_nul, Hacc; [done|].
    apply Z.mod_pos_bound. lia. }
  destruct (n <? 10); [done|]. by apply IH.
Qed.

Lemma fmt_d_no_nul (n : Z) : no_nul (fmt_d n) = true.
Proof.
  unfold fmt_d, fmt_u. destruct (n <? 0); [cbn [no_nul]|]; by rewrite ?digits_no_nul.
Qed.

Lemma take_word_word (w : string) :
  forall width, no_space w = true -> (String.length w <= width)%nat ->
    take_word width (w +:+ nl) = w.
Proof.
  induction w as [|c w IH]; intros width Hw Hlen.
  - by destruct width.
  - simpl in Hw, Hlen. apply andb_true_iff in Hw as [Hc Hw].
    destruct width as [|width]; [lia|]. rewrite append_cons. cbn [take_word].
    destruct (isspace c); [done|]. rewrite IH; [done|done|lia].
Qed.

Lemma scan_s_word (w : string) (width : nat) :
  no_space w = true -> (String.length w <= width)%nat ->
  scan_s width (w +:+ nl) = if String.eqb w "" then None else Some w.
Proof.
  intros Hw Hlen. unfold scan_s. destruct w as [|c w]; [by destruct width|].
  pose proof Hw as Hw'. simpl in Hw'. apply andb_true_iff in Hw' as [Hc _].
  rewrite append_cons. cbn [skip_ws]. destruct (isspace c) eqn:E; [done|].
  rewrite <- append_cons, take_word_word by done. done.
Qed.

Lemma no_newline_append (s1 s2 : string) :
  no_newline (s1 +:+ s2) = no_newline s1 && no_newline s2.
Proof.
  induction s1 as [|c s1 IH]; [done|]. rewrite append_cons. cbn [no_newline].
  by rewrite IH, andb_assoc.
Qed.

Lemma no_space_no_newline (w : string) : no_space w = true -> no_newline w = true.
Proof.
  induction w as [|c w IH]; [done|]. simpl. intros [Hc Hw]%andb_true_iff.
  rewrite IH by done. rewrite andb_true_r.
  destruct (Ascii.eqb_spec c newline) as [->|]; [|done]. by vm_compute in Hc.
Qed.

Lemma digit_char_no_newline (d : Z) : 0 <= d < 10 -> Ascii.eqb (digit_char d) newline = false.
Proof.
  intros H.
  assert (d = 0 \/ d = 1 \/ d = 2 \/ d = 3 \/ d = 4 \/ d = 5 \/ d = 6 \/ d = 7 \/
          d = 8 \/ d = 9) as Hd by lia.
  repeat (destruct Hd as [-> | Hd]; [by vm_compute|]). subst. by vm_compute.
Qed.

Lemma digits_no_newline (fuel : nat) :
  forall n acc, no_newline acc = true -> no_newline (digits 10 fuel n acc) = true.
Proof.
  induction fuel as [|f IH]; intros n acc Hacc; [done|].
  cbn [digits].
  assert (no_newline (String (digit_char (n mod 10)) acc) = true) as Hd.
  { cbn [no_newline]. rewrite digit_char_no_newline, Hacc; [done|].
    apply Z.mod_pos_bound. lia. }
  destruct (n <? 10); [done|]. by apply IH.
Qed.

Lemma fmt_d_no_newline (n : Z) : no_newline (fmt_d n) = true.
Proof.
  unfold fmt_d, fmt_u. destruct (n <? 0); [cbn [no_newline]|]; by rewrite ?digits_no_newline.
Qed.

Lemma fgets_go_line (l : string) :
  forall n rest, no_newline l = true -> (String.length l < n)%nat ->
    fgets_go n (l +:+ nl +:+ rest) = (l +:+ nl, rest).
Proof.
  induction l as [|c l IH]; intros n rest Hl Hn.
  - destruct n; [simpl in Hn; lia|]. done.
  - simpl in Hl, Hn. apply andb_true_iff in Hl as [Hc Hl].
    destruct n as [|n]; [lia|]. rewrite !append_cons. cbn [fgets_go].
    destruct (Ascii.eqb c newline); [done|]. rewrite IH; [done|done|lia].
Qed.

(** A line without a NUL byte that fits the buffer is read whole. *)
Lemma fgets_line (size : nat) (l rest : string) :
  no_newline l = true -> no_nul l = true -> (String.length l + 1 < size)%nat ->
  fgets size (l +:+ nl +:+ rest) = Some (l +:+ nl, rest).
Proof.
  intros Hl Hz Hn. unfold fgets.
  rewrite fgets_go_line by (done || lia).
  rewrite c_str_id by (by rewrite no_nul_append, Hz).
  destruct l; done.
Qed.

Lemma fgets_all_line (fuel : nat) (l rest : string) :
  no_newline l = true -> no_nul l = true -> (String.length l < 255)%nat ->
  fgets_all (S fuel) 256 (l +:+ nl +:+ rest) = (l +:+ nl) :: fgets_all fuel 256 rest.
Proof.
  intros Hl Hz Hn. cbn [fgets_all]. by rewrite fgets_line by (done || lia).
Qed.

Lemma scan_lit_append (lit s : string) : scan_lit lit (lit +:+ s) = Some s.
Proof.
  induction lit as [|c lit IH]; [by destruct s|].
  rewrite append_cons. cbn [scan_lit]. by rewrite Ascii.eqb_refl.
Qed.

Lemma scan_id_line (v : string) :
  is_word v = true -> (String.length v <= 64)%nat ->
  scan_state_line ("id=" +:+ v +:+ nl) = if String.eqb v "" then None else Some (F_id v).
Proof.
  intros [Hw Hz]%is_word_parts Hlen. unfold scan_state_line.
  rewrite c_str_id by (by rewrite !no_nul_append, Hz).
  rewrite (scan_lit_append "id="). cbn [mbind option_bind]. rewrite scan_s_word by done.
  destruct (String.eqb v ""); [|done].
  change (scan_lit "name=" ("id=" +:+ v +:+ nl)) with (@None string).
  change (scan_lit "pid=" ("id=" +:+ v +:+ nl)) with (@None string).
  change (scan_lit "state=" ("id=" +:+ v +:+ nl)) with (@None string).
  done.
Qed.

Lemma parse_id_line (v : string) (c : container_t) :
  is_word v = true -> (String.length v <= 64)%nat ->
  parse_state_line ("id=" +:+ v +:+ nl) c =
    if String.eqb v "" then c else with_config c (with_id (config c) v).
Proof.
  intros Hw Hlen. unfold parse_state_line. rewrite scan_id_line by done.
  by destruct (String.eqb v "").
Qed.

Lemma scan_name_line (v : string) :
  is_word v = true -> (String.length v <= 255)%nat ->
  scan_state_line ("name=" +:+ v +:+ nl) =
    if String.eqb v "" then None else Some (F_name v).
Proof.
  intros [Hw Hz]%is_word_parts Hlen. unfold scan_state_line.
  rewrite c_str_id by (by rewrite !no_nul_append, Hz).
  change (scan_lit "id=" ("name=" +:+ v +:+ nl)) with (@None string).
  rewrite (scan_lit_append "name="). cbn [mbind option_bind]. rewrite scan_s_word by done.
  destruct (String.eqb v ""); [|done].
  change (scan_lit "pid=" ("name=" +:+ v +:+ nl)) with (@None string).
  change (scan_lit "state=" ("name=" +:+ v +:+ nl)) with (@None string).
  done.
Qed.

Lemma parse_name_line (v : string) (c : container_t) :
  is_word v = true -> (String.length v <= 255)%nat ->
  parse_state_line ("name=" +:+ v +:+ nl) c =
    if String.eqb v "" then c else with_config c (with_name (config c) v).
Proof.
  intros Hw Hlen. unfold parse_state_line. rewrite scan_name_line by done.
  by destruct (String.eqb v "").
Qed.

Lemma parse_state_name_line (s : container_state_t) (c : container_t) :
  parse_state_line ("state=" +:+ nth (state_index s) states "" +:+ nl) c =
    with_state c (reload_state s).
Proof. by destruct s. Qed.

Lemma parse_pid_line (p : Z) (c : container_t) :
  in_int p -> parse_state_line ("pid=" +:+ fmt_d p +:+ nl) c = with_pid c p.
Proof.
  intros Hp. unfold parse_state_line, scan_state_line.
  rewrite c_str_id by (by rewrite !no_nul_append, fmt_d_no_nul).
  change (scan_lit "id=" ("pid=" +:+ fmt_d p +:+ nl)) with (@None string).
  change (scan_lit "name=" ("pid=" +:+ fmt_d p +:+ nl)) with (@None string).
  rewrite (scan_lit_append "pid="). cbn [mbind option_bind]. unfold scan_d.
  rewrite scan_long_fmt_d; [|unfold in_int, INT_MIN, INT_MAX, LONG_MIN, LONG_MAX in *; lia|done].
  cbn [fmap option_fmap option_map fst]. by rewrite wrap32_id.
Qed.

Lemma fgets_all_field (fuel : nat) (key v rest : string) :
  no_newline key = true -> no_newline v = true ->
  no_nul key = true -> no_nul v = true ->
  (String.length key + String.length v < 255)%nat ->
  fgets_all (S fuel) 256 (key +:+ v +:+ nl +:+ rest) =
    (key +:+ v +:+ nl) :: fgets_all fuel 256 rest.
Proof.
  intros Hk Hv Hkz Hvz Hlen.
  rewrite <- (append_assoc key v (nl +:+ rest)), <- (append_assoc key v nl).
  apply fgets_all_line.
  - by rewrite no_newline_append, Hk, Hv.
  - by rewrite no_nul_append, Hkz, Hvz.
  - rewrite length_append. lia.
Qed.

(** The lines of a saved state file, as [fgets] delivers them. *)
Lemma state_text_lines (c : container_t) :
  is_word (id (config c)) = true -> is_word (name (config c)) = true ->
  (String.length (id (config c)) <= 64)%nat ->
  (String.length (name (config c)) <= 249)%nat ->
  lines_of 256 (state_text c) =
    ["id=" +:+ id (config c) +:+ nl; "name=" +:+ name (config c) +:+ nl;
     "state=" +:+ nth (state_index (state c)) states "" +:+ nl;
     "pid=" +:+ fmt_d (pid c) +:+ nl].
Proof.
  intros [Hid Hidz]%is_word_parts [Hname Hnamez]%is_word_parts Hidlen Hnamelen.
  unfold lines_of.
  assert (4 <= String.length (state_text c))%nat as Hlen.
  { unfold state_text. rewrite !length_append. change (String.length nl) with 1%nat. lia. }
  destruct (String.length (state_text c)) as [|[|[|[|fuel]]]]; try lia. clear Hlen.
  unfold state_text.
  rewrite (fgets_all_field _ "id=")
    by (by apply no_space_no_newline || done || (simpl; lia)).
  rewrite (fgets_all_field _ "name=")
    by (by apply no_space_no_newline || done || (simpl; lia)).
  rewrite (fgets_all_field _ "state=").
  2: done. 2: by destruct (state c). 2: done. 2: by destruct (state c).
  2: destruct (state c); simpl; lia.
  replace ("pid=" +:+ fmt_d (pid c) +:+ nl) with ("pid=" +:+ fmt_d (pid c) +:+ nl +:+ "")
    by (by rewrite append_nil_r).
  rewrite (fgets_all_field _ "pid=").
  2: done. 2: apply fmt_d_no_newline. 2: done. 2: apply fmt_d_no_nul.
  2: { pose proof (fmt_d_length (pid c)). simpl. lia. }
  replace (fgets_all fuel 256 "") with (@nil string) by (by destruct fuel).
  by rewrite append_nil_r.
Qed.

(** The lines of a saved state file, read back in a row. *)
Lemma reload_state_text (c : container_t) :
  is_word (id (config c)) = true -> is_word (name (config c)) = true ->
  (String.length (id (config c)) <= 64)%nat ->
  (String.length (name (config c)) <= 249)%nat ->
  in_int (pid c) ->
  fold_left (fun c line => parse_state_line line c)
    (lines_of 256 (state_text c)) zeroed_container =
  {| config := with_name (with_id zeroed_config (id (config c))) (name (config c));
     state := reload_state (state c); pid := pid c; exit_code := 0;
     cgroup_path := ""; state_dir := ""; created_at := 0; started_at := 0; stopped_at := 0 |}.
Proof.
  intros Hid Hname Hidlen Hnamelen Hpid.
  rewrite state_text_lines by done.
  cbn [fold_left].
  rewrite parse_id_line, parse_name_line, parse_state_name_line, parse_pid_line by (done || lia).
  destruct (String.eqb_spec (id (config c)) "") as [Ei|Ei],
    (String.eqb_spec (name (config c)) "") as [En|En]; rewrite ?Ei, ?En; reflexivity.
Qed.

(** *** The limits: what the kernel prints, [cgroup_get_metrics] reads back *)

Lemma chomp_line (l : string) : chomp (l +:+ nl) = l.
Proof.
  induction l as [|c l IH]; [done|]. rewrite append_cons. cbn [chomp].
  destruct (l +:+ nl) as [|c' r'] eqn:E; [by destruct l|].
  by rewrite IH.
Qed.

Lemma first_line_line (l rest : string) :
  no_newline l = true -> no_nul l = true -> (String.length l + 1 < 1024)%nat ->
  first_line (l +:+ nl +:+ rest) = Some l.
Proof.
  intros Hl Hz Hn. unfold first_line. rewrite fgets_line by done.
  cbn [fmap option_fmap option_map fst]. by rewrite chomp_line.
Qed.

Lemma first_line_number (n : Z) : first_line (fmt_d n +:+ nl) = Some (fmt_d n).
Proof.
  rewrite <- (append_nil_r (fmt_d n +:+ nl)), append_assoc.
  apply first_line_line; [apply fmt_d_no_newline | apply fmt_d_no_nul |].
  pose proof (fmt_d_length n). lia.
Qed.

Lemma fmt_d_not_max (n : Z) : fmt_d n <> "max".
Proof.
  unfold fmt_d, fmt_u. destruct (n <? 0) eqn:E; [done|].
  destruct (digits_head 19 n "" ltac:(lia)) as (d & r & Hd & Hr). rewrite Hd.
  intros [= Hc _]. destruct (digit_char_digit d Hr) as [Hdig _].
  rewrite Hc in Hdig. done.
Qed.

Lemma atoi_fmt_d (n : Z) : 0 <= n <= INT_MAX -> atoi (fmt_d n) = n.
Proof.
  intros Hn. unfold atoi. rewrite atol_fmt_d by (unfold INT_MAX, LONG_MAX in *; lia).
  apply wrap32_id. unfold in_int, INT_MIN, INT_MAX in *. lia.
Qed.

(** C8.  [cgroup_get_metrics] opens the six interface files once each, in
    this order, and returns MC_OK.  When [memory.max] could be read, the
    memory limit is -1 if its first line is the text [max] and the number
    [atol] reads in that line otherwise: a file that holds a limit as the
    kernel prints it, in decimal with a newline, gives that limit.  When
    [cpu.stat] could be read, the cpu usage is its [usage_usec] field times
    1000 (in [long] arithmetic, so exactly that product when it fits).  When
    [pids.max] could be read, the pids limit is -1 if its first line is [max]
    and the number [atoi] reads otherwise, which for a printed limit is that
    limit.  The line is the C string in the buffer of [fgets]. *)
Theorem cgroup_get_metrics_translation (o : oracle) (h : list event) (c : container_t) :
  exists m t a1 a2 amem acpu a5 apids,
    run o (cgroup_get_metrics c) h = (Returned (MC_OK, m), h ++ t) /\
    fopens t =
      [(cgroup_file c "memory.current", a1); (cgroup_file c "memory.peak", a2);
       (cgroup_file c "memory.max", amem); (cgroup_file c "cpu.stat", acpu);
       (cgroup_file c "pids.current", a5); (cgroup_file c "pids.max", apids)] /\
    (ret amem <> 0 ->
       (forall line, first_line (text amem) = Some line ->
          (line = "max" -> metrics_memory_limit_bytes m = -1) /\
          (line <> "max" -> metrics_memory_limit_bytes m = atol line)) /\
       (forall n, 0 <= n <= LONG_MAX -> text amem = fmt_d n +:+ nl ->
          metrics_memory_limit_bytes m = n)) /\
    (ret acpu <> 0 ->
       cpu_usage_ns m =
         from_option (fun v => long_mul v 1000) 0 (usage_usec_field (text acpu)) /\
       forall v, usage_usec_field (text acpu) = Some v -> in_long (v * 1000) ->
                 cpu_usage_ns m = v * 1000) /\
    (ret apids <> 0 ->
       (forall line, first_line (text apids) = Some line ->
          (line = "max" -> pids_limit m = -1) /\
          (line <> "max" -> pids_limit m = atoi line)) /\
       (forall n, 0 <= n <= INT_MAX -> text apids = fmt_d n +:+ nl ->
          pids_limit m = n)).
Proof.
  unfold cgroup_get_metrics.
  rewrite run_bind.
  destruct (run_read_cgroup_value o h (cgroup_file c "memory.current"))
    as (usage & t1 & -> & Hf1).
  rewrite run_bind.
  destruct (run_read_cgroup_value o (h ++ t1) (cgroup_file c "memory.peak"))
    as (peak & t2 & -> & Hf2).
  rewrite run_bind.
  destruct (run_read_cgroup_string o ((h ++ t1) ++ t2) (cgroup_file c "memory.max") 1024)
    as (t3 & -> & Hf3).
  set (amem := o ((h ++ t1) ++ t2) (Fopen (cgroup_file c "memory.max") "r")) in *.
  cbn [bind sys run].
  set (h4 := ((h ++ t1) ++ t2) ++ t3).
  set (acpu := o h4 (Fopen (cgroup_file c "cpu.stat") "r")).
  rewrite run_bind.
  assert (Hcpu : exists t4 v,
            run o (if ret acpu =? 0 then Ret 0
                   else Call (Fclose (ret acpu))
                          (fun _ => Ret (cpu_stat_loop (lines_of 1024 (text acpu)) 0)))
                (h4 ++ [(Fopen (cgroup_file c "cpu.stat") "r", acpu)]) =
              (Returned v, h4 ++ t4) /\
            fopens t4 = [(cgroup_file c "cpu.stat", acpu)] /\
            (ret acpu <> 0 -> v = cpu_stat_loop (lines_of 1024 (text acpu)) 0)).
  { destruct (ret acpu =? 0) eqn:E; cbn [bind sys run].
    - eexists [_], _. split; [reflexivity|]. split; [reflexivity|]. lia.
    - eexists [_; _], _. rewrite <- app_assoc. split; [reflexivity|]. by split. }
  destruct Hcpu as (t4 & cpu & -> & Hf4 & Hcpu).
  rewrite run_bind.
  destruct (run_read_cgroup_value o (h4 ++ t4) (cgroup_file c "pids.current"))
    as (pcur & t5 & -> & Hf5).
  rewrite run_bind.
  destruct (run_read_cgroup_string o ((h4 ++ t4) ++ t5) (cgroup_file c "pids.max") 1024)
    as (t6 & -> & Hf6).
  set (apids := o ((h4 ++ t4) ++ t5) (Fopen (cgroup_file c "pids.max") "r")) in *.
  cbn [run].
  eexists _, (t1 ++ t2 ++ t3 ++ t4 ++ t5 ++ t6), _, _, amem, acpu, _, apids.
  split; [unfold h4; by rewrite <- !app_assoc|].
  split; [rewrite !fopens_app, Hf1, Hf2, Hf3, Hf4, Hf5, Hf6; reflexivity|].
  cbn [metrics_memory_limit_bytes cpu_usage_ns pids_limit].
  assert (Hline : forall (a : answer) (conv : string -> Z) line,
            ret a <> 0 -> first_line (text a) = Some line ->
            (line = "max" ->
             (if fst (string_read 1024 a) =? MC_OK
              then if String.eqb (snd (string_read 1024 a)) "max" then -1
                   else conv (snd (string_read 1024 a))
              else 0) = -1) /\
            (line <> "max" ->
             (if fst (string_read 1024 a) =? MC_OK
              then if String.eqb (snd (string_read 1024 a)) "max" then -1
                   else conv (snd (string_read 1024 a))
              else 0) = conv line)).
  { intros a conv line Hret Hl. unfold first_line in Hl. unfold string_read.
    replace (ret a =? 0) with false by lia.
    destruct (fgets 1024 (text a)) as [[buf rest]|]; [|done].
    simpl in Hl. injection Hl as <-. cbn [fst snd].
    replace (MC_OK =? MC_OK) with true by done.
    destruct (String.eqb_spec (chomp buf) "max"); split; congruence. }
  split; [|split].
  - intros Hret. split; [intros line Hl; by apply Hline|].
    intros n Hn Htext.
    destruct (Hline amem atol (fmt_d n) Hret) as [_ Hnum].
    { rewrite Htext. apply first_line_number. }
    rewrite Hnum by apply fmt_d_not_max. by apply atol_fmt_d.
  - intros Hret. rewrite (Hcpu Hret), cpu_stat_loop_last.
    split; [done|]. intros v Hv Hin. unfold usage_usec_field in Hv.
    rewrite Hv. simpl. unfold long_mul. by apply wrap64_id.
  - intros Hret. split; [intros line Hl; by apply Hline|].
    intros n Hn Htext.
    destruct (Hline apids atoi (fmt_d n) Hret) as [_ Hnum].
    { rewrite Htext. apply first_line_number. }
    rewrite Hnum by apply fmt_d_not_max. by apply atoi_fmt_d.
Qed.

(** Given what is known of one run of [cgroup_get_metrics] on the sample
    container against [oracle_of f], identifies the answers it speaks of. *)
Ltac sample_metrics f known :=
  destruct known
    as (m & t & a1 & a2 & amem & acpu & a5 & apids & Hr & Hf & Hmem & Hcpu & Hpids);
  exists m, t; split; [exact Hr|];
  assert (Hrun : exists m0 t0,
            run (oracle_of f)
              (cgroup_get_metrics (limited_container (memory_and_pids 0 0))) [] =
              (Returned (MC_OK, m0), t0) /\
            fopens t0 =
              [("/sys/fs/cgroup/kernelsight/c0ffee/memory.current",
                f (Fopen "/sys/fs/cgroup/kernelsight/c0ffee/memory.current" "r"));
               ("/sys/fs/cgroup/kernelsight/c0ffee/memory.peak",
                f (Fopen "/sys/fs/cgroup/kernelsight/c0ffee/memory.peak" "r"));
               ("/sys/fs/cgroup/kernelsight/c0ffee/memory.max",
                f (Fopen "/sys/fs/cgroup/kernelsight/c0ffee/memory.max" "r"));
               ("/sys/fs/cgroup/kernelsight/c0ffee/cpu.stat",
                f (Fopen "/sys/fs/cgroup/kernelsight/c0ffee/cpu.stat" "r"));
               ("/sys/fs/cgroup/kernelsight/c0ffee/pids.current",
                f (Fopen "/sys/fs/cgroup/kernelsight/c0ffee/pids.current" "r"));
               ("/sys/fs/cgroup/kernelsight/c0ffee/pids.max",
                f (Fopen "/sys/fs/cgroup/kernelsight/c0ffee/pids.max" "r"))])
    by (eexists _, _; split; vm_compute; reflexivity);
  destruct Hrun as (m0 & t0 & Hrun & Hf0);
  rewrite Hrun in Hr; injection Hr as <- <-;
  rewrite Hf0 in Hf; injection Hf as _ _ <- <- _ <-;
  specialize (Hmem ltac:(discriminate)); specialize (Hcpu ltac:(discriminate));
  specialize (Hpids ltac:(discriminate)).

Lemma cgroup_get_metrics_translation_witness :
  (exists m t,
     run (oracle_of idle_cgroup)
       (cgroup_get_metrics (limited_container (memory_and_pids 0 0))) [] =
       (Returned (MC_OK, m), [] ++ t) /\
     metrics_memory_limit_bytes m = -1 /\ cpu_usage_ns m = 4711000 /\ pids_limit m = -1) /\
  (exists m t,
     run (oracle_of limited_cgroup)
       (cgroup_get_metrics (limited_container (memory_and_pids 0 0))) [] =
       (Returned (MC_OK, m), [] ++ t) /\
     metrics_memory_limit_bytes m = 52428800 /\ cpu_usage_ns m = 4711000 /\
     pids_limit m = 64) /\
  (exists m t,
     run (oracle_of nul_cgroup)
       (cgroup_get_metrics (limited_container (memory_and_pids 0 0))) [] =
       (Returned (MC_OK, m), [] ++ t) /\
     metrics_memory_limit_bytes m = -1).
Proof.
  split; [|split].
  - sample_metrics idle_cgroup
      (cgroup_get_metrics_translation (oracle_of idle_cgroup) []
         (limited_container (memory_and_pids 0 0))).
    split; [|split].
    + apply (proj1 Hmem "max"); reflexivity.
    + apply (proj2 Hcpu 4711); [reflexivity | by vm_compute].
    + apply (proj1 Hpids "max"); reflexivity.
  - sample_metrics limited_cgroup
      (cgroup_get_metrics_translation (oracle_of limited_cgroup) []
         (limited_container (memory_and_pids 0 0))).
    split; [|split].
    + apply (proj2 Hmem 52428800); [by vm_compute | reflexivity].
    + apply (proj2 Hcpu 4711); [reflexivity | by vm_compute].
    + apply (proj2 Hpids 64); [by vm_compute | reflexivity].
  - sample_metrics nul_cgroup
      (cgroup_get_metrics_translation (oracle_of nul_cgroup) []
         (limited_container (memory_and_pids 0 0))).
    apply (proj1 Hmem "max"); reflexivity.
Defined.

Lemma always_run_answered {A} (o : oracle) (p : prog A) :
  forall (post : outcome A -> list event -> Prop) (h : list event),
    always p post ->
    exists r t, run o p h = (r, h ++ t) /\ post r t /\ answered o h t.
Proof.
  induction p as [a|s|c k IH]; simpl; intros post h Hp.
  - exists (Returned a), []. by rewrite app_nil_r.
  - exists (Stopped s), []. by rewrite app_nil_r.
  - destruct (IH (o h c) _ (h ++ [(c, o h c)]) (Hp (o h c))) as (r & t & Hr & Hpost & Ha).
    exists r, ((c, o h c) :: t). rewrite Hr, <- app_assoc. done.
Qed.

Lemma answered_in (o : oracle) (t : list event) :
  forall h c a, answered o h t -> In (c, a) t -> exists h', a = o h' c.
Proof.
  induction t as [|e t IH]; intros h c a Ha Hin; [done|].
  destruct Ha as [He Ha]. destruct Hin as [->|Hin]; [by exists h|]. by eapply IH.
Qed.

Lemma fopens_in (t : list event) (p : string) (a : answer) :
  In (p, a) (fopens t) -> exists mode, In (Fopen p mode, a) t.
Proof.
  induction t as [|[c x] t IH]; [done|].
  destruct c; simpl; try (intros Hin; destruct (IH Hin) as [m Hm]; exists m; by right).
  intros [[= -> ->]|Hin]; [exists mode; by left|].
  destruct (IH Hin) as [m Hm]. exists m. by right.
Qed.

(** *** [container_list] *)

Lemma list_loop_skip (path d : string) (rest : list string) (arr : Z)
    (found : list container_t) (cap : Z) (a : answer)
    (out : outcome (Z * list container_t)) (t : list event) :
  starts_with_dot d = false -> ret a = 0 ->
  list_loop_spec path rest arr found cap out t ->
  list_loop_spec path (d :: rest) arr found cap out
    ((Fopen (snprintf PATH_MAX (path +:+ "/" +:+ d +:+ "/state.txt")) "r", a) :: t).
Proof.
  intros Hd Ha [Hm Hout]. split; [by constructor|].
  unfold shown in *. cbn [List.filter]. rewrite Hd. cbn [negb].
  destruct out as [[arr' res]|s]; [|done].
  destruct Hout as (Hf & -> & Hal & Harr).
  cbn [fopens map fst snd zip zip_with].
  split; [by rewrite Hf|]. split.
  { unfold listed. cbn [omap list_omap fst snd]. by rewrite Ha. }
  split; [done|]. done.
Qed.

Lemma list_loop_stored (path d : string) (rest : list string) (arr arr2 : Z)
    (found : list container_t) (cap cap2 : Z) (a : answer) (pre : list event)
    (out : outcome (Z * list container_t)) (t : list event) :
  starts_with_dot d = false -> ret a <> 0 ->
  fopens pre = [] -> List.filter alloc_failed pre = [] -> read_only pre ->
  arr2 <> 0 -> (Z.of_nat (length found) < cap -> arr <> 0) ->
  list_loop_spec path rest arr2 (found ++ [list_record path d (text a)]) cap2 out t ->
  list_loop_spec path (d :: rest) arr found cap out
    ((Fopen (snprintf PATH_MAX (path +:+ "/" +:+ d +:+ "/state.txt")) "r", a) :: pre ++ t).
Proof.
  intros Hd Ha Hpre Hpal Hprem Harr2 Harr [Hm Hout]. split.
  { constructor; [done|]. by apply Forall_app. }
  assert (List.filter alloc_failed
            ((Fopen (snprintf PATH_MAX (path +:+ "/" +:+ d +:+ "/state.txt")) "r", a)
             :: pre ++ t) = List.filter alloc_failed t) as Hfil.
  { cbn [List.filter alloc_failed fst]. by rewrite List.filter_app, Hpal. }
  rewrite Hfil.
  unfold shown in *. cbn [List.filter]. rewrite Hd. cbn [negb].
  destruct out as [[arr' res]|s].
  - destruct Hout as (Hf & -> & Hal & Hcase).
    cbn [fopens]. rewrite fopens_app, Hpre. cbn [app map fst snd zip zip_with].
    split; [by rewrite Hf|]. split.
    { unfold listed. cbn [omap list_omap fst snd].
      destruct (Z.eqb_spec (ret a) 0) as [E|_]; [done|]. by rewrite <- app_assoc. }
    split; [done|]. right. split; [|done].
    destruct Hcase as [[_ ->]|[H _]]; done.
  - destruct Hout as [-> Hcase]. split; [done|]. left.
    by destruct Hcase.
Qed.

Lemma always_list_loop (path : string) (entries : list string) :
  forall arr found cap,
    always (list_loop entries path arr found cap)
      (list_loop_spec path entries arr found cap).
Proof.
  induction entries as [|d rest IH]; intros arr found cap; cbn [list_loop].
  { split; [constructor|]. split; [done|]. split; [by rewrite app_nil_r|].
    split; [done|]. by left. }
  destruct (starts_with_dot d) eqn:Hd.
  { eapply always_weaken; [|apply IH]. intros out t. unfold list_loop_spec, shown.
    cbn [List.filter]. by rewrite Hd. }
  wp. destruct (Z.eqb_spec (ret a) 0) as [E|E].
  { eapply always_weaken; [|apply IH]. intros out t. by apply list_loop_skip. }
  wp. destruct (Z.eqb_spec (ret a0) 0) as [Em|Em].
  { assert (alloc_failed (Calloc 1 sizeof_container_t, a0) = true) as Hfail.
    { unfold alloc_failed. cbn [fst snd]. by apply Z.eqb_eq. }
    destruct (existsb sets_field (lines_of 256 (text a))); wp.
    - split; [by repeat constructor|]. split; [done|]. left.
      cbn [List.filter]. by rewrite Hfail.
    - split; [by repeat constructor|]. split; [done|]. left.
      cbn [List.filter]. by rewrite Hfail. }
  assert (alloc_failed (Calloc 1 sizeof_container_t, a0) = false) as Hok.
  { unfold alloc_failed. cbn [fst snd]. by apply Z.eqb_neq. }
  wp. fold (list_record path d (text a)).
  destruct (Z.leb_spec cap (Z.of_nat (length found))) as [Hcap|Hcap]; wp.
  - destruct (Z.eqb_spec (ret a2) 0) as [Er|Er]; wp.
    + split; [by repeat constructor|]. split; [done|]. left.
      cbn [List.filter]. rewrite Hok.
      assert (alloc_failed (Realloc (8 * int_mul cap 2), a2) = true) as ->; [|done].
      unfold alloc_failed. cbn [fst snd]. by apply Z.eqb_eq.
    + eapply always_weaken; [|apply IH]. intros out t.
      apply (list_loop_stored path d rest arr (ret a2) found cap (int_mul cap 2) a [_; _; _]);
        try done.
      * cbn [List.filter]. rewrite Hok.
        assert (alloc_failed (Realloc (8 * int_mul cap 2), a2) = false) as ->; [|done].
        unfold alloc_failed. cbn [fst snd]. by apply Z.eqb_neq.
      * by repeat constructor.
      * lia.
  - destruct (Z.eqb_spec arr 0) as [Ea|Ea]; wp.
    + split; [by repeat constructor|]. split; [done|]. by right.
    + eapply always_weaken; [|apply IH]. intros out t.
      apply (list_loop_stored path d rest arr arr found cap cap a [_; _]); try done.
      * cbn [List.filter]. by rewrite Hok.
      * by repeat constructor.
Qed.

Lemma always_container_list :
  always container_list
    (fun out t =>
       exists dir rest,
         t = (Opendir containers_dir, dir) :: rest /\
         (ret dir = 0 -> out = Returned (MC_OK, None, 0) /\ rest = []) /\
         (ret dir <> 0 ->
            exists m,
              hd_error rest = Some (Malloc 128, m) /\
              read_only t /\
              ((out = Stopped Faulted /\ List.filter alloc_failed t <> []) \/
               (exists found,
                  out = Returned (MC_OK, (if ret m =? 0 then None else Some found),
                                  Z.of_nat (length found)) /\
                  (ret m = 0 -> found = []) /\
                  map fst (fopens t) = map state_file (shown (names dir)) /\
                  found =
                    listed containers_dir (zip (shown (names dir)) (map snd (fopens t))) /\
                  last (calls t) = Some (Closedir (ret dir)))))).
Proof.
  unfold container_list. fold containers_dir. wp.
  destruct (Z.eqb_spec (ret a) 0) as [E|E]; wp.
  { exists a, []. by repeat split. }
  apply always_bind. eapply always_weaken; [|apply always_list_loop].
  intros [[arr found]|s] t [Hm Hout].
  - destruct Hout as (Hf & Hfound & Hal & Hcase). wp.
    eexists a, _. split; [reflexivity|]. split; [done|]. intros _.
    exists a0. split; [done|]. split.
    { constructor; [done|]. constructor; [done|]. apply Forall_app. split; [done|].
      by repeat constructor. }
    right. exists found. cbn [app] in Hfound.
    split.
    { destruct Hcase as [[-> ->]|[Harr Hm0]]; [done|].
      assert (ret a0 <> 0) as Hm1 by (apply Hm0; simpl; lia).
      destruct (Z.eqb_spec arr 0); [done|]. by destruct (Z.eqb_spec (ret a0) 0). }
    split.
    { intros Hz. destruct Hcase as [[-> _]|[_ Hm0]]; [done|].
      destruct Hm0; [simpl; lia|done]. }
    cbn [fopens]. rewrite fopens_app. cbn [fopens]. rewrite app_nil_r.
    split; [exact Hf|]. split; [done|].
    unfold calls. rewrite !map_cons, map_app. cbn [map fst].
    by rewrite !last_cons, last_snoc.
  - destruct Hout as [-> Hcase].
    eexists a, _. split; [reflexivity|]. split; [done|]. intros _.
    exists a0. split; [done|]. split.
    { constructor; [done|]. constructor; [done|]. done. }
    left. split; [done|].
    cbn [List.filter alloc_failed fst snd].
    destruct Hcase as [Hne| ->].
    + by destruct (ret a0 =? 0).
    + by destruct (Z.eqb_spec (ret a0) 0).
Qed.

(** When no allocation gives NULL, no failed allocation is in the trace. *)
Lemma allocates_answered (o : oracle) (t : list event) :
  allocates o -> forall h, answered o h t -> List.filter alloc_failed t = [].
Proof.
  intros Hall. induction t as [|[c a] t IH]; intros h Ha; [done|].
  destruct Ha as [He Ha]. cbn [fst snd] in He. subst a.
  cbn [List.filter]. rewrite (IH _ Ha).
  assert (alloc_failed (c, o h c) = false) as ->; [|done].
  unfold alloc_failed. cbn [fst snd]. specialize (Hall h c).
  destruct c; try done; by apply Z.eqb_neq.
Qed.

(** With allocations that succeed, [container_list] returns the list. *)
Lemma run_container_list (o : oracle) (h : list event) :
  allocates o ->
  exists dir rest,
    let t := (Opendir containers_dir, dir) :: rest in
    dir = o h (Opendir containers_dir) /\
    answered o h t /\ read_only t /\
    (ret dir = 0 -> run o container_list h = (Returned (MC_OK, None, 0), h ++ t)) /\
    (ret dir <> 0 ->
       exists found,
         run o container_list h =
           (Returned (MC_OK, Some found, Z.of_nat (length found)), h ++ t) /\
         map fst (fopens t) = map state_file (shown (names dir)) /\
         found = listed containers_dir (zip (shown (names dir)) (map snd (fopens t)))).
Proof.
  intros Hall.
  destruct (always_run_answered o _ _ h always_container_list)
    as (out & t & Hr & (dir & rest & -> & Hnone & Hsome) & Hans).
  exists dir, rest. cbv zeta.
  pose proof Hans as [Hd _]. cbn [fst snd] in Hd. subst dir.
  split; [done|]. split; [done|].
  pose proof (allocates_answered o _ Hall h Hans) as Hal.
  split.
  { destruct (Z.eq_dec (ret (o h (Opendir containers_dir))) 0) as [E|E].
    - destruct (Hnone E) as [_ ->]. by repeat constructor.
    - by destruct (Hsome E) as (m & _ & Hm & _). }
  split.
  { intros E. destruct (Hnone E) as [-> ->]. exact Hr. }
  intros E. destruct (Hsome E) as (m & Hhd & _ & [[_ Hne]|(found & -> & _ & Hf & Hfound & _)]);
    [done|].
  exists found. split; [|done].
  destruct rest as [|[c m'] rest]; [done|]. injection Hhd as [= -> <-].
  destruct Hans as (_ & Hm & _). cbn [fst snd] in Hm.
  assert (ret m' <> 0) as Hm1.
  { rewrite Hm. apply (Hall _ (Malloc 128)). }
  rewrite Hr. by destruct (Z.eqb_spec (ret m') 0).
Qed.

(** X21. [container_list] opens the state directory first.  If it opens, it
    allocates the array and goes through the entries; the results of
    [malloc], [calloc] and [realloc] are used unchecked, so the call either
    faults, which happens only after an allocation gave NULL, or returns
    [MC_OK].  When it returns, the state files tried are those of the entries
    whose name does not start with a dot, in order; the result holds one
    record per state file that opened, built from its contents, the count is
    the length of the list, the list pointer is NULL only when [malloc] gave
    NULL (and then no record was found), and the directory is closed last. *)
Theorem container_list_entries (o : oracle) (h : list event) :
  exists out t dir rest,
    run o container_list h = (out, h ++ t) /\
    t = (Opendir containers_dir, dir) :: rest /\
    (ret dir = 0 -> out = Returned (MC_OK, None, 0) /\ rest = []) /\
    (ret dir <> 0 ->
       exists m,
         hd_error rest = Some (Malloc 128, m) /\
         ((out = Stopped Faulted /\ List.filter alloc_failed t <> []) \/
          (exists found,
             out = Returned (MC_OK, (if ret m =? 0 then None else Some found),
                             Z.of_nat (length found)) /\
             (ret m = 0 -> found = []) /\
             map fst (fopens t) = map state_file (shown (names dir)) /\
             found = listed containers_dir (zip (shown (names dir)) (map snd (fopens t))) /\
             last (calls t) = Some (Closedir (ret dir))))).
Proof.
  destruct (always_run o _ _ h always_container_list)
    as (out & t & Hr & dir & rest & Ht & Hnone & Hsome).
  exists out, t, dir, rest. split; [done|]. split; [done|]. split; [done|].
  intros Hd. destruct (Hsome Hd) as (m & Hhd & _ & Hcase). by exists m.
Qed.

(** With a NULL record the first line of the state file that sets a field
    faults, before the stream is closed; with a NULL array the store of the
    first record does, after it. *)
Example container_list_null_record :
  let '(out, t) :=
    run (oracle_of (no_record (sample_container CONTAINER_RUNNING))) container_list [] in
  out = Stopped Faulted /\
  calls t = [Opendir containers_dir; Malloc 128; Fopen (state_file "c0ffee") "r";
             Calloc 1 sizeof_container_t].
Proof. by vm_compute. Qed.

Example container_list_null_array :
  let '(out, t) :=
    run (oracle_of (no_array (sample_container CONTAINER_RUNNING))) container_list [] in
  out = Stopped Faulted /\
  calls t = [Opendir containers_dir; Malloc 128; Fopen (state_file "c0ffee") "r";
             Calloc 1 sizeof_container_t; Fclose 6].
Proof. by vm_compute. Qed.

Lemma listed_cgroup_other (id : string) :
  String.eqb (listed_cgroup id) (container_cgroup id) = false.
Proof.
  apply String.eqb_neq. intros Heq.
  assert (get 15 (listed_cgroup id) = get 15 (container_cgroup id)) as Hget
    by (by rewrite Heq).
  unfold listed_cgroup, container_cgroup, snprintf in Hget.
  rewrite !substring_correct1 in Hget by (unfold PATH_MAX; lia).
  discriminate Hget.
Qed.

Lemma listed_records (path : string) (pairs : list (string * answer)) :
  Forall (fun c' =>
            cgroup_path c' =
              snprintf PATH_MAX ("/sys/fs/cgroup/minicontainer/" +:+ id (config c')) /\
            exists d, In d (map fst pairs) /\
                      state_dir c' = snprintf PATH_MAX (path +:+ "/" +:+ d))
    (listed path pairs).
Proof.
  induction pairs as [|[d a] pairs IH]; [constructor|].
  unfold listed in *. cbn [omap list_omap fst snd].
  assert (Forall (fun c' =>
            cgroup_path c' =
              snprintf PATH_MAX ("/sys/fs/cgroup/minicontainer/" +:+ id (config c')) /\
            exists d0, In d0 (map fst ((d, a) :: pairs)) /\
                       state_dir c' = snprintf PATH_MAX (path +:+ "/" +:+ d0))
           (omap (fun da => if ret (snd da) =? 0 then None
                            else Some (list_record path (fst da) (text (snd da)))) pairs))
    as IH'.
  { eapply Forall_impl; [exact IH|]. intros c' [Hc (d0 & Hin & Hd)]. split; [done|].
    exists d0. split; [by right|done]. }
  destruct (ret a =? 0); [done|]. constructor; [|done].
  split; [done|]. exists d. split; [by left|done].
Qed.

(** X22. When no allocation fails, [container_list] returns, and every record
    it returns has the cgroup path [/sys/fs/cgroup/minicontainer/<id>], which
    is never the path [/sys/fs/cgroup/kernelsight/<id>] that [cgroup_init]
    gives the container of that id; its state directory is that of an entry
    not starting with a dot. *)
Theorem container_list_cgroup_path (o : oracle) (h : list event) :
  allocates o ->
  exists res t,
    run o container_list h = (Returned res, h ++ t) /\
    forall found, snd (fst res) = Some found ->
      Forall (fun c' =>
                cgroup_path c' = listed_cgroup (id (config c')) /\
                String.eqb (cgroup_path c') (container_cgroup (id (config c'))) = false /\
                exists d, starts_with_dot d = false /\
                          state_dir c' = snprintf PATH_MAX (containers_dir +:+ "/" +:+ d))
        found.
Proof.
  intros Hall.
  destruct (run_container_list o h Hall) as (dir & rest & _ & _ & _ & Hnone & Hsome).
  cbv zeta in *.
  destruct (Z.eq_dec (ret dir) 0) as [E|E].
  { eexists _, _. split; [exact (Hnone E)|]. done. }
  destruct (Hsome E) as (found & Hr & Hf & Hfound).
  eexists _, _. split; [exact Hr|]. cbn [fst snd]. intros found' [= <-]. subst found.
  eapply Forall_impl; [apply listed_records|].
  intros c' (Hcg & d & Hin & Hsd). split; [done|].
  split; [rewrite Hcg; apply listed_cgroup_other|].
  exists d. split; [|done].
  assert (In d (shown (names dir))) as Hshown.
  { clear - Hin. revert Hin.
    generalize (map snd (fopens ((Opendir containers_dir, dir) :: rest))).
    generalize (shown (names dir)).
    induction l as [|x l IH]; intros [|y l'] Hin; simpl in Hin; try done.
    destruct Hin as [<-|Hin]; [by left|]. right. by eapply IH. }
  unfold shown in Hshown. apply filter_In in Hshown as [_ Hd].
  by destruct (starts_with_dot d).
Qed.

Lemma container_list_cgroup_path_witness :
  exists res t,
    run (oracle_of (saved_state (sample_container CONTAINER_RUNNING))) container_list [] =
      (Returned res, [] ++ t) /\
    forall found, snd (fst res) = Some found ->
      Forall (fun c' =>
                cgroup_path c' = listed_cgroup (id (config c')) /\
                String.eqb (cgroup_path c') (container_cgroup (id (config c'))) = false /\
                exists d, starts_with_dot d = false /\
                          state_dir c' = snprintf PATH_MAX (containers_dir +:+ "/" +:+ d))
        found.
Proof.
  apply (container_list_cgroup_path
           (oracle_of (saved_state (sample_container CONTAINER_RUNNING))) []).
  intros h c. by destruct c.
Defined.

(** X23. [container_list] reads back what [save_container_state] wrote: when
    no allocation fails, for an id and a name that are C strings without
    white space, of at most 64 and 249 characters, and a PID in the range of
    [int], the record listed has the same id, name and PID; the state is kept
    if it is running or stopped and reads as created otherwise. *)
Theorem container_list_reads_saved_state (o : oracle) (h : list event) (c : container_t)
    (d : string) :
  allocates o ->
  is_word (id (config c)) = true -> is_word (name (config c)) = true ->
  (String.length (id (config c)) <= 64)%nat ->
  (String.length (name (config c)) <= 249)%nat ->
  in_int (pid c) ->
  ret (o h (Opendir containers_dir)) <> 0 ->
  shown (names (o h (Opendir containers_dir))) = [d] ->
  (forall h', ret (o h' (Fopen (state_file d) "r")) <> 0 /\
              text (o h' (Fopen (state_file d) "r")) = state_text c) ->
  exists t,
    run o container_list h = (Returned (MC_OK, Some [reloaded c d], 1), h ++ t).
Proof.
  intros Hall Hid Hname Hidlen Hnamelen Hpid Hdir Hshown Hfile.
  destruct (run_container_list o h Hall)
    as (dir & rest & -> & Hans & Hmode & _ & Hsome).
  cbv zeta in *.
  destruct (Hsome Hdir) as (found & Hr & Hf & ->).
  exists ((Opendir containers_dir, o h (Opendir containers_dir)) :: rest).
  rewrite Hr. do 2 f_equal.
  rewrite Hshown in *.
  destruct (fopens ((Opendir containers_dir, o h (Opendir containers_dir)) :: rest))
    as [|[p a] [|? ?]] eqn:Hfo; try discriminate Hf.
  injection Hf as ->.
  assert (exists h', a = o h' (Fopen (state_file d) "r")) as [h' ->].
  { assert (In (state_file d, a)
              (fopens ((Opendir containers_dir, o h (Opendir containers_dir)) :: rest)))
      as Hin by (rewrite Hfo; by left).
    apply fopens_in in Hin as [mode Hin].
    assert (mode = "r") as ->.
    { unfold read_only in Hmode. rewrite List.Forall_forall in Hmode. apply (Hmode _ Hin). }
    eapply answered_in; [|exact Hin]. exact Hans. }
  destruct (Hfile h') as [Hret Htext].
  unfold listed. cbn [zip zip_with map snd omap list_omap fst length Z.of_nat].
  destruct (Z.eqb_spec (ret (o h' (Fopen (state_file d) "r"))) 0) as [E|_]; [done|].
  unfold list_record. rewrite Htext, reload_state_text by done. done.
Qed.

Lemma container_list_reads_saved_state_witness :
  exists t,
    run (oracle_of (saved_state (sample_container CONTAINER_RUNNING))) container_list [] =
      (Returned (MC_OK, Some [reloaded (sample_container CONTAINER_RUNNING) "c0ffee"], 1),
       [] ++ t).
Proof.
  apply (container_list_reads_saved_state
           (oracle_of (saved_state (sample_container CONTAINER_RUNNING))) []
           (sample_container CONTAINER_RUNNING) "c0ffee").
  - intros h c. by destruct c.
  - reflexivity.
  - reflexivity.
  - simpl. lia.
  - simpl. lia.
  - unfold in_int, INT_MIN, INT_MAX. simpl. lia.
  - discriminate.
  - reflexivity.
  - intros h'. split; [discriminate|reflexivity].
Defined.

(** *** [mc_strerror] *)

Lemma mc_strerror_cases (e : Z) :
  (e < -10 \/ 0 < e) /\ mc_strerror e = "Unknown error" \/
  e = 0 /\ mc_strerror e = "Success" \/
  e = -1 /\ mc_strerror e = "Memory allocation failed" \/
  e = -2 /\ mc_strerror e = "Namespace operation failed" \/
  e = -3 /\ mc_strerror e = "Cgroup operation failed" \/
  e = -4 /\ mc_strerror e = "Filesystem operation failed" \/
  e = -5 /\ mc_strerror e = "Process operation failed" \/
  e = -6 /\ mc_strerror e = "Permission denied" \/
  e = -7 /\ mc_strerror e = "Not found" \/
  e = -8 /\ mc_strerror e = "Invalid argument" \/
  e = -9 /\ mc_strerror e = "Already exists" \/
  e = -10 /\ mc_strerror e = "I/O error".
Proof.
  assert (e < -10 \/ 0 < e \/ e = 0 \/ e = -1 \/ e = -2 \/ e = -3 \/ e = -4 \/ e = -5 \/
          e = -6 \/ e = -7 \/ e = -8 \/ e = -9 \/ e = -10) as H by lia.
  destruct H as [H|[H|H]].
  - left. split; [by left|]. unfold mc_strerror.
    repeat match goal with
           | |- context [?x =? ?y] => destruct (Z.eqb_spec x y) as [Heq|_]; [vm_compute in Heq; lia|]
           end. done.
  - left. split; [by right|]. unfold mc_strerror.
    repeat match goal with
           | |- context [?x =? ?y] => destruct (Z.eqb_spec x y) as [Heq|_]; [vm_compute in Heq; lia|]
           end. done.
  - right. repeat (destruct H as [->|H]; [tauto|]). subst. tauto.
Qed.

(** X17. [mc_strerror] gives ["Unknown error"] exactly for the values outside
    -10..0, and different messages for different codes. *)
Theorem mc_strerror_codes (e1 e2 : Z) :
  (mc_strerror e1 = "Unknown error" <-> e1 < -10 \/ 0 < e1) /\
  (-10 <= e1 <= 0 /\ mc_strerror e1 = mc_strerror e2 -> e1 = e2).
Proof.
  split.
  - destruct (mc_strerror_cases e1) as [[H ->]|H]; [done|].
    repeat (destruct H as [[-> ->]|H]; [split; [discriminate|lia]|]).
    destruct H as [-> ->]. split; [discriminate|lia].
  - intros [Hr Heq].
    destruct (mc_strerror_cases e1) as [[H _]|H1]; [lia|].
    destruct (mc_strerror_cases e2) as [[_ H2]|H2].
    + rewrite H2 in Heq.
      repeat (destruct H1 as [[_ H1]|H1]; [rewrite H1 in Heq; discriminate Heq|]).
      destruct H1 as [_ H1]. rewrite H1 in Heq. discriminate Heq.
    + repeat (destruct H1 as [[E1 H1]|H1];
              [rewrite H1 in Heq;
               repeat (destruct H2 as [[E2 H2]|H2];
                       [rewrite H2 in Heq; first [discriminate Heq|congruence]|]);
               destruct H2 as [E2 H2]; rewrite H2 in Heq;
               first [discriminate Heq|congruence]|]).
      destruct H1 as [E1 H1]. rewrite H1 in Heq.
      repeat (destruct H2 as [[E2 H2]|H2];
              [rewrite H2 in Heq; first [discriminate Heq|congruence]|]).
      destruct H2 as [E2 H2]. congruence.
Qed.

(** *** Writing one cgroup file *)

(** X1. [write_cgroup_value] tries to open the file write-only and, if it opened,
    writes the value and closes the descriptor on both exits; it returns
    [MC_OK] exactly when a write took the whole text, [MC_ERR_IO] otherwise, and
    leaves no descriptor open. *)
Theorem write_cgroup_value_outcomes (o : oracle) (h : list event) (path value : string) :
  exists r t,
    run o (write_cgroup_value path value) h = (Returned r, h ++ t) /\
    written path value r (sysevents t) /\
    fd_table ∅ t = ∅ /\
    (r = MC_OK <-> exists fd w, In (Write fd value, w) t /\ ret w = strlen value).
Proof.
  destruct (yields_run o _ _ h (yields_write_cgroup_value path value)) as (r & t & Hr & Hw).
  exists r, t. split; [done|]. split; [done|].
  split; [rewrite <- fd_table_sysevents; by eapply written_closed_empty|].
  assert (forall fd w, In (Write fd value, w) t <-> In (Write fd value, w) (sysevents t))
    as Hin by (intros; by rewrite in_sysevents).
  destruct Hw as [a Ha|a b d Ha Hb|a b d Ha Hb]; split; try done.
  - intros (fd & w & Hi & _). apply Hin in Hi. simpl in Hi. intuition congruence.
  - intros (fd & w & Hi & Hret). apply Hin in Hi. simpl in Hi.
    destruct Hi as [[=]|[[= <- <-]|[[=]|[]]]]. done.
  - intros _. exists (ret a), b. split; [|done]. apply Hin. simpl. auto.
Qed.

(** *** A listed record and the cgroup of its container *)

Lemma get_snprintf (n : nat) (s : string) :
  (n < PATH_MAX - 1)%nat -> get n (snprintf PATH_MAX s) = get n s.
Proof.
  intros Hn. unfold snprintf. rewrite substring_correct1 by done. by rewrite Nat.add_0_r.
Qed.

Lemma proc_file_not_cgroup (pid : Z) (file other : string) :
  String.eqb (proc_file pid file) (snprintf PATH_MAX ("/sys" +:+ other)) = false.
Proof.
  apply String.eqb_neq. intros Heq.
  assert (get 1 (proc_file pid file) = get 1 (snprintf PATH_MAX ("/sys" +:+ other)))
    as Hget by (by rewrite Heq).
  unfold proc_file in Hget. rewrite !get_snprintf in Hget by (unfold PATH_MAX; lia).
  discriminate Hget.
Qed.

Lemma listed_cgroup_file_other (c : container_t) (file : string) :
  cgroup_path c = listed_cgroup (id (config c)) ->
  String.eqb (cgroup_file c file)
    (snprintf PATH_MAX (container_cgroup (id (config c)) +:+ "/" +:+ file)) = false.
Proof.
  intros Hc. apply String.eqb_neq. intros Heq.
  assert (get 15 (cgroup_file c file) =
          get 15 (snprintf PATH_MAX (container_cgroup (id (config c)) +:+ "/" +:+ file)))
    as Hget by (by rewrite Heq).
  unfold cgroup_file in Hget. rewrite Hc in Hget.
  rewrite !get_snprintf in Hget by (unfold PATH_MAX; lia).
  rewrite <- !append_correct1 in Hget.
  - unfold listed_cgroup, container_cgroup in Hget.
    rewrite !get_snprintf in Hget by (unfold PATH_MAX; lia). discriminate Hget.
  - unfold container_cgroup, snprintf. rewrite substring_length, !length_append.
    unfold PATH_MAX. simpl. lia.
  - unfold listed_cgroup, snprintf. rewrite substring_length, !length_append.
    unfold PATH_MAX. simpl. lia.
Qed.

(** X26. For a record with the cgroup path that [container_list] gives, the helper
    of [container_exec] never opens the [cgroup.procs] file of the cgroup
    [cgroup_init] made for that container. *)
Theorem exec_helper_of_listed (o : oracle) (h : list event) (c : container_t)
    (cmd : list string) :
  cgroup_path c = listed_cgroup (id (config c)) ->
  exists s t,
    run o (exec_helper c cmd) h = (Stopped s, h ++ t) /\
    Forall (fun p =>
              String.eqb p
                (snprintf PATH_MAX
                   (container_cgroup (id (config c)) +:+ "/" +:+ "cgroup.procs")) = false)
      (opened t).
Proof.
  intros Hc.
  destruct (exec_helper_run o h c cmd) as (s & t & x & Hr & _ & _ & Hop & _).
  exists s, t. split; [done|]. rewrite Hop.
  repeat (constructor; [apply proc_file_not_cgroup|]).
  constructor; [|constructor]. by apply listed_cgroup_file_other.
Qed.

Lemma exec_helper_of_listed_witness :
  exists s t,
    run (oracle_of friendly)
      (exec_helper (reloaded (sample_container CONTAINER_RUNNING) "c0ffee") ["/bin/sh"]) [] =
      (Stopped s, [] ++ t) /\
    Forall (fun p => String.eqb p "/sys/fs/cgroup/kernelsight/c0ffee/cgroup.procs" = false)
      (opened t).
Proof.
  apply (exec_helper_of_listed (oracle_of friendly) []
           (reloaded (sample_container CONTAINER_RUNNING) "c0ffee") ["/bin/sh"]).
  reflexivity.
Defined.
